(** * Jetzy conversation pipeline: a shallow embedding and its properties

    The development follows the Python sources of the travel assistant:
    - [api/chatgpt.py]            the model gateway and its fallback chain,
    - [utils/context.py]          entity extraction from the model's text,
    - [travel_handler.py]         intent dispatch and date parsing,
    - [link_processor.py]         link extraction and marker stripping,
    - [enhanced_conversation.py]  the per-turn orchestration,
    - [services/conversation.py]  the plain conversation service,
    - [api/mock_data.py]          the mock flights and restaurants,
    - [api/flights/skyscanner.py], [api/dining/yelp.py]  the providers
                                  behind the flight and restaurant searches.

    Python values are modelled by an inductive type of JSON-like values,
    exceptions by a record of their class name and text, and every function
    that can raise or that talks to the outside world lives in a small
    state-and-error monad whose state is the log of outgoing calls. *)

From Stdlib Require Import List String Ascii ZArith QArith Bool Arith Lia PrimFloat.
From Stdlib Require Import DecimalString Sorted Permutation.
Import ListNotations.
Open Scope string_scope.
Open Scope list_scope.
Open Scope nat_scope.

(* ===================================================================== *)
(** ** Python values, truthiness and exceptions *)
(* ===================================================================== *)

Module Py.

#[local] Set Warnings "-register-all".

(** JSON-like Python values.  A [dict] is the list of its bindings in
    insertion order (keys are unique in every dict Python builds; lookup
    takes the first binding).  [VObj] stands for an opaque object such as
    a pydantic response model, named by a tag. *)
Inductive value : Type :=
| VNone
| VBool (b : bool)
| VInt (z : Z)
| VFloat (f : float)
| VStr (s : string)
| VList (l : list value)
| VDict (d : list (string * value))
| VObj (tag : string).

(** [bool(v)]: None, False, zero, and empty containers are falsy. *)
Definition truthy (v : value) : bool :=
  match v with
  | VNone => false
  | VBool b => b
  | VInt z => negb (Z.eqb z 0)
  | VFloat f => negb (PrimFloat.eqb f PrimFloat.zero)
  | VStr s => negb (String.eqb s "")
  | VList l => match l with [] => false | _ => true end
  | VDict d => match d with [] => false | _ => true end
  | VObj _ => true
  end.

Definition dict := list (string * value).

(** [d.get(k)] as an option: [None] when the key is missing. *)
Fixpoint lookup (k : string) (d : dict) : option value :=
  match d with
  | [] => None
  | (k', v) :: d' => if String.eqb k k' then Some v else lookup k d'
  end.

(** [k in d] *)
Definition contains (k : string) (d : dict) : bool :=
  match lookup k d with Some _ => true | None => false end.

(** [d.get(k)]: the value, or Python's [None]. *)
Definition get (k : string) (d : dict) : value :=
  match lookup k d with Some v => v | None => VNone end.

(** [d.get(k, default)] *)
Definition get_default (k : string) (default : value) (d : dict) : value :=
  match lookup k d with Some v => v | None => default end.

(** An exception: the name of its class and [str(e)]. *)
Record exn : Type := Exn { exn_type : string; exn_msg : string }.

Inductive res (A : Type) : Type :=
| Ok (a : A)
| Err (e : exn).
Arguments Ok {A} a.
Arguments Err {A} e.

(** Sequencing of computations that may raise but touch no state. *)
Definition rbind {A B} (r : res A) (k : A -> res B) : res B :=
  match r with Ok a => k a | Err e => Err e end.

(** [try: r  except Exception as e: h e] for such computations. *)
Definition rtry {A} (r : res A) (h : exn -> res A) : res A :=
  match r with Ok a => Ok a | Err e => h e end.
Notation "x <~ r ;; k" := (rbind r (fun x => k))
  (at level 61, r at next level, right associativity).

End Py.
Import Py.

(* ===================================================================== *)
(** ** The effect monad: a state that survives exceptions *)
(* ===================================================================== *)

Module Eff.

Section Monad.
Context {S : Type}.

(** A computation reads the state, returns a value or raises, and leaves
    a new state behind in both cases (a raised exception does not undo
    the calls already made). *)
Definition M (A : Type) : Type := S -> res A * S.

Definition ret {A} (a : A) : M A := fun s => (Ok a, s).

Definition raise {A} (e : exn) : M A := fun s => (Err e, s).

Definition bind {A B} (m : M A) (k : A -> M B) : M B :=
  fun s => match m s with
           | (Ok a, s') => k a s'
           | (Err e, s') => (Err e, s')
           end.

(** [try: m  except Exception as e: h e] *)
Definition try_except {A} (m : M A) (h : exn -> M A) : M A :=
  fun s => match m s with
           | (Ok a, s') => (Ok a, s')
           | (Err e, s') => h e s'
           end.

(** A pure computation that may raise. *)
Definition lift {A} (r : res A) : M A := fun s => (r, s).

End Monad.

Arguments M : clear implicits.

(** Run a computation on one component of a larger state. *)
Definition zoom {S T A} (proj : T -> S) (inj : S -> T -> T) (m : M S A) : M T A :=
  fun t => let (r, s') := m (proj t) in (r, inj s' t).

Declare Scope eff_scope.
Delimit Scope eff_scope with eff.
Notation "x <- m ;; k" := (bind m (fun x => k))
  (at level 61, m at next level, right associativity) : eff_scope.
Notation "m ;;; k" := (bind m (fun _ => k))
  (at level 61, right associativity) : eff_scope.

End Eff.
Import Eff.

(* ===================================================================== *)
(** ** Python string operations used by the sources *)
(* ===================================================================== *)

(** Texts are sequences of one-byte characters; letters, case and
    whitespace are those of ASCII. *)
Module Str.

Definition chars (s : string) : list ascii := list_ascii_of_string s.
Definition of_chars (l : list ascii) : string := string_of_list_ascii l.

Definition code (a : ascii) : nat := nat_of_ascii a.

Definition is_upper (a : ascii) : bool := (65 <=? code a) && (code a <=? 90).
Definition is_lower (a : ascii) : bool := (97 <=? code a) && (code a <=? 122).
Definition is_digit (a : ascii) : bool := (48 <=? code a) && (code a <=? 57).

(** Whitespace as [str.isspace] and the pattern [\s] see it on one-byte
    characters: tab to carriage return, the four separators, space. *)
Definition is_space (a : ascii) : bool :=
  ((9 <=? code a) && (code a <=? 13)) || ((28 <=? code a) && (code a <=? 32)).

Definition lower_char (a : ascii) : ascii :=
  if is_upper a then ascii_of_nat (code a + 32) else a.
Definition upper_char (a : ascii) : ascii :=
  if is_lower a then ascii_of_nat (code a - 32) else a.

(** [s.lower()] and [s.upper()] *)
Definition lower (s : string) : string := of_chars (map lower_char (chars s)).
Definition upper (s : string) : string := of_chars (map upper_char (chars s)).

Fixpoint starts_with (p s : list ascii) : bool :=
  match p, s with
  | [], _ => true
  | a :: p', b :: s' => Ascii.eqb a b && starts_with p' s'
  | _ :: _, [] => false
  end.

Fixpoint contains_chars (p s : list ascii) : bool :=
  starts_with p s ||
  match s with
  | [] => false
  | _ :: s' => contains_chars p s'
  end.

(** [p in s] for two strings. *)
Definition contains (p s : string) : bool := contains_chars (chars p) (chars s).

Fixpoint lstrip_chars (s : list ascii) : list ascii :=
  match s with
  | a :: s' => if is_space a then lstrip_chars s' else s
  | [] => []
  end.

(** [s.strip()] *)
Definition strip (s : string) : string :=
  of_chars (rev (lstrip_chars (rev (lstrip_chars (chars s))))).

(** [s.replace(a, b)] for single characters. *)
Definition replace_char (a b : ascii) (s : string) : string :=
  of_chars (map (fun c => if Ascii.eqb c a then b else c) (chars s)).

(** [s.find(c)]: index of the first occurrence, or -1. *)
Fixpoint find_from (c : ascii) (s : list ascii) (i : Z) : Z :=
  match s with
  | [] => (-1)%Z
  | a :: s' => if Ascii.eqb a c then i else find_from c s' (i + 1)%Z
  end.
Definition find (c : ascii) (s : string) : Z := find_from c (chars s) 0%Z.

(** [s.rfind(c)]: index of the last occurrence, or -1. *)
Fixpoint rfind_from (c : ascii) (s : list ascii) (i : Z) (last : Z) : Z :=
  match s with
  | [] => last
  | a :: s' => rfind_from c s' (i + 1)%Z (if Ascii.eqb a c then i else last)
  end.
Definition rfind (c : ascii) (s : string) : Z := rfind_from c (chars s) 0%Z (-1)%Z.

(** [s[i:j]] for [0 <= i] and [0 <= j]. *)
Definition slice (i j : Z) (s : string) : string :=
  of_chars (firstn (Z.to_nat j - Z.to_nat i) (skipn (Z.to_nat i) (chars s))).

End Str.

(* ===================================================================== *)
(** ** Subscripts, membership and length on Python values *)
(* ===================================================================== *)

Module PyOps.

Definition type_error (msg : string) : exn := Exn "TypeError" msg.

(** [v[k]] for a string key. *)
Definition getitem_key (v : value) (k : string) : res value :=
  match v with
  | VDict d =>
      match lookup k d with
      | Some x => Ok x
      | None => Err (Exn "KeyError" k)
      end
  | VList _ => Err (type_error "list indices must be integers or slices, not str")
  | VStr _ => Err (type_error "string indices must be integers")
  | _ => Err (type_error "object is not subscriptable")
  end.

(** [v[0]] *)
Definition getitem_first (v : value) : res value :=
  match v with
  | VList (x :: _) => Ok x
  | VList [] => Err (Exn "IndexError" "list index out of range")
  | VStr (String a _) => Ok (VStr (String a ""))
  | VStr EmptyString => Err (Exn "IndexError" "string index out of range")
  | VDict _ => Err (Exn "KeyError" "0")
  | _ => Err (type_error "object is not subscriptable")
  end.

(** [s in v] for a string [s]. *)
Definition contains_str (s : string) (v : value) : res bool :=
  match v with
  | VDict d => Ok (Py.contains s d)
  | VList l => Ok (existsb (fun x => match x with VStr t => String.eqb t s | _ => false end) l)
  | VStr t => Ok (Str.contains s t)
  | _ => Err (type_error "argument is not iterable")
  end.

(** [len(v)] *)
Definition len (v : value) : res nat :=
  match v with
  | VList l => Ok (List.length l)
  | VStr s => Ok (String.length s)
  | VDict d => Ok (List.length d)
  | _ => Err (type_error "object has no len()")
  end.

(** [v[:n]], evaluated for a log line: only whether it raises matters. *)
Definition can_slice (v : value) : res unit :=
  match v with
  | VStr _ | VList _ => Ok tt
  | _ => Err (type_error "object is not subscriptable")
  end.

(** The receiver of [v.find(..)] and [v.rfind(..)]: a string. *)
Definition as_text (v : value) : res string :=
  match v with
  | VStr s => Ok s
  | _ => Err (Exn "AttributeError" "object has no attribute 'find'")
  end.

(** The receiver of [v.get(..)]: a dict. *)
Definition as_dict (v : value) : res dict :=
  match v with
  | VDict d => Ok d
  | _ => Err (Exn "AttributeError" "object has no attribute 'get'")
  end.

(** [v += s] for a string [s]: concatenation on a string, extension by
    the characters of [s] on a list. *)
Definition iadd_str (v : value) (s : string) : res value :=
  match v with
  | VStr t => Ok (VStr (t ++ s))
  | VList l => Ok (VList (l ++ map (fun a => VStr (String a "")) (Str.chars s)))
  | _ => Err (type_error "unsupported operand type(s) for +=")
  end.

End PyOps.

(* ===================================================================== *)
(** ** ModelGateway: [api/chatgpt.py] *)
(* ===================================================================== *)

Module ChatGPT.

(** [config.Settings]: the fields the gateway reads. *)
Record Settings : Type := {
  openai_api_key : string;
  default_model : string;
  default_temperature : Q;
  default_max_tokens : Z;
  default_top_p : Q;
  default_frequency_penalty : Q;
  default_presence_penalty : Q
}.

(** The values of [config.py] when no environment override is present. *)
Definition settings0 : Settings :=
  {| openai_api_key := "mock-key";
     default_model := "gpt-3.5-turbo";
     default_temperature := 7 # 10;
     default_max_tokens := 1000;
     default_top_p := 2 # 10;
     default_frequency_penalty := 2 # 10;
     default_presence_penalty := 3 # 10 |}.

(** The keyword arguments of [generate_response]. *)
Record kwargs : Type := {
  kw_model : option string;
  kw_temperature : option Q;
  kw_max_tokens : option Z;
  kw_top_p : option Q;
  kw_frequency_penalty : option Q;
  kw_presence_penalty : option Q
}.

Definition no_kwargs : kwargs :=
  {| kw_model := None; kw_temperature := None; kw_max_tokens := None;
     kw_top_p := None; kw_frequency_penalty := None; kw_presence_penalty := None |}.

(** [kwargs.get(key, default)] *)
Definition kw_get {A : Type} (given : option A) (default : A) : A :=
  match given with Some x => x | None => default end.

(** The fields given to [OpenaiRequest] in [_make_api_request]. *)
Record OpenaiRequest : Type := {
  rq_model : string;
  rq_messages : list value;
  rq_temperature : Q;
  rq_max_tokens : Z;
  rq_top_p : Q;
  rq_frequency_penalty : Q;
  rq_presence_penalty : Q
}.

(** The state of the gateway: the model identities with which
    [_make_api_request] was entered, oldest first. *)
Definition log := list string.

(** [ChatGPTClient()]: the constructor refuses an empty key. *)
Definition ChatGPTClient (settings : Settings) : res unit :=
  if String.eqb (openai_api_key settings) ""
  then Err (Exn "ValueError" "OpenAI API key is missing or empty")
  else Ok tt.

(** The summary of the response that [_make_api_request] logs: it reads
    the response with [.get] and takes the length of its choices, so a
    response of another shape raises here. *)
Definition sanitized_response (response_data : value) : res unit :=
  d <~ PyOps.as_dict response_data ;;
  _ <~ PyOps.len (get_default "choices" (VList []) d) ;;
  Ok tt.

Section Gateway.
(** The completion endpoint: what the [i]-th request sent by this process
    comes to, from the construction of the request object to the decoding
    of the response body.  A rejected request object, a timeout, a
    transport error or an HTTP error status is an [Err]. *)
Variable api : nat -> OpenaiRequest -> res value.
Variable settings : Settings.

Definition build_request (messages : list value) (model : string) (kw : kwargs)
  : OpenaiRequest :=
  {| rq_model := model;
     rq_messages := messages;
     rq_temperature := kw_get (kw_temperature kw) (default_temperature settings);
     rq_max_tokens := kw_get (kw_max_tokens kw) (default_max_tokens settings);
     rq_top_p := kw_get (kw_top_p kw) (default_top_p settings);
     rq_frequency_penalty :=
       kw_get (kw_frequency_penalty kw) (default_frequency_penalty settings);
     rq_presence_penalty :=
       kw_get (kw_presence_penalty kw) (default_presence_penalty settings) |}.

(** The body of [_make_api_request] without its log: every [except]
    clause of the source logs and re-raises. *)
Definition request_outcome (i : nat) (messages : list value) (model : string)
           (kw : kwargs) : res value :=
  response_data <~ api i (build_request messages model kw) ;;
  _ <~ sanitized_response response_data ;;
  Ok response_data.

Definition _make_api_request (messages : list value) (model : string) (kw : kwargs)
  : M log value :=
  fun l => (request_outcome (List.length l) messages model kw, l ++ [model]).

(** The exception of a call that receives [model] twice.  The message is
    the one of CPython 3.10 and later, which names the method with its
    class; earlier versions print the method name alone. *)
Definition multiple_values_error : exn :=
  Exn "TypeError"
      "ChatGPTClient._make_api_request() got multiple values for argument 'model'".

(** The call [self._make_api_request(messages, model, **kwargs)]: when
    [kwargs] itself carries a [model] key the positional and the keyword
    argument collide and Python raises before the body runs. *)
Definition call_make_api_request (messages : list value) (model : string) (kw : kwargs)
  : M log value :=
  match kw_model kw with
  | Some _ => raise multiple_values_error
  | None => _make_api_request messages model kw
  end.

Definition generate_response (messages : list value) (kw : kwargs) : M log value :=
  let model := kw_get (kw_model kw) (default_model settings) in
  try_except (call_make_api_request messages model kw) (fun e =>
    let fallback_model := "gpt-3.5-turbo-0125" in
    let final :=
      try_except (call_make_api_request messages "gpt-3.5-turbo" kw)
                 (fun final_e => raise e) in
    if negb (String.eqb model fallback_model) then
      try_except (call_make_api_request messages fallback_model kw)
                 (fun fallback_e => final)
    else final).

(** What the call [self._make_api_request(messages, model, **kwargs)]
    yields when it is made after [i] requests were sent. *)
Definition attempt_outcome (messages : list value) (kw : kwargs) (i : nat)
           (model : string) : res value :=
  match kw_model kw with
  | Some _ => Err multiple_values_error
  | None => request_outcome i messages model kw
  end.

(** The model identities attempted by one request started with an empty log. *)
Definition attempts (messages : list value) (kw : kwargs) : list string :=
  snd (generate_response messages kw []).

End Gateway.

(** An endpoint on which every request times out. *)
Definition timeout_error : exn := Exn "ReadTimeout" "".
Definition always_timeout : nat -> OpenaiRequest -> res value :=
  fun _ _ => Err timeout_error.

(** An endpoint on which the first two requests time out and the third
    is answered. *)
Definition third_time_lucky : nat -> OpenaiRequest -> res value :=
  fun i rq => if i <? 2 then Err timeout_error
              else Ok (VDict [("model", VStr (rq_model rq))]).

(** An endpoint on which every request fails with an error of its own. *)
Definition fails_in_turn : nat -> OpenaiRequest -> res value :=
  fun i _ =>
    Err (Exn "HTTPStatusError"
             (match i with 0 => "first" | 1 => "second" | _ => "third" end)).

End ChatGPT.

(* ===================================================================== *)
(** ** The backtracking matcher of Python's [re] *)
(* ===================================================================== *)

Module Re.

(** The fragment of pattern syntax the sources use.  [Star true r] is the
    greedy [r*], [Star false r] the lazy [r*?]; [Group i r] is the [i]-th
    capturing parenthesis, a non-capturing [(?:r)] is just [r]. *)
Inductive regex : Type :=
| Eps
| Class (p : ascii -> bool)
| Seq (r1 r2 : regex)
| Alt (r1 r2 : regex)
| Star (greedy : bool) (r : regex)
| Group (i : nat) (r : regex).

Definition Plus (greedy : bool) (r : regex) : regex := Seq r (Star greedy r).

Definition Chr (a : ascii) : regex := Class (Ascii.eqb a).

Fixpoint Lit_chars (l : list ascii) : regex :=
  match l with
  | [] => Eps
  | a :: l' => Seq (Chr a) (Lit_chars l')
  end.
Definition Lit (s : string) : regex := Lit_chars (Str.chars s).

(** [.] without DOTALL: any character but the line feed. *)
Definition Dot : regex := Class (fun a => negb (Ascii.eqb a "010"%char)).

(** The text captured by each group that took part in the match. *)
Definition caps := list (nat * list ascii).

Fixpoint cap_lookup (i : nat) (c : caps) : option (list ascii) :=
  match c with
  | [] => None
  | (j, t) :: c' => if Nat.eqb i j then Some t else cap_lookup i c'
  end.

(** [m.group(i)] as [findall] and [\i] present it: the empty string for
    a group that did not take part. *)
Definition group (i : nat) (c : caps) : string :=
  match cap_lookup i c with Some t => Str.of_chars t | None => "" end.

(** A matcher takes the input, the captures so far and a continuation for
    the rest of the pattern. *)
Definition matcher (R : Type) : Type :=
  list ascii -> caps -> (list ascii -> caps -> option R) -> option R.

(** The iterations of a star whose body is matched by [body]: at most [n]
    of them, each consuming input.  The greedy star tries one more
    iteration before it tries the continuation [k], the lazy star tries
    [k] first. *)
Fixpoint star_loop {R : Type} (body : matcher R) (greedy : bool)
         (k : list ascii -> caps -> option R)
         (n : nat) (s : list ascii) (c : caps) {struct n} : option R :=
  let again :=
    match n with
    | 0 => None
    | S n' =>
        body s c (fun s' c' =>
          if List.length s' <? List.length s
          then star_loop body greedy k n' s' c'
          else None)
    end in
  if greedy
  then match again with Some x => Some x | None => k s c end
  else match k s c with Some x => Some x | None => again end.

(** The matcher, in continuation-passing style: alternatives are tried
    in priority order and the first one whose continuation succeeds wins,
    which is the order in which [re] backtracks. *)
Fixpoint rmatch {R : Type} (r : regex) (s : list ascii) (c : caps)
         (k : list ascii -> caps -> option R) {struct r} : option R :=
  match r with
  | Eps => k s c
  | Class p =>
      match s with
      | a :: s' => if p a then k s' c else None
      | [] => None
      end
  | Seq r1 r2 => rmatch r1 s c (fun s' c' => rmatch r2 s' c' k)
  | Alt r1 r2 =>
      match rmatch r1 s c k with
      | Some x => Some x
      | None => rmatch r2 s c k
      end
  | Star greedy r1 =>
      star_loop (fun s' c' k' => rmatch r1 s' c' k') greedy k (List.length s) s c
  | Group i r1 =>
      rmatch r1 s c (fun s' c' =>
        k s' ((i, firstn (List.length s - List.length s') s) :: c'))
  end.

(** A matcher that sees its continuation only through its results. *)
Definition extensional {R : Type} (body : matcher R) : Prop :=
  forall s c k1 k2, (forall s' c', k1 s' c' = k2 s' c') -> body s c k1 = body s c k2.

(** A matcher that cannot succeed when its continuation cannot. *)
Definition strict {R : Type} (body : matcher R) : Prop :=
  forall s c, body s c (fun _ _ => None) = None.

(** A match anchored at the head of [s]: the rest of the input after the
    match, and the captures. *)
Definition match_at (r : regex) (s : list ascii) : option (list ascii * caps) :=
  rmatch r s [] (fun s' c => Some (s', c)).

(** [re.search]: the leftmost match. *)
Fixpoint search_chars (r : regex) (s : list ascii) : option caps :=
  match match_at r s with
  | Some (_, c) => Some c
  | None => match s with
            | [] => None
            | _ :: s' => search_chars r s'
            end
  end.
Definition search (r : regex) (s : string) : option caps := search_chars r (Str.chars s).

(** One left-to-right pass over the text, as [findall] and [sub] make it:
    a character outside every match, or a match with its captures. *)
Inductive token : Type :=
| Plain (a : ascii)
| Hit (m : list ascii) (c : caps).

Fixpoint scan (fuel : nat) (r : regex) (s : list ascii) : list token :=
  match fuel with
  | 0 => []
  | S fuel' =>
      match match_at r s with
      | Some (s', c) =>
          if List.length s' <? List.length s
          then Hit (firstn (List.length s - List.length s') s) c :: scan fuel' r s'
          else match s with
               | [] => [Hit [] c]
               | a :: t => Hit [] c :: Plain a :: scan fuel' r t
               end
      | None =>
          match s with
          | [] => []
          | a :: t => Plain a :: scan fuel' r t
          end
      end
  end.

Definition tokens (r : regex) (s : string) : list token :=
  scan (S (String.length s)) r (Str.chars s).

Fixpoint hits (l : list token) : list caps :=
  match l with
  | [] => []
  | Plain _ :: l' => hits l'
  | Hit _ c :: l' => c :: hits l'
  end.

(** [re.findall] for a pattern with one group, and with two. *)
Definition findall1 (r : regex) (s : string) : list string :=
  map (group 1) (hits (tokens r s)).
Definition findall2 (r : regex) (s : string) : list (string * string) :=
  map (fun c => (group 1 c, group 2 c)) (hits (tokens r s)).

Fixpoint subst (repl : caps -> string) (l : list token) : string :=
  match l with
  | [] => ""
  | Plain a :: l' => String a (subst repl l')
  | Hit _ c :: l' => repl c ++ subst repl l'
  end.

(** [re.sub(r, repl, s)] *)
Definition sub (r : regex) (repl : caps -> string) (s : string) : string :=
  subst repl (tokens r s).

End Re.

(* ===================================================================== *)
(** ** LinkExtractor: [link_processor.py] *)
(* ===================================================================== *)

Module LinkProcessor.
Import Re.

Definition not_a_string : exn := Exn "TypeError" "expected string or bytes-like object".

(** [re.findall(pattern, text)] and [re.search(pattern, text)] raise
    [TypeError] on an argument that is not a string. *)
Definition re_findall1 (r : regex) (text : value) : res (list string) :=
  match text with VStr s => Ok (findall1 r s) | _ => Err not_a_string end.
Definition re_findall2 (r : regex) (text : value) : res (list (string * string)) :=
  match text with VStr s => Ok (findall2 r s) | _ => Err not_a_string end.
Definition re_search (r : regex) (text : value) : res (option caps) :=
  match text with VStr s => Ok (search r s) | _ => Err not_a_string end.

(** [text.lower()] *)
Definition str_lower (text : value) : res string :=
  match text with
  | VStr s => Ok (Str.lower s)
  | _ => Err (Exn "AttributeError" "object has no attribute 'lower'")
  end.

(** [<Links to ([^>]+)>] *)
Definition generic_link_pattern : regex :=
  Seq (Lit "<Links to ")
      (Seq (Group 1 (Plus true (Class (fun a => negb (Ascii.eqb a ">"%char)))))
           (Chr ">")).

(** [<link:(.*?)\|(.*?)>] *)
Definition specific_link_pattern : regex :=
  Seq (Lit "<link:")
      (Seq (Group 1 (Star false Dot))
           (Seq (Chr "|")
                (Seq (Group 2 (Star false Dot))
                     (Chr ">")))).

(** [in ([A-Za-z\s]+)[\.\,]] *)
Definition location_pattern : regex :=
  Seq (Lit "in ")
      (Seq (Group 1 (Plus true (Class (fun a =>
              Str.is_upper a || Str.is_lower a || Str.is_space a))))
           (Class (fun a => Ascii.eqb a "."%char || Ascii.eqb a ","%char))).

(** The place pattern: group 1 is one or more words, each an upper-case
    letter, one or more lower-case letters and optional whitespace; it
    must be followed by an opening parenthesis, a comma, the word [and]
    between whitespace, a full stop, or whitespace and [is] (the five
    alternatives in this order). *)
Definition place_pattern : regex :=
  let sp := Class Str.is_space in
  Seq (Group 1 (Plus true
         (Seq (Class Str.is_upper)
              (Seq (Plus true (Class Str.is_lower)) (Star true sp)))))
      (Alt (Chr "(")
      (Alt (Chr ",")
      (Alt (Seq (Plus true sp) (Seq (Lit "and") (Plus true sp)))
      (Alt (Chr ".")
           (Seq (Plus true sp) (Lit "is")))))).

(** A link object [{"url": .., "text": .., "type": ..}]. *)
Definition mk_link (url text type : string) : value :=
  VDict [("url", VStr url); ("text", VStr text); ("type", VStr type)].

Definition _generate_placeholder_url (purpose : string) : string :=
  let purpose_lower := Str.strip (Str.lower purpose) in
  if Str.contains "flight" purpose_lower then "https://www.skyscanner.com/"
  else if Str.contains "hotel" purpose_lower then "https://www.booking.com/"
  else if Str.contains "restaurant" purpose_lower
          || Str.contains "dining" purpose_lower
          || Str.contains "reservation" purpose_lower then "https://www.opentable.com/"
  else if Str.contains "attraction" purpose_lower
          || Str.contains "place" purpose_lower
          || Str.contains "these places" purpose_lower then "https://www.tripadvisor.com/"
  else if Str.contains "transport" purpose_lower then "https://www.rome2rio.com/"
  else "https://www.google.com/travel".

Definition generic_link (purpose : string) : value :=
  mk_link (_generate_placeholder_url purpose) ("Find " ++ purpose) "general".

Definition specific_link (m : string * string) : value :=
  let (url, display_text) := m in mk_link url display_text "specific".

Definition place_link (location place : string) : value :=
  mk_link ("https://www.google.com/search?q=" ++ place ++ "+" ++ location)
          ("Learn about " ++ place) "attraction".

Definition explore_link (location : string) : value :=
  mk_link ("https://www.google.com/search?q=things+to+do+in+"
             ++ Str.replace_char " " "+" location)
          ("Explore " ++ location) "general".

Definition stoplist : list string := ["New York"; "United States"; "America"].

Definition stoplisted (place : string) : bool :=
  existsb (String.eqb place) stoplist.

(** The body of the loop that cleans up the place matches. *)
Definition keep_place (places : list string) (place : string) : list string :=
  let place := Str.strip place in
  if (3 <? String.length place) && negb (stoplisted place)
  then places ++ [place]
  else places.

(** The three groups of links, each in the order of its matches. *)
Definition generic_links (s : string) : list value :=
  map generic_link (findall1 generic_link_pattern s).

Definition specific_links (s : string) : list value :=
  map specific_link (findall2 specific_link_pattern s).

Definition kept_place (place : string) : bool :=
  (3 <? String.length place) && negb (stoplisted place).

Definition place_links (s : string) : list value :=
  if Str.contains "places to visit" (Str.lower s) || Str.contains "attractions" (Str.lower s)
  then
    let location :=
      match search location_pattern s with
      | Some c => group 1 c
      | None => "the area"
      end in
    map (place_link location)
        (firstn 3 (filter kept_place (map Str.strip (findall1 place_pattern s))))
    ++ [explore_link location]
  else [].

(** The body of the [try] block: [links] is the list the three loops
    append to. *)
Definition extract_links_body (text : value) : res (list value) :=
  let links := [] in
  generic_matches <~ re_findall1 generic_link_pattern text ;;
  let links :=
    fold_left (fun links purpose => links ++ [generic_link purpose])
              generic_matches links in
  specific_matches <~ re_findall2 specific_link_pattern text ;;
  let links :=
    fold_left (fun links m => links ++ [specific_link m])
              specific_matches links in
  lowered <~ str_lower text ;;
  if Str.contains "places to visit" lowered || Str.contains "attractions" lowered
  then
    location_match <~ re_search location_pattern text ;;
    let location :=
      match location_match with
      | Some c => group 1 c
      | None => "the area"
      end in
    let places := [] in
    place_matches <~ re_findall1 place_pattern text ;;
    let places := fold_left keep_place place_matches places in
    let links :=
      fold_left (fun links place => links ++ [place_link location place])
                (firstn 3 places) links in
    let links := links ++ [explore_link location] in
    Ok links
  else Ok links.

(** [extract_links]: whatever the body raises is logged and answered by
    the empty list. *)
Definition extract_links (text : value) : res (list value) :=
  rtry (extract_links_body text) (fun e => Ok []).

(** [format_response_with_links]: [re.sub] of the specific marker by its
    second group. *)
Definition format_response_with_links (text : string) : string :=
  sub specific_link_pattern (group 2) text.

(** [generate_booking_links]: [data] is a dict or [None], as the
    signature has it; the options inside are any values. *)
Section Booking.
(** [str(v)] for a value that is not a string. *)
Variable py_str : value -> string.
(** What [d[:3]] raises on a dict: [TypeError] for the unhashable slice
    up to Python 3.11, [KeyError] from 3.12 on. *)
Variable dict_slice_error : exn.

(** [f"{v}"] *)
Definition fmt (v : value) : string :=
  match v with VStr s => s | _ => py_str v end.

(** [v == s] for a string literal [s]. *)
Definition is_text (v : value) (s : string) : bool :=
  match v with VStr t => String.eqb t s | _ => false end.

(** The items of [for i, x in enumerate(v[:3])]. *)
Definition first_three (v : value) : res (list value) :=
  match v with
  | VList l => Ok (firstn 3 l)
  | VStr s => Ok (map (fun a => VStr (String a "")) (firstn 3 (Str.chars s)))
  | VDict _ => Err dict_slice_error
  | _ => Err (PyOps.type_error "object is not subscriptable")
  end.

(** A loop that appends one link per item; an exception ends it. *)
Fixpoint links_loop (f : value -> res value) (items links : list value)
  : res (list value) :=
  match items with
  | [] => Ok links
  | x :: items' => link <~ f x ;; links_loop f items' (links ++ [link])
  end.

(** A link whose [url] is whatever the data holds. *)
Definition booking (url : value) (text type : string) : value :=
  VDict [("url", url); ("text", VStr text); ("type", VStr type)].

Definition flight_booking (option : value) : res value :=
  segments <~ PyOps.getitem_key option "outbound_segments" ;;
  first <~ PyOps.getitem_first segments ;;
  airline <~ PyOps.getitem_key first "airline" ;;
  total_price <~ PyOps.getitem_key option "total_price" ;;
  let price := ("$" ++ fmt total_price)%string in
  d <~ PyOps.as_dict option ;;
  Ok (booking (get_default "booking_link" (VStr "https://www.skyscanner.com/") d)
              ("Book " ++ fmt airline ++ " flight for " ++ price) "booking").

Definition restaurant_booking (option : value) : res value :=
  d <~ PyOps.as_dict option ;;
  name <~ PyOps.getitem_key option "name" ;;
  Ok (booking (get_default "reservation_link" (VStr "https://www.opentable.com/") d)
              ("Reserve a table at " ++ fmt name) "booking").

Definition attraction_visit (data : dict) (attraction : value) : res value :=
  let location := get_default "location" (VStr "") data in
  name <~ PyOps.getitem_key attraction "name" ;;
  let url := ("https://www.google.com/search?q=" ++ fmt name ++ "+" ++ fmt location)%string in
  name <~ PyOps.getitem_key attraction "name" ;;
  Ok (booking (VStr url) ("Visit " ++ fmt name) "attraction").

Definition transport_booking (option : value) : res value :=
  segments <~ PyOps.getitem_key option "segments" ;;
  first <~ PyOps.getitem_first segments ;;
  mode <~ PyOps.getitem_key first "mode" ;;
  total_price <~ PyOps.getitem_key option "total_price" ;;
  let price := ("$" ++ fmt total_price)%string in
  d <~ PyOps.as_dict option ;;
  Ok (booking (get_default "booking_link" (VStr "https://www.rome2rio.com/") d)
              ("Book " ++ fmt mode ++ " for " ++ price) "booking").

Definition generate_booking_links (data_type : value) (data : option dict)
  : res (list value) :=
  let links := [] in
  let truthy_data := match data with Some (_ :: _) => true | _ => false end in
  let d := match data with Some d => d | None => [] end in
  if is_text data_type "flight" && truthy_data && Py.contains "options" d then
    options <~ PyOps.getitem_key (VDict d) "options" ;;
    items <~ first_three options ;;
    links_loop flight_booking items links
  else if is_text data_type "restaurant" && truthy_data && Py.contains "options" d then
    options <~ PyOps.getitem_key (VDict d) "options" ;;
    items <~ first_three options ;;
    links_loop restaurant_booking items links
  else if is_text data_type "attraction" && truthy_data && Py.contains "attractions" d then
    attractions <~ PyOps.getitem_key (VDict d) "attractions" ;;
    items <~ first_three attractions ;;
    links_loop (attraction_visit d) items links
  else if is_text data_type "transport" && truthy_data && Py.contains "options" d then
    options <~ PyOps.getitem_key (VDict d) "options" ;;
    items <~ first_three options ;;
    links_loop transport_booking items links
  else Ok links.

End Booking.

End LinkProcessor.

(* ===================================================================== *)
(** ** Calendar dates: what the handlers use of [datetime] *)
(* ===================================================================== *)

Module Cal.
#[local] Open Scope Z_scope.

Record date : Type := Date { year : Z; month : Z; day : Z }.

Record datetime : Type :=
  Datetime { dt_date : date; hour : Z; minute : Z; second : Z }.

Definition is_leap (y : Z) : bool :=
  ((y mod 4 =? 0) && negb (y mod 100 =? 0)) || (y mod 400 =? 0).

Definition days_in_month (y m : Z) : Z :=
  if m =? 2 then (if is_leap y then 29 else 28)
  else if (m =? 4) || (m =? 6) || (m =? 9) || (m =? 11) then 30
  else 31.

(** The dates a [date] object can hold: years 1 to 9999. *)
Definition valid_date (d : date) : bool :=
  (1 <=? year d) && (year d <=? 9999) &&
  (1 <=? month d) && (month d <=? 12) &&
  (1 <=? day d) && (day d <=? days_in_month (year d) (month d)).

(** [d + timedelta(days=1)]: [OverflowError] past the last date. *)
Definition plus_one_day (d : date) : res date :=
  if day d <? days_in_month (year d) (month d)
  then Ok (Date (year d) (month d) (day d + 1))
  else if month d <? 12 then Ok (Date (year d) (month d + 1) 1)
  else if year d <? 9999 then Ok (Date (year d + 1) 1 1)
  else Err (Exn "OverflowError" "date value out of range").

(** [datetime.combine(d, datetime.min.time().replace(hour=12))] *)
Definition at_noon (d : date) : datetime := Datetime d 12 0 0.

End Cal.

(* ===================================================================== *)
(** ** The ISO forms [YYYY-MM-DD] and [YYYY-MM-DD?HH[:MM[:SS]]] *)
(* ===================================================================== *)

(** An instance of the two [fromisoformat] parsers, used to run the
    handlers on concrete texts.  It covers the forms without fraction and
    without offset; on them it agrees with [date.fromisoformat] and
    [datetime.fromisoformat]. *)
Module Iso.
Import Cal.
#[local] Open Scope Z_scope.

Definition digit (a : ascii) : option Z :=
  if Str.is_digit a then Some (Z.of_nat (Str.code a) - 48) else None.

Definition two_digits (a b : ascii) : option Z :=
  match digit a, digit b with
  | Some x, Some y => Some (10 * x + y)
  | _, _ => None
  end.

Definition four_digits (a b c d : ascii) : option Z :=
  match two_digits a b, two_digits c d with
  | Some x, Some y => Some (100 * x + y)
  | _, _ => None
  end.

Definition is_dash (a : ascii) : bool := Ascii.eqb a "-"%char.
Definition is_colon (a : ascii) : bool := Ascii.eqb a ":"%char.

(** The ten characters [YYYY-MM-DD], and what follows them. *)
Definition parse_date_prefix (l : list ascii) : option (date * list ascii) :=
  match l with
  | y1 :: y2 :: y3 :: y4 :: s1 :: m1 :: m2 :: s2 :: d1 :: d2 :: rest =>
      match four_digits y1 y2 y3 y4, two_digits m1 m2, two_digits d1 d2 with
      | Some y, Some m, Some d =>
          if is_dash s1 && is_dash s2 && valid_date (Date y m d)
          then Some (Date y m d, rest)
          else None
      | _, _, _ => None
      end
  | _ => None
  end.

Definition date_fromisoformat (s : string) : option date :=
  match parse_date_prefix (Str.chars s) with
  | Some (d, []) => Some d
  | _ => None
  end.

Definition in_range (lo hi x : Z) : bool := (lo <=? x) && (x <=? hi).

(** [HH], [HH:MM] or [HH:MM:SS] *)
Definition parse_time (l : list ascii) : option (Z * Z * Z) :=
  match l with
  | [h1; h2] =>
      match two_digits h1 h2 with
      | Some h => if in_range 0 23 h then Some (h, 0, 0) else None
      | None => None
      end
  | [h1; h2; c1; m1; m2] =>
      match two_digits h1 h2, two_digits m1 m2 with
      | Some h, Some m =>
          if is_colon c1 && in_range 0 23 h && in_range 0 59 m
          then Some (h, m, 0) else None
      | _, _ => None
      end
  | [h1; h2; c1; m1; m2; c2; s1; s2] =>
      match two_digits h1 h2, two_digits m1 m2, two_digits s1 s2 with
      | Some h, Some m, Some sec =>
          if is_colon c1 && is_colon c2 && in_range 0 23 h
             && in_range 0 59 m && in_range 0 59 sec
          then Some (h, m, sec) else None
      | _, _, _ => None
      end
  | _ => None
  end.

Definition datetime_fromisoformat (s : string) : option datetime :=
  match parse_date_prefix (Str.chars s) with
  | Some (d, []) => Some (Datetime d 0 0 0)
  | Some (d, _sep :: t) =>
      match parse_time t with
      | Some (h, m, sec) => Some (Datetime d h m sec)
      | None => None
      end
  | None => None
  end.

End Iso.

(* ===================================================================== *)
(** ** [models/user.py] *)
(* ===================================================================== *)

Module User.

Record UserContext : Type := {
  user_id : string;
  location : value;
  preferences : value;
  conversation_history : list value;
  last_interaction : option Cal.datetime
}.

(** [UserContext(user_id=user_id)] *)
Definition new (uid : string) : UserContext :=
  {| user_id := uid; location := VNone; preferences := VNone;
     conversation_history := []; last_interaction := None |}.

(** [context.conversation_history.append(turn)] *)
Definition append_turn (turn : value) (c : UserContext) : UserContext :=
  {| user_id := user_id c; location := location c; preferences := preferences c;
     conversation_history := conversation_history c ++ [turn];
     last_interaction := last_interaction c |}.

(** [context.last_interaction = t] *)
Definition touch (t : Cal.datetime) (c : UserContext) : UserContext :=
  {| user_id := user_id c; location := location c; preferences := preferences c;
     conversation_history := conversation_history c;
     last_interaction := Some t |}.

(** A turn [{"role": .., "content": ..}]. *)
Definition turn (role : string) (content : value) : value :=
  VDict [("role", VStr role); ("content", content)].

(** [history[max(0, len(history) - n):]] *)
Definition last_turns (n : nat) (history : list value) : list value :=
  skipn (List.length history - n) history.

End User.

(* ===================================================================== *)
(** ** The request models: [models/flights.py], [models/dining.py],
       [models/transport.py] *)
(* ===================================================================== *)

Module Flights.
Record FlightSearchReqeust : Type := {
  origin : value;
  destination : value;
  departure_date : Cal.date;
  return_date : option Cal.date;
  adults : value;
  children : value;
  infants : value;
  cabin_class : value;
  direct_flights_only : value
}.
End Flights.

Module Dining.
Record RestaurantSearchRequest : Type := {
  location : value;
  radius_km : value;
  cuisines : value;
  price_range : value;
  open_now : value
}.
End Dining.

Module Transport.

Inductive TransportMode : Type :=
| TRAIN | BUS | FLIGHT | CAR | FERRY | SUBWAY | WALK.

(** [getattr(TransportMode, name)] when [hasattr(TransportMode, name)]. *)
Definition member (name : string) : option TransportMode :=
  if String.eqb name "TRAIN" then Some TRAIN
  else if String.eqb name "BUS" then Some BUS
  else if String.eqb name "FLIGHT" then Some FLIGHT
  else if String.eqb name "CAR" then Some CAR
  else if String.eqb name "FERRY" then Some FERRY
  else if String.eqb name "SUBWAY" then Some SUBWAY
  else if String.eqb name "WALK" then Some WALK
  else None.

Record TransportSearchRequest : Type := {
  origin : value;
  destination : value;
  departure_date : Cal.datetime;
  modes : option (list TransportMode);
  adults : value;
  children : value
}.
End Transport.

(* ===================================================================== *)
(** ** IntentDispatcher: [travel_handler.py] *)
(* ===================================================================== *)

Module TravelHandler.

(** A search sent to a provider. *)
Inductive provider_call : Type :=
| SearchFlights (r : Flights.FlightSearchReqeust)
| SearchRestaurants (r : Dining.RestaurantSearchRequest)
| SearchTransport (r : Transport.TransportSearchRequest).

(** The state of the dispatcher: the searches sent, oldest first, each
    with its outcome. *)
Definition plog := list (provider_call * res value).

(** [for x in v] *)
Definition py_iter (v : value) : res (list value) :=
  match v with
  | VList l => Ok l
  | VStr s => Ok (map (fun a => VStr (String a "")) (Str.chars s))
  | VDict d => Ok (map (fun kv => VStr (fst kv)) d)
  | _ => Err (Exn "TypeError" "object is not iterable")
  end.

(** [v.upper()] *)
Definition py_upper (v : value) : res string :=
  match v with
  | VStr s => Ok (Str.upper s)
  | _ => Err (Exn "AttributeError" "object has no attribute 'upper'")
  end.

(** [v == s] for a string literal [s]. *)
Definition eq_str (v : value) (s : string) : bool :=
  match v with VStr t => String.eqb t s | _ => false end.

(** An envelope with its three keys. *)
Definition envelope (type : string) (data : value) (message : string) : value :=
  VDict [("type", VStr type); ("data", data); ("message", VStr message)].

Definition general_envelope : value :=
  VDict [("type", VStr "general"); ("data", VNone)].

Definition error_envelope (e : exn) : value :=
  VDict [("type", VStr "error"); ("message", VStr (exn_msg e))].

(** [env.get(k)] on an envelope, [None] when the key is missing. *)
Definition field (k : string) (env : value) : option value :=
  match env with VDict d => lookup k d | _ => None end.

(** The six intents that have a handler of their own. *)
Definition domain_intent (intent : value) : bool :=
  eq_str intent "flight" || eq_str intent "hotel" || eq_str intent "restaurant"
  || eq_str intent "attraction" || eq_str intent "transport"
  || eq_str intent "seasonal_advice".

(** The four ways a handler started on the log [l] can end: with an
    envelope that carries no data and no search sent, with an exception
    before any search, with the data of a search that succeeded, with the
    exception of a search that failed. *)
Inductive handled (l : plog) : res value * plog -> Prop :=
| handled_without_data (kind message : string) :
    handled l (Ok (envelope kind VNone message), l)
| handled_raised (e : exn) :
    handled l (Err e, l)
| handled_found (c : provider_call) (v : value) (kind message : string) :
    handled l (Ok (envelope kind v message), l ++ [(c, Ok v)])
| handled_search_failed (c : provider_call) (e : exn) :
    handled l (Err e, l ++ [(c, Err e)]).



Section Handler.
(** [date.fromisoformat] and [datetime.fromisoformat] on a string:
    [None] stands for [ValueError]. *)
Variable date_fromisoformat : string -> option Cal.date.
Variable datetime_fromisoformat : string -> option Cal.datetime.
(** [date.today()] *)
Variable today : Cal.date.
(** Construction of the pydantic request models: the validated (and
    possibly coerced) request, or [ValidationError]. *)
Variable validate_flight : Flights.FlightSearchReqeust -> res Flights.FlightSearchReqeust.
Variable validate_restaurant :
  Dining.RestaurantSearchRequest -> res Dining.RestaurantSearchRequest.
Variable validate_transport :
  Transport.TransportSearchRequest -> res Transport.TransportSearchRequest.
(** The providers: the outcome of a search, given how many searches
    were sent before it. *)
Variable search_flights : nat -> Flights.FlightSearchReqeust -> res value.
Variable search_restaurants : nat -> Dining.RestaurantSearchRequest -> res value.
Variable search_transport : nat -> Transport.TransportSearchRequest -> res value.

Definition provider (n : nat) (c : provider_call) : res value :=
  match c with
  | SearchFlights r => search_flights n r
  | SearchRestaurants r => search_restaurants n r
  | SearchTransport r => search_transport n r
  end.

(** [await client.search_...(request)] *)
Definition call_provider (c : provider_call) : M plog value :=
  fun l => let outcome := provider (List.length l) c in (outcome, l ++ [(c, outcome)]).

Definition py_date_fromisoformat (v : value) : res Cal.date :=
  match v with
  | VStr s =>
      match date_fromisoformat s with
      | Some d => Ok d
      | None => Err (Exn "ValueError" ("Invalid isoformat string: " ++ s))
      end
  | _ => Err (Exn "TypeError" "fromisoformat: argument must be str")
  end.

Definition py_datetime_fromisoformat (v : value) : res Cal.datetime :=
  match v with
  | VStr s =>
      match datetime_fromisoformat s with
      | Some d => Ok d
      | None => Err (Exn "ValueError" ("Invalid isoformat string: " ++ s))
      end
  | _ => Err (Exn "TypeError" "fromisoformat: argument must be str")
  end.

(** [except (ValueError, TypeError)] *)
Definition value_or_type_error (e : exn) : bool :=
  String.eqb (exn_type e) "ValueError" || String.eqb (exn_type e) "TypeError".

Definition _parse_date (date_str : value) : res (option Cal.date) :=
  if negb (truthy date_str) then Ok None
  else
    match py_date_fromisoformat date_str with
    | Ok d => Ok (Some d)
    | Err e => if value_or_type_error e then Ok None else Err e
    end.

Definition _parse_datetime (datetime_str : value) : res (option Cal.datetime) :=
  if negb (truthy datetime_str) then Ok None
  else
    match py_datetime_fromisoformat datetime_str with
    | Ok dt => Ok (Some dt)
    | Err e =>
        if value_or_type_error e then
          (* Try parsing as date if datetime fails *)
          match _parse_date datetime_str with
          | Ok (Some parsed_date) => Ok (Some (Cal.at_noon parsed_date))
          | Ok None => Ok None
          | Err _ => Ok None
          end
        else Err e
    end.

Definition _handle_flight_search (entities : dict) : M plog value :=
  let origin := get "origin" entities in
  let destination := get "destination" entities in
  if negb (truthy origin) || negb (truthy destination) then
    ret (envelope "flight" VNone "Missing origin or destination for flight search")
  else
    (departure_date <- lift (_parse_date (get "departure_date" entities)) ;;
     return_date <- lift (_parse_date (get "return_date" entities)) ;;
     departure_date <-
       match departure_date with
       | Some d => ret d
       | None => lift (Cal.plus_one_day today)
       end ;;
     request <- lift (validate_flight
       {| Flights.origin := origin;
          Flights.destination := destination;
          Flights.departure_date := departure_date;
          Flights.return_date := return_date;
          Flights.adults := get_default "adults" (VInt 1) entities;
          Flights.children := get_default "children" (VInt 0) entities;
          Flights.infants := get_default "infants" (VInt 0) entities;
          Flights.cabin_class := get_default "cabin_class" (VStr "economy") entities;
          Flights.direct_flights_only :=
            get_default "direct_flights_only" (VBool false) entities |}) ;;
     response <- call_provider (SearchFlights request) ;;
     ret (envelope "flight" response "Flight options retrieved successfully"))%eff.

Definition _handle_restaurant_search (entities : dict) : M plog value :=
  let location := get "location" entities in
  if negb (truthy location) then
    ret (envelope "restaurant" VNone "Missing location for restaurant search")
  else
    (request <- lift (validate_restaurant
       {| Dining.location := location;
          Dining.radius_km := get_default "radius_km" (VFloat 5%float) entities;
          Dining.cuisines := get "cuisines" entities;
          Dining.price_range := get "price_range" entities;
          Dining.open_now := get "open_now" entities |}) ;;
     response <- call_provider (SearchRestaurants request) ;;
     ret (envelope "restaurant" response "Restaurant options retrieved successfully"))%eff.

(** The body of the loop over the requested modes. *)
Definition add_mode (modes : res (list Transport.TransportMode)) (mode : value)
  : res (list Transport.TransportMode) :=
  modes <~ modes ;;
  name <~ py_upper mode ;;
  match Transport.member name with
  | Some m => Ok (modes ++ [m])
  | None => Ok modes
  end.

Definition parse_modes (entities : dict) : res (option (list Transport.TransportMode)) :=
  match lookup "transport_modes" entities with
  | Some requested =>
      l <~ py_iter requested ;;
      modes <~ fold_left add_mode l (Ok []) ;;
      Ok (Some modes)
  | None => Ok None
  end.

Definition _handle_transport_search (entities : dict) : M plog value :=
  let origin := get "origin" entities in
  let destination := get "destination" entities in
  if negb (truthy origin) || negb (truthy destination) then
    ret (envelope "transport" VNone "Missing origin or destination for transport search")
  else
    (departure_date <- lift (_parse_datetime (get "departure_date" entities)) ;;
     departure_date <-
       match departure_date with
       | Some d => ret d
       | None =>
           tomorrow <- lift (Cal.plus_one_day today) ;;
           ret (Cal.at_noon tomorrow)
       end ;;
     modes <- lift (parse_modes entities) ;;
     request <- lift (validate_transport
       {| Transport.origin := origin;
          Transport.destination := destination;
          Transport.departure_date := departure_date;
          Transport.modes := modes;
          Transport.adults := get_default "adults" (VInt 1) entities;
          Transport.children := get_default "children" (VInt 0) entities |}) ;;
     response <- call_provider (SearchTransport request) ;;
     ret (envelope "transport" response "Transport options retrieved successfully"))%eff.

Definition _handle_hotel_search (entities : dict) : M plog value :=
  ret (envelope "hotel" VNone "Hotel search functionality coming soon").

Definition _handle_attraction_search (entities : dict) : M plog value :=
  ret (envelope "attraction" VNone "Attraction search functionality coming soon").

Definition _handle_seasonal_advice (entities : dict) : M plog value :=
  ret (envelope "seasonal_advice" VNone "Seasonal advice functionality coming soon").



Definition process_travel_intent (intent : value) (entities : dict)
           (context : User.UserContext) : M plog value :=
  try_except
    (if eq_str intent "flight" then _handle_flight_search entities
     else if eq_str intent "hotel" then _handle_hotel_search entities
     else if eq_str intent "restaurant" then _handle_restaurant_search entities
     else if eq_str intent "attraction" then _handle_attraction_search entities
     else if eq_str intent "transport" then _handle_transport_search entities
     else if eq_str intent "seasonal_advice" then _handle_seasonal_advice entities
     else ret general_envelope)
    (fun e => ret (error_envelope e)).

End Handler.

End TravelHandler.

(* ===================================================================== *)
(** ** EntityExtractor: [utils/context.py] *)
(* ===================================================================== *)

Module Context.
Import ChatGPT User.

Definition general_entities : value := VDict [("intent", VStr "general")].

(** [except json.JSONDecodeError] *)
Definition json_decode_error (e : exn) : bool :=
  String.eqb (exn_type e) "JSONDecodeError".

(** [try: m  except C: h] for the exceptions selected by [p]; the others
    pass through. *)
Definition try_except_when {S A} (p : exn -> bool) (m : M S A) (h : exn -> M S A) : M S A :=
  try_except m (fun e => if p e then h e else raise e).

Definition extraction_kwargs : kwargs :=
  {| kw_model := None; kw_temperature := Some (2 # 10); kw_max_tokens := Some 500%Z;
     kw_top_p := None; kw_frequency_penalty := None; kw_presence_penalty := None |}.

(** The text handed to [json.loads]: from the first opening brace to the
    last closing brace, when the one comes before the other. *)
Definition json_candidate (content : string) : option string :=
  let json_start := Str.find "{" content in
  let json_end := (Str.rfind "}" content + 1)%Z in
  if (0 <=? json_start)%Z && (json_start <? json_end)%Z
  then Some (Str.slice json_start json_end content)
  else None.

Section Extractor.
Variable api : nat -> OpenaiRequest -> res value.
Variable settings : Settings.
(** [json.loads] *)
Variable json_loads : string -> res value.
(** The fixed instruction text of the extraction prompt. *)
Variable extraction_prompt : string.

(** [response["choices"][0]["message"]["content"]] *)
Definition response_content (response : value) : res value :=
  choices <~ PyOps.getitem_key response "choices" ;;
  first <~ PyOps.getitem_first choices ;;
  message <~ PyOps.getitem_key first "message" ;;
  PyOps.getitem_key message "content".

(** The prompt: the instruction, the last four turns, the new message. *)
Definition extraction_messages (message : string) (context : UserContext) : list value :=
  let system_prompt := turn "system" (VStr extraction_prompt) in
  let conversation_history :=
    match conversation_history context with
    | [] => []
    | _ => last_turns 4 (conversation_history context)
    end in
  [system_prompt] ++ conversation_history ++ [turn "user" (VStr message)].

Definition extract_entities (message : string) (context : UserContext) : M log value :=
  (chatgpt_client <- lift (ChatGPTClient settings) ;;
   let messages := extraction_messages message context in
   entities <-
     try_except
       (response <- generate_response api settings messages extraction_kwargs ;;
        content <- lift (response_content response) ;;
        _ <- lift (PyOps.can_slice content) ;;
        try_except_when json_decode_error
          (content <- lift (PyOps.as_text content) ;;
           let json_start := Str.find "{" content in
           let json_end := (Str.rfind "}" content + 1)%Z in
           if (0 <=? json_start)%Z && (json_start <? json_end)%Z then
             let json_str := Str.slice json_start json_end content in
             lift (json_loads json_str)
           else
             ret general_entities)
          (fun _ => ret general_entities))
       (fun e => ret general_entities) ;;
   (* chatgpt_client.close() swallows its own errors *)
   ret entities)%eff.

End Extractor.

End Context.

(* ===================================================================== *)
(** ** ConversationOrchestrator: [enhanced_conversation.py] *)
(* ===================================================================== *)

Module EnhancedConversation.
Import ChatGPT User TravelHandler.

(** The outside world of one turn: the requests sent to the model
    endpoint and the searches sent to the providers. *)
Record world : Type := World { api_log : log; provider_log : plog }.

(** The store of a turn: the world and the context object, which
    [process_message] mutates in place. *)
Definition store : Type := world * UserContext.

Definition on_api {A} (m : M log A) : M store A :=
  zoom (fun st : store => api_log (fst st))
       (fun l st => (World l (provider_log (fst st)), snd st)) m.

Definition on_providers {A} (m : M plog A) : M store A :=
  zoom (fun st : store => provider_log (fst st))
       (fun l st => (World (api_log (fst st)) l, snd st)) m.

(** Read and update the context object. *)
Definition the_context : M store UserContext := fun st => (Ok (snd st), st).
Definition update_context (f : UserContext -> UserContext) : M store unit :=
  fun st => (Ok tt, (fst st, f (snd st))).

(** The dict [{"text": .., "links": .., "context": ..}]. *)
Record reply : Type := Reply { text : value; links : value; context : UserContext }.

Definition synthesis_kwargs : kwargs :=
  {| kw_model := None; kw_temperature := Some (7 # 10); kw_max_tokens := Some 1000%Z;
     kw_top_p := None; kw_frequency_penalty := None; kw_presence_penalty := None |}.

Definition nl : string := String "010"%char "".

Definition apology (error_type : string) : string :=
  "I'm having trouble processing your request. There was an error: " ++ error_type
  ++ ". Please try again in a moment, or let me know if I can help with something else.".

Section Service.
Variable api : nat -> OpenaiRequest -> res value.
Variable settings : Settings.
Variable json_loads : string -> res value.
(** [json.dumps(v, default=str)] *)
Variable json_dumps : value -> string.
Variable extraction_prompt : string.
(** The fixed persona instruction of the synthesis prompt. *)
Variable persona_prompt : string.
(** [datetime.now()] *)
Variable now : Cal.datetime.
Variable date_fromisoformat : string -> option Cal.date.
Variable datetime_fromisoformat : string -> option Cal.datetime.
Variable today : Cal.date.
Variable validate_flight : Flights.FlightSearchReqeust -> res Flights.FlightSearchReqeust.
Variable validate_restaurant :
  Dining.RestaurantSearchRequest -> res Dining.RestaurantSearchRequest.
Variable validate_transport :
  Transport.TransportSearchRequest -> res Transport.TransportSearchRequest.
Variable search_flights : nat -> Flights.FlightSearchReqeust -> res value.
Variable search_restaurants : nat -> Dining.RestaurantSearchRequest -> res value.
Variable search_transport : nat -> Transport.TransportSearchRequest -> res value.

(** The test ["choices" in response and len(response["choices"]) > 0
    and "message" in response["choices"][0]], left to right. *)
Definition has_message (response : value) : res bool :=
  a <~ PyOps.contains_str "choices" response ;;
  if negb a then Ok false else
  choices <~ PyOps.getitem_key response "choices" ;;
  n <~ PyOps.len choices ;;
  if negb (0 <? n) then Ok false else
  first <~ PyOps.getitem_first choices ;;
  PyOps.contains_str "message" first.

(** The marker appended to an attraction reply that carries none. *)
Definition add_missing_placeholder (entities : dict) (content : value) : res value :=
  let intent := get_default "intent" (VStr "") entities in
  if negb (eq_str intent "attraction") then Ok content else
  a <~ PyOps.contains_str "<Links to these places>" content ;;
  if a then Ok content else
  b <~ PyOps.contains_str "<Links to " content ;;
  if b then Ok content else
  PyOps.iadd_str content " <Links to these places>".

(** [_generate_response]: the outer [except] logs and re-raises, so an
    exception of the body is the exception of the call.  The result is
    the value under ["text"]. *)
Definition _generate_response (message : string) (entities : dict)
           (handler_response : value) (context : UserContext) : M log value :=
  let system_prompt := turn "system" (VStr persona_prompt) in
  let content_message :=
    turn "system"
      (VStr ("Here's the data retrieved for the user's query:" ++ nl
             ++ json_dumps handler_response ++ nl ++ nl
             ++ "Please use this data to provide a helpful response to the user's query: '"
             ++ message ++ "'")) in
  let history_limit := 10 in
  let history := last_turns history_limit (conversation_history context) in
  let messages := [system_prompt; content_message] ++ history in
  (response <- generate_response api settings messages synthesis_kwargs ;;
   ok <- lift (has_message response) ;;
   if ok then
     content <- lift (Context.response_content response) ;;
     _ <- lift (PyOps.can_slice content) ;;
     lift (add_missing_placeholder entities content)
   else
     raise (Exn "ValueError" "Unexpected response format from OpenAI API"))%eff.

(** The body of the [try] block of [process_message]. *)
Definition process_message_body (message : string) : M store reply :=
  (context <- the_context ;;
   entities <- on_api (Context.extract_entities api settings json_loads
                         extraction_prompt message context) ;;
   entities <- lift (PyOps.as_dict entities) ;;
   let intent := get_default "intent" (VStr "general") entities in
   handler_response <-
     on_providers (process_travel_intent date_fromisoformat datetime_fromisoformat
                     today validate_flight validate_restaurant validate_transport
                     search_flights search_restaurants search_transport
                     intent entities context) ;;
   response_text <- on_api (_generate_response message entities handler_response context) ;;
   _ <- update_context (append_turn (turn "assistant" response_text)) ;;
   envelope <- lift (PyOps.as_dict handler_response) ;;
   let links := get_default "links" (VList []) envelope in
   links <-
     (if negb (truthy links)
      then found <- lift (LinkProcessor.extract_links response_text) ;;
           ret (VList found)
      else ret links) ;;
   _ <- lift (PyOps.len links) ;;
   context <- the_context ;;
   ret (Reply response_text links context))%eff.

Definition process_message (user_id : string) (message : string)
           (context : option UserContext) : M world reply :=
  fun w =>
    let context :=
      match context with
      | Some c => c
      | None => User.new user_id
      end in
    let run :=
      (_ <- update_context (append_turn (turn "user" (VStr message))) ;;
       _ <- update_context (touch now) ;;
       try_except (process_message_body message)
         (fun e =>
            let error_type := exn_type e in
            context <- the_context ;;
            ret (Reply (VStr (apology error_type)) (VList []) context)))%eff in
    let (r, st) := run (w, context) in
    (r, fst st).

End Service.

End EnhancedConversation.

(* ===================================================================== *)
(** ** The response models of [models/flights.py] *)
(* ===================================================================== *)

(** The mock data builds dicts with the keys of these models and the
    provider builds the models from them, field by field; both are the
    same records here.  [total_price], a float in the model, holds the
    integer that was drawn, and [booking_link] the text of the URL. *)
Module FlightSegment.
Record t : Type := {
  airline : string;
  flight_number : string;
  departure_airport : string;
  departure_time : Cal.datetime;
  arrival_airport : string;
  arrival_time : Cal.datetime;
  duration_minutes : Z;
  cabin_class : string
}.
End FlightSegment.

Module FlightOption.
Record t : Type := {
  outbound_segments : list FlightSegment.t;
  return_segments : option (list FlightSegment.t);
  total_price : Z;
  currency : string;
  booking_link : string;
  provider : string
}.
End FlightOption.

Module FlightSearchResponse.
Record t : Type := {
  options : list FlightOption.t;
  search_id : string;
  currency : string;
  search_params : Flights.FlightSearchReqeust
}.
End FlightSearchResponse.

(* ===================================================================== *)
(** ** The response models of [models/dining.py] *)
(* ===================================================================== *)

(** A [time] is its hour and its minute; a key that a mock dict does not
    have is [None]. *)
Module RestaurantHours.
Record t : Type := {
  day_of_week : string;
  opening_time : option (Z * Z);
  closing_time : option (Z * Z);
  is_closed : bool
}.
End RestaurantHours.

Module RestaurantLocation.
Record t : Type := {
  address : string;
  city : string;
  region : option string;
  country : string;
  latitude : float;
  longitude : float
}.
End RestaurantLocation.

Module RestaurantOption.
Record t : Type := {
  name : string;
  cuisines : list string;
  price_level : string;
  rating : float;
  reviews_count : Z;
  location : RestaurantLocation.t;
  hours : list RestaurantHours.t;
  phone : option string;
  website : option string;
  reservation_link : option string;
  image_url : option string;
  provider : string
}.
End RestaurantOption.

Module RestaurantSearchResponse.
Record t : Type := {
  options : list RestaurantOption.t;
  search_id : string;
  search_params : Dining.RestaurantSearchRequest
}.
End RestaurantSearchResponse.

(* ===================================================================== *)
(** ** Durations and random draws: what the mock data uses of
       [timedelta] and [random] *)
(* ===================================================================== *)

Module Timedelta.
Import Cal.
#[local] Open Scope Z_scope.

(** [d + timedelta(days=n)] *)
Fixpoint plus_days (n : nat) (d : date) : res date :=
  match n with
  | O => Ok d
  | S n' => d' <~ plus_one_day d ;; plus_days n' d'
  end.

(** [dt + timedelta(minutes=m)] for [0 <= m]: [OverflowError] past the
    last date. *)
Definition plus_minutes (dt : datetime) (m : Z) : res datetime :=
  let total := 60 * hour dt + minute dt + m in
  d <~ plus_days (Z.to_nat (total / 1440)) (dt_date dt) ;;
  Ok (Datetime d ((total mod 1440) / 60) (total mod 60) (second dt)).

End Timedelta.

(** The generator of [random]: its state is the number of draws made so
    far, and an entropy source says what each draw reads.  Every run of
    the generator is the run on some source. *)
Module Random.

Section Source.
Variable entropy : nat -> nat.

(** [random.randint(a, b)] for [a <= b] *)
Definition randint (a b : Z) : M nat Z :=
  fun n => (Ok (a + Z.of_nat (entropy n) mod (b - a + 1))%Z, S n).

(** [random.choice(l)] *)
Definition choice {A : Type} (l : list A) : M nat A :=
  fun n =>
    match nth_error l (entropy n mod List.length l) with
    | Some x => (Ok x, S n)
    | None => (Err (Exn "IndexError" "Cannot choose from an empty sequence"), n)
    end.

(** [l] without its [i]-th item. *)
Fixpoint without {A : Type} (i : nat) (l : list A) {struct l} : list A :=
  match l, i with
  | [], _ => []
  | _ :: l', O => l'
  | x :: l', S i' => x :: without i' l'
  end.

(** [random.sample(population, k)]: [k] items drawn one after the other
    without replacement. *)
Fixpoint sample {A : Type} (population : list A) (k : nat) : M nat (list A) :=
  match k with
  | O => ret []
  | S k' =>
      fun n =>
        let i := entropy n mod List.length population in
        match nth_error population i with
        | Some x =>
            (rest <- sample (without i population) k' ;; ret (x :: rest))%eff (S n)
        | None =>
            (Err (Exn "ValueError" "Sample larger than population or is negative"), n)
        end
  end.

(** What [random.random()] returns at each draw. *)
Variable unit_interval : nat -> float.

(** [random.random()] *)
Definition random : M nat float := fun n => (Ok (unit_interval n), S n).

(** [random.uniform(a, b)] *)
Definition uniform (a b : float) : M nat float :=
  (r <- random ;; ret (a + (b - a) * r)%float)%eff.

End Source.

End Random.

(* ===================================================================== *)
(** ** The flights of [api/mock_data.py] *)
(* ===================================================================== *)

Module MockData.
Import Cal Random.

Definition MOCK_AIRLINES : list string :=
  ["American Airlines"; "Delta AirLines"; "Emirates"].

Record airport : Type := {
  code : string;
  name : string;
  city : string;
  country : string
}.

Definition JFK : airport :=
  {| code := "JFK"; name := "John F. Kennedy Airport"; city := "New York";
     country := "United States" |}.
Definition LHR : airport :=
  {| code := "LHR"; name := "Heathrow Airport"; city := "Los Angeles";
     country := "United Kingdom" |}.
Definition CAI : airport :=
  {| code := "CAI"; name := "Cairo International Airport"; city := "Cairo";
     country := "Egypt" |}.

Definition MOCK_AIRPORTS : list (string * airport) :=
  [("NYC", JFK); ("LHR", LHR); ("CAI", CAI)].

(** The first airport whose key or whose code is [place], if any. *)
Definition find_airport (place : string) : option airport :=
  match find (fun entry => String.eqb (fst entry) place
                           || String.eqb (code (snd entry)) place) MOCK_AIRPORTS with
  | Some entry => Some (snd entry)
  | None => None
  end.

(** [s[0]] *)
Definition first_char (s : string) : res string :=
  match s with
  | String a _ => Ok (String a "")
  | EmptyString => Err (Exn "IndexError" "string index out of range")
  end.

(** [str(z)] *)
Definition str_int (z : Z) : string := NilZero.string_of_int (Z.to_int z).

Definition quarters : list Z := [0; 15; 30; 45]%Z.

(** [sorted(l, key=key)]: the stable sort in ascending order. *)
Fixpoint insert_by {A : Type} (key : A -> Z) (x : A) (l : list A) : list A :=
  match l with
  | [] => [x]
  | y :: l' => if (key x <=? key y)%Z then x :: l else y :: insert_by key x l'
  end.
Fixpoint sorted_by {A : Type} (key : A -> Z) (l : list A) : list A :=
  match l with
  | [] => []
  | x :: l' => insert_by key x (sorted_by key l')
  end.

Section Generator.
Variable entropy : nat -> nat.

(** One round of the loop: the option it appends, if it appends one. *)
Definition one_flight (origin_data dest_data : airport) (departure_date : date)
           (return_date : option date) : M nat (option FlightOption.t) :=
  (airline <- choice entropy MOCK_AIRLINES ;;
   initial <- lift (first_char airline) ;;
   number <- randint entropy 100 999 ;;
   let flight_number := (initial ++ str_int number)%string in
   dep_hour <- randint entropy 6 22 ;;
   dep_minute <- choice entropy quarters ;;
   let dep_time := Datetime departure_date dep_hour dep_minute 0 in
   hours <- randint entropy 3 10 ;;
   minutes <- choice entropy quarters ;;
   let duration := (60 * hours + minutes)%Z in
   arr_time <- lift (Timedelta.plus_minutes dep_time duration) ;;
   let outbound_segment :=
     {| FlightSegment.airline := airline;
        FlightSegment.flight_number := flight_number;
        FlightSegment.departure_airport := code origin_data;
        FlightSegment.departure_time := dep_time;
        FlightSegment.arrival_airport := code dest_data;
        FlightSegment.arrival_time := arr_time;
        FlightSegment.duration_minutes := duration;
        FlightSegment.cabin_class := "economy" |} in
   match return_date with
   | Some return_date =>
       ret_hour <- randint entropy 6 22 ;;
       ret_minute <- choice entropy quarters ;;
       let ret_dep_time := Datetime return_date ret_hour ret_minute 0 in
       ret_hours <- randint entropy 3 10 ;;
       ret_minutes <- choice entropy quarters ;;
       let ret_duration := (60 * ret_hours + ret_minutes)%Z in
       ret_arr_time <- lift (Timedelta.plus_minutes ret_dep_time ret_duration) ;;
       initial <- lift (first_char airline) ;;
       ret_number <- randint entropy 100 999 ;;
       let return_segments :=
         [ {| FlightSegment.airline := airline;
              FlightSegment.flight_number := initial ++ str_int ret_number;
              FlightSegment.departure_airport := code dest_data;
              FlightSegment.departure_time := ret_dep_time;
              FlightSegment.arrival_airport := code origin_data;
              FlightSegment.arrival_time := ret_arr_time;
              FlightSegment.duration_minutes := ret_duration;
              FlightSegment.cabin_class := "economy" |} ] in
       base_price <- randint entropy 300 1200 ;;
       base_price <-
         (if String.eqb airline "Emirates" then randint entropy 200 400
          else ret base_price) ;;
       provider <- choice entropy ["Skyscanner"; "Expedia"] ;;
       ret (Some
              {| FlightOption.outbound_segments := [outbound_segment];
                 FlightOption.return_segments := Some return_segments;
                 FlightOption.total_price := base_price;
                 FlightOption.currency := "USD";
                 FlightOption.booking_link :=
                   "https://example.com/book/flight/" ++ code origin_data ++ "-"
                   ++ code dest_data;
                 FlightOption.provider := provider |})
   | None => ret None
   end)%eff.

(** [for i in range(count)]: the options appended so far are threaded. *)
Fixpoint flights_loop (origin_data dest_data : airport) (departure_date : date)
         (return_date : option date) (count : nat) (options : list FlightOption.t)
  : M nat (list FlightOption.t) :=
  match count with
  | O => ret options
  | S count' =>
      (made <- one_flight origin_data dest_data departure_date return_date ;;
       flights_loop origin_data dest_data departure_date return_date count'
         (match made with
          | Some option => options ++ [option]
          | None => options
          end))%eff
  end.

Definition generate_mock_flight (origin destination : value) (departure_date : date)
           (return_date : option date) (count : nat) : M nat (list FlightOption.t) :=
  (origin_upper <- lift (TravelHandler.py_upper origin) ;;
   let origin_data := find_airport origin_upper in
   destination_upper <- lift (TravelHandler.py_upper destination) ;;
   let dest_data := find_airport destination_upper in
   let (origin_data, dest_data) :=
     match origin_data, dest_data with
     | Some o, Some d => (o, d)
     | _, _ => (JFK, LHR)
     end in
   options <- flights_loop origin_data dest_data departure_date return_date count [] ;;
   ret (sorted_by FlightOption.total_price options))%eff.

End Generator.

(** *** The restaurants *)

#[local] Set Warnings "-inexact-float".

(** An entry of the table of restaurants. *)
Record restaurant : Type := {
  r_name : string;
  r_cuisines : list string;
  r_price_level : string;
  r_rating : float
}.

Definition MOCK_RESTAURANTS : list (string * list restaurant) :=
  [("New York",
    [{| r_name := "Le Bernardin"; r_cuisines := ["French"]; r_price_level := "$$$";
        r_rating := 4.8%float |};
     {| r_name := "Ebuka Diny"; r_cuisines := ["Korean"]; r_price_level := "$$$$";
        r_rating := 4.9%float |}]);
   ("Rome",
    [{| r_name := "Da Enzo"; r_cuisines := ["Italian"]; r_price_level := "$$";
        r_rating := 4.5%float |};
     {| r_name := "KFC"; r_cuisines := ["American"]; r_price_level := "$$$";
        r_rating := 4.3%float |}]);
   ("Paris",
    [{| r_name := "Le Jules"; r_cuisines := ["French"]; r_price_level := "$$";
        r_rating := 4.0%float |};
     {| r_name := "Septime"; r_cuisines := ["French"]; r_price_level := "$$$";
        r_rating := 3.9%float |}])].

(** [MOCK_RESTAURANTS.get(loc_key, [])] *)
Fixpoint restaurants_of (loc_key : string) (table : list (string * list restaurant))
  : list restaurant :=
  match table with
  | [] => []
  | (city, l) :: table' => if String.eqb loc_key city then l else restaurants_of loc_key table'
  end.

(** [v.lower()] *)
Definition py_lower (v : value) : res string :=
  match v with
  | VStr s => Ok (Str.lower s)
  | _ => Err (Exn "AttributeError" "object has no attribute 'lower'")
  end.

(** [s.replace('', '-')]: a dash before every character and at the end. *)
Fixpoint dashed (s : string) : string :=
  match s with
  | EmptyString => "-"
  | String a s' => String "-" (String a (dashed s'))
  end.

(** The loop that keeps the restaurants whose price level is in
    [price_range]. *)
Fixpoint price_filter (price_range : value) (restaurants filtered : list restaurant)
  : res (list restaurant) :=
  match restaurants with
  | [] => Ok filtered
  | restaurant :: restaurants' =>
      keep <~ PyOps.contains_str (r_price_level restaurant) price_range ;;
      price_filter price_range restaurants'
        (if keep then filtered ++ [restaurant] else filtered)
  end.

(** [sorted(l, key=key, reverse=True)]: the stable sort in descending
    order. *)
Fixpoint insert_desc {A : Type} (key : A -> float) (x : A) (l : list A) : list A :=
  match l with
  | [] => [x]
  | y :: l' => if PrimFloat.leb (key y) (key x) then x :: l else y :: insert_desc key x l'
  end.
Fixpoint sorted_desc {A : Type} (key : A -> float) (l : list A) : list A :=
  match l with
  | [] => []
  | x :: l' => insert_desc key x (sorted_desc key l')
  end.

Definition week : list string :=
  ["Monday"; "Tuesday"; "Wednesday"; "Thursday"; "Friday"; "Saturday"; "Sunday"].

Definition country_of (loc_key : string) : string :=
  if String.eqb loc_key "New York" then "United States"
  else if existsb (String.eqb loc_key) ["Rome, Milan"] then "Italy"
  else if String.eqb loc_key "Cairo" then "Egypt"
  else if String.eqb loc_key "Paris" then "France"
  else "United Kingdom".

Section Restaurants.
Variable entropy : nat -> nat.
Variable unit_interval : nat -> float.

(** The loop over the days of the week. *)
Fixpoint hours_loop (days : list string) (hours : list RestaurantHours.t)
  : M nat (list RestaurantHours.t) :=
  match days with
  | [] => ret hours
  | day :: days' =>
      (r <- random unit_interval ;;
       let is_closed := PrimFloat.ltb r 0.1%float in
       if is_closed then
         hours_loop days'
           (hours ++ [ {| RestaurantHours.day_of_week := day;
                          RestaurantHours.opening_time := None;
                          RestaurantHours.closing_time := None;
                          RestaurantHours.is_closed := true |} ])
       else
         let lunch_open := (11, 30)%Z in
         let dinner_open := (17, 30)%Z in
         let dinner_close := (22, 0)%Z in
         r <- random unit_interval ;;
         hours_loop days'
           (hours ++ [ {| RestaurantHours.day_of_week := day;
                          RestaurantHours.opening_time :=
                            Some (if PrimFloat.ltb r 0.7%float then lunch_open
                                  else dinner_open);
                          RestaurantHours.closing_time := Some dinner_close;
                          RestaurantHours.is_closed := false |} ]))%eff
  end.

(** The option appended for one restaurant. *)
Definition one_restaurant (loc_key : string) (restaurant : restaurant)
  : M nat RestaurantOption.t :=
  (hours <- hours_loop week [] ;;
   reviews_count <- randint entropy 50 500 ;;
   street_number <- randint entropy 1 999 ;;
   latitude <- uniform unit_interval (-90)%float 90%float ;;
   longitude <- uniform unit_interval (-180)%float 180%float ;;
   phone1 <- randint entropy 100 999 ;;
   phone2 <- randint entropy 100 999 ;;
   phone3 <- randint entropy 1000 9999 ;;
   provider <- choice entropy ["Yelp"; "Zomato"] ;;
   ret {| RestaurantOption.name := r_name restaurant;
          RestaurantOption.cuisines := r_cuisines restaurant;
          RestaurantOption.price_level := r_price_level restaurant;
          RestaurantOption.rating := r_rating restaurant;
          RestaurantOption.reviews_count := reviews_count;
          RestaurantOption.location :=
            {| RestaurantLocation.address := str_int street_number ++ " Ebuka Micheal St";
               RestaurantLocation.city := loc_key;
               RestaurantLocation.region := None;
               RestaurantLocation.country := country_of loc_key;
               RestaurantLocation.latitude := latitude;
               RestaurantLocation.longitude := longitude |};
          RestaurantOption.hours := hours;
          RestaurantOption.phone :=
            Some ("+1-" ++ str_int phone1 ++ "-" ++ str_int phone2 ++ "-"
                  ++ str_int phone3)%string;
          RestaurantOption.website :=
            Some ("https://example.com/restaurants/" ++ dashed (Str.lower loc_key) ++ "/"
                  ++ dashed (Str.lower (r_name restaurant)))%string;
          RestaurantOption.reservation_link :=
            Some ("https://example.com/book/restaurant/" ++ dashed (Str.lower loc_key)
                  ++ "/" ++ dashed (Str.lower (r_name restaurant)))%string;
          RestaurantOption.image_url := None;
          RestaurantOption.provider := provider |})%eff.

Fixpoint restaurants_loop (loc_key : string) (selected : list restaurant)
         (options : list RestaurantOption.t) : M nat (list RestaurantOption.t) :=
  match selected with
  | [] => ret options
  | restaurant :: selected' =>
      (option <- one_restaurant loc_key restaurant ;;
       restaurants_loop loc_key selected' (options ++ [option]))%eff
  end.

Definition generate_mock_restaurant (location cuisines price_range : value) (count : nat)
  : M nat (list RestaurantOption.t) :=
  (let cities := map fst MOCK_RESTAURANTS in
   default <- choice entropy cities ;;
   location_lower <- lift (py_lower location) ;;
   let loc_key :=
     match find (fun city => String.eqb (Str.lower city) location_lower) cities with
     | Some city => city
     | None => default
     end in
   let restaurants := restaurants_of loc_key MOCK_RESTAURANTS in
   restaurants <-
     (if truthy cuisines then
        filtered_restaurants <- lift (price_filter price_range restaurants []) ;;
        ret (match filtered_restaurants with
             | [] => restaurants
             | _ => filtered_restaurants
             end)
      else ret restaurants) ;;
   selected_restaurants <-
     sample entropy restaurants (Nat.min (List.length restaurants) count) ;;
   options <- restaurants_loop loc_key selected_restaurants [] ;;
   ret (sorted_desc RestaurantOption.rating options))%eff.

End Restaurants.

End MockData.

(* ===================================================================== *)
(** ** The flight provider: [api/flights/skyscanner.py] *)
(* ===================================================================== *)

Module Skyscanner.

(** [FlightSegment(airline=segment["airline"], ...)] *)
Definition to_segment (segment : FlightSegment.t) : FlightSegment.t :=
  {| FlightSegment.airline := FlightSegment.airline segment;
     FlightSegment.flight_number := FlightSegment.flight_number segment;
     FlightSegment.departure_airport := FlightSegment.departure_airport segment;
     FlightSegment.departure_time := FlightSegment.departure_time segment;
     FlightSegment.arrival_airport := FlightSegment.arrival_airport segment;
     FlightSegment.arrival_time := FlightSegment.arrival_time segment;
     FlightSegment.duration_minutes := FlightSegment.duration_minutes segment;
     FlightSegment.cabin_class := FlightSegment.cabin_class segment |}.

(** The body of the loop over the mock options. *)
Definition to_option (mock : FlightOption.t) : FlightOption.t :=
  let outbound_segments := map to_segment (FlightOption.outbound_segments mock) in
  let return_segments :=
    match FlightOption.return_segments mock with
    | Some (first :: rest) => Some (map to_segment (first :: rest))
    | _ => None
    end in
  {| FlightOption.outbound_segments := outbound_segments;
     FlightOption.return_segments := return_segments;
     FlightOption.total_price := FlightOption.total_price mock;
     FlightOption.currency := FlightOption.currency mock;
     FlightOption.booking_link := FlightOption.booking_link mock;
     FlightOption.provider := FlightOption.provider mock |}.

Section Client.
Variable entropy : nat -> nat.
(** [str(v)] for a value that is not a string. *)
Variable py_str : value -> string.

(** [f"{v}"] *)
Definition fmt (v : value) : string :=
  match v with VStr s => s | _ => py_str v end.

Definition search_flights (request : Flights.FlightSearchReqeust)
  : M nat FlightSearchResponse.t :=
  (mock_options <-
     MockData.generate_mock_flight entropy
       (Flights.origin request) (Flights.destination request)
       (Flights.departure_date request) (Flights.return_date request) 5 ;;
   let options := map to_option mock_options in
   ret {| FlightSearchResponse.options := options;
          FlightSearchResponse.search_id :=
            "mock-search-" ++ fmt (Flights.origin request) ++ "-"
            ++ fmt (Flights.destination request);
          FlightSearchResponse.currency := "USD";
          FlightSearchResponse.search_params := request |})%eff.

End Client.

End Skyscanner.

(* ===================================================================== *)
(** ** The restaurant provider: [api/dining/yelp.py] *)
(* ===================================================================== *)

Module Yelp.

Section Client.
Variable entropy : nat -> nat.
Variable unit_interval : nat -> float.
(** [str(v)] for a value that is not a string. *)
Variable py_str : value -> string.
(** Construction of the pydantic models of one option (its hours, its
    location, the option itself): the validated option, or
    [ValidationError]. *)
Variable validate_option : RestaurantOption.t -> res RestaurantOption.t.

(** [option["provider"] = "Yelp"] *)
Definition by_yelp (option : RestaurantOption.t) : RestaurantOption.t :=
  {| RestaurantOption.name := RestaurantOption.name option;
     RestaurantOption.cuisines := RestaurantOption.cuisines option;
     RestaurantOption.price_level := RestaurantOption.price_level option;
     RestaurantOption.rating := RestaurantOption.rating option;
     RestaurantOption.reviews_count := RestaurantOption.reviews_count option;
     RestaurantOption.location := RestaurantOption.location option;
     RestaurantOption.hours := RestaurantOption.hours option;
     RestaurantOption.phone := RestaurantOption.phone option;
     RestaurantOption.website := RestaurantOption.website option;
     RestaurantOption.reservation_link := RestaurantOption.reservation_link option;
     RestaurantOption.image_url := RestaurantOption.image_url option;
     RestaurantOption.provider := "Yelp" |}.

(** The loop that builds the models, one option after the other. *)
Fixpoint options_loop (mock_options options : list RestaurantOption.t)
  : res (list RestaurantOption.t) :=
  match mock_options with
  | [] => Ok options
  | mock :: mock_options' =>
      option <~ validate_option mock ;;
      options_loop mock_options' (options ++ [option])
  end.

Definition search_restaurants (request : Dining.RestaurantSearchRequest)
  : M nat RestaurantSearchResponse.t :=
  (mock_options <-
     MockData.generate_mock_restaurant entropy unit_interval
       (Dining.location request) (Dining.cuisines request)
       (Dining.price_range request) 5 ;;
   let mock_options := map by_yelp mock_options in
   options <- lift (options_loop mock_options []) ;;
   ret {| RestaurantSearchResponse.options := options;
          RestaurantSearchResponse.search_id :=
            "mock-search-yelp-" ++ Skyscanner.fmt py_str (Dining.location request);
          RestaurantSearchResponse.search_params := request |})%eff.

End Client.

End Yelp.

(* ===================================================================== *)
(** ** The plain conversation service: [services/conversation.py] *)
(* ===================================================================== *)

Module Conversation.
Import ChatGPT User.

(** The text [_handle_query] answers with when anything goes wrong. *)
Definition fallback_text : string :=
  "I'm having trouble connecting to my travel database at the moment. "
  ++ "Please try again in a moment, or let me know if I can help with something else.".

Section Service.
Variable api : nat -> OpenaiRequest -> res value.
Variable settings : Settings.
(** The fixed persona instruction of the prompt. *)
Variable system_text : string.
(** [datetime.now()] *)
Variable now : Cal.datetime.
(** [obj.choices] on an opaque object, by the tag of the object. *)
Variable object_choices : string -> res value.

(** [response.choices]: an attribute, not a key.  None of the JSON
    types has an attribute of this name. *)
Definition attr_choices (response : value) : res value :=
  match response with
  | VObj tag => object_choices tag
  | _ => Err (Exn "AttributeError" "object has no attribute 'choices'")
  end.

(** The dict [{"type": "general", "text": ..}]. *)
Definition general_answer (text : value) : value :=
  VDict [("type", VStr "general"); ("text", text)].

Definition _handle_query (message : string) (context : UserContext) : M log value :=
  let system_prompt := turn "system" (VStr system_text) in
  let messages := [system_prompt] in
  let history_limit := 10 in
  let messages := messages ++ last_turns history_limit (conversation_history context) in
  try_except
    (response <- generate_response api settings messages no_kwargs ;;
     choices <- lift (attr_choices response) ;;
     first <- lift (PyOps.getitem_first choices) ;;
     chosen <- lift (PyOps.getitem_key first "message") ;;
     content <- lift (PyOps.getitem_key chosen "content") ;;
     ret (general_answer content))%eff
    (fun e => ret (general_answer (VStr fallback_text))).

(** [process_message]: the context object is updated in place and
    returned in the reply; it is threaded here. *)
Definition process_message (user_id : string) (message : string)
           (context : option UserContext) : M log EnhancedConversation.reply :=
  let context :=
    match context with
    | Some c => c
    | None => User.new user_id
    end in
  let context := append_turn (turn "user" (VStr message)) context in
  let context := touch now context in
  (response_data <- _handle_query message context ;;
   text <- lift (PyOps.getitem_key response_data "text") ;;
   let context := append_turn (turn "assistant" text) context in
   text <- lift (PyOps.getitem_key response_data "text") ;;
   ret (EnhancedConversation.Reply text (VList []) context))%eff.

End Service.

End Conversation.

(* ===================================================================== *)
(** ** Concrete collaborators, to run the pipeline on examples *)
(* ===================================================================== *)

Module Demo.
Import Cal.

Definition today : date := Date 2024 4 30.
Definition now : datetime := Datetime today 9 30 0.

(** Request models that validate as they are. *)
Definition accept {A : Type} (r : A) : res A := Ok r.

(** Providers that answer, and providers that are down. *)
Definition found {A : Type} (tag : string) (n : nat) (r : A) : res value := Ok (VObj tag).
Definition connect_error : exn := Exn "ConnectError" "All connection attempts failed".
Definition down {A : Type} (n : nat) (r : A) : res value := Err connect_error.

(** Dispatch with the ISO parsers, accepting models and working providers. *)
Definition dispatch (intent : value) (entities : dict) : M TravelHandler.plog value :=
  TravelHandler.process_travel_intent Iso.date_fromisoformat Iso.datetime_fromisoformat
    today accept accept accept
    (found "FlightSearchResponse") (found "RestaurantSearchResponse")
    (found "TransportSearchResponse") intent entities (User.new "u1").

(** The same with every provider down. *)
Definition dispatch_down (intent : value) (entities : dict)
  : M TravelHandler.plog value :=
  TravelHandler.process_travel_intent Iso.date_fromisoformat Iso.datetime_fromisoformat
    today accept accept accept down down down intent entities (User.new "u1").

Definition paris_trip : dict :=
  [("intent", VStr "flight"); ("origin", VStr "New York"); ("destination", VStr "Paris")].

(** The same trip with a departure text. *)
Definition paris_trip_on (departure : string) : dict :=
  paris_trip ++ [("departure_date", VStr departure)].

Definition flight_search : dict -> M TravelHandler.plog value :=
  TravelHandler._handle_flight_search Iso.date_fromisoformat today accept
    (found "FlightSearchResponse") (found "RestaurantSearchResponse")
    (found "TransportSearchResponse").

Definition transport_search : dict -> M TravelHandler.plog value :=
  TravelHandler._handle_transport_search Iso.date_fromisoformat
    Iso.datetime_fromisoformat today accept
    (found "FlightSearchResponse") (found "RestaurantSearchResponse")
    (found "TransportSearchResponse").

(** A decoder for the fragment of JSON the extraction prompt asks for:
    one flat object whose values are strings without escapes or unsigned
    integers.  On this fragment it decodes as [json.loads] does; the
    instance refuses every other text with [JSONDecodeError]. *)
Definition quote : ascii := "034"%char.

Definition decode_error : exn := Exn "JSONDecodeError" "Expecting value".

(** The whitespace of JSON: space, tab, line feed, carriage return. *)
Definition json_space (a : ascii) : bool :=
  Ascii.eqb a " "%char || Ascii.eqb a "009"%char
  || Ascii.eqb a "010"%char || Ascii.eqb a "013"%char.

Fixpoint skip_ws (l : list ascii) : list ascii :=
  match l with
  | a :: l' => if json_space a then skip_ws l' else l
  | [] => []
  end.

(** The characters up to the closing quote, and what follows it; no
    escape and no control character. *)
Fixpoint until_quote (l : list ascii) : option (list ascii * list ascii) :=
  match l with
  | [] => None
  | a :: l' =>
      if Ascii.eqb a quote then Some ([], l')
      else if Ascii.eqb a "092"%char || (Str.code a <? 32) then None
      else match until_quote l' with
           | Some (t, rest) => Some (a :: t, rest)
           | None => None
           end
  end.

Fixpoint digits (acc : Z) (l : list ascii) : Z * list ascii :=
  match l with
  | a :: l' =>
      match Iso.digit a with
      | Some d => digits (10 * acc + d)%Z l'
      | None => (acc, l)
      end
  | [] => (acc, [])
  end.

(** A string, or an integer without sign and without leading zero. *)
Definition scalar (l : list ascii) : option (value * list ascii) :=
  match l with
  | a :: l' =>
      if Ascii.eqb a quote then
        match until_quote l' with
        | Some (t, rest) => Some (VStr (Str.of_chars t), rest)
        | None => None
        end
      else if Ascii.eqb a "0"%char then
        match l' with
        | b :: _ => if Str.is_digit b then None else Some (VInt 0, l')
        | [] => Some (VInt 0, l')
        end
      else if Str.is_digit a then
        let (n, rest) := digits 0%Z l in Some (VInt n, rest)
      else None
  | [] => None
  end.

(** [d[k] = v] on the bindings that follow: a key that comes again keeps
    its first place and takes the later value. *)
Definition bind_first (k : string) (v : value) (later : dict) : dict :=
  (k, match lookup k later with Some v' => v' | None => v end)
  :: filter (fun kv => negb (String.eqb (fst kv) k)) later.

(** The members after the opening brace: [fuel] bounds their number. *)
Fixpoint members (fuel : nat) (l : list ascii) : option dict :=
  match fuel with
  | 0 => None
  | S fuel' =>
      match skip_ws l with
      | a :: l1 =>
          if Ascii.eqb a quote then
            match until_quote l1 with
            | Some (k, l2) =>
                match skip_ws l2 with
                | c :: l3 =>
                    if Ascii.eqb c ":"%char then
                      match scalar (skip_ws l3) with
                      | Some (v, l4) =>
                          match skip_ws l4 with
                          | [] => None
                          | d :: l5 =>
                              if Ascii.eqb d "}"%char then
                                match skip_ws l5 with
                                | [] => Some [(Str.of_chars k, v)]
                                | _ => None
                                end
                              else if Ascii.eqb d ","%char then
                                match members fuel' l5 with
                                | Some m => Some (bind_first (Str.of_chars k) v m)
                                | None => None
                                end
                              else None
                          end
                      | None => None
                      end
                    else None
                | [] => None
                end
            | None => None
            end
          else None
      | [] => None
      end
  end.

Definition json_loads (s : string) : res value :=
  match skip_ws (Str.chars s) with
  | a :: l =>
      if Ascii.eqb a "{"%char then
        match skip_ws l with
        | b :: rest =>
            if Ascii.eqb b "}"%char then
              match skip_ws rest with
              | [] => Ok (VDict [])
              | _ => Err decode_error
              end
            else
              match members (List.length l) l with
              | Some d => Ok (VDict d)
              | None => Err decode_error
              end
        | [] => Err decode_error
        end
      else Err decode_error
  | [] => Err decode_error
  end.

(** A serializer that elides the data. *)
Definition json_dumps (v : value) : string := "{...}".

(** A completion whose only choice carries [content]. *)
Definition completion (content : value) : value :=
  VDict [("choices", VList [VDict [("message", VDict [("role", VStr "assistant");
                                                       ("content", content)])]])].

Definition q : string := String quote "".

(** The answer of the extraction scenario: prose around one object. *)
Definition flight_answer : string :=
  "Sure! {" ++ q ++ "intent" ++ q ++ ": " ++ q ++ "flight" ++ q ++ ", "
  ++ q ++ "origin" ++ q ++ ": " ++ q ++ "New York" ++ q ++ ", "
  ++ q ++ "destination" ++ q ++ ": " ++ q ++ "Paris" ++ q ++ "} done".

(** An endpoint that answers every request with the same text. *)
Definition answers (content : value) : nat -> ChatGPT.OpenaiRequest -> res value :=
  fun _ _ => Ok (completion content).

(** An endpoint that answers the first request, the one of the
    extraction, and times out on all later ones. *)
Definition answers_once (content : value) : nat -> ChatGPT.OpenaiRequest -> res value :=
  fun i _ => match i with
             | 0 => Ok (completion content)
             | _ => Err ChatGPT.timeout_error
             end.

(** A whole turn with working providers. *)
Definition turn_of (api : nat -> ChatGPT.OpenaiRequest -> res value)
  : string -> string -> option User.UserContext
    -> M EnhancedConversation.world EnhancedConversation.reply :=
  EnhancedConversation.process_message api ChatGPT.settings0 json_loads json_dumps
    "Extract the travel entities." "You are Jetzy." now
    Iso.date_fromisoformat Iso.datetime_fromisoformat today accept accept accept
    (found "FlightSearchResponse") (found "RestaurantSearchResponse")
    (found "TransportSearchResponse").

Definition extract (api : nat -> ChatGPT.OpenaiRequest -> res value)
  : string -> User.UserContext -> M ChatGPT.log value :=
  Context.extract_entities api ChatGPT.settings0 json_loads "Extract the travel entities.".

End Demo.

(* ===================================================================== *)
(** * Properties *)
(* ===================================================================== *)

(* ===================================================================== *)
(** ** The fallback chain of the gateway *)
(* ===================================================================== *)

Section GatewayFacts.
Import ChatGPT.
Variable api : nat -> OpenaiRequest -> res value.
Variable settings : Settings.
Variable messages : list value.
Variable kw : kwargs.

Let primary : string := kw_get (kw_model kw) (default_model settings).

(** The helper [attempt_outcome] is what a call made with [i] earlier
    requests in the log returns. *)
Lemma call_outcome (l : log) (model : string) :
  fst (call_make_api_request api settings messages model kw l)
  = attempt_outcome api settings messages kw (List.length l) model.
Proof.
  unfold call_make_api_request, attempt_outcome, _make_api_request, raise.
  destruct (kw_model kw); reflexivity.
Qed.

(** A call that reaches the endpoint appends its model to the log; a call
    refused for its arguments leaves the log alone. *)
Lemma call_log (l : log) (model : string) :
  snd (call_make_api_request api settings messages model kw l)
  = match kw_model kw with Some _ => l | None => l ++ [model] end.
Proof.
  unfold call_make_api_request, _make_api_request, raise.
  destruct (kw_model kw); reflexivity.
Qed.

(** An error that leaves [generate_response] is the error of the first
    attempt, whatever the fallbacks did. *)
Lemma surfaced_error_is_primary (l : log) (e : exn) :
  fst (generate_response api settings messages kw l) = Err e ->
  fst (call_make_api_request api settings messages primary kw l) = Err e.
Proof.
  unfold generate_response, try_except. fold primary.
  destruct (call_make_api_request api settings messages primary kw l) as [[r|e1] l1];
    simpl; [discriminate|].
  destruct (negb (primary =? "gpt-3.5-turbo-0125")%string).
  - destruct (call_make_api_request api settings messages "gpt-3.5-turbo-0125" kw l1)
      as [[r|e2] l2]; simpl; [discriminate|].
    destruct (call_make_api_request api settings messages "gpt-3.5-turbo" kw l2)
      as [[r|e3] l3]; simpl; [discriminate|].
    unfold raise; simpl. congruence.
  - destruct (call_make_api_request api settings messages "gpt-3.5-turbo" kw l1)
      as [[r|e3] l3]; simpl; [discriminate|].
    unfold raise; simpl. congruence.
Qed.

(** A successful first attempt is the whole request. *)
Lemma primary_success (l : log) (r : value) :
  attempt_outcome api settings messages kw (List.length l) primary = Ok r ->
  generate_response api settings messages kw l
  = (Ok r, match kw_model kw with Some _ => l | None => l ++ [primary] end).
Proof.
  intros H. unfold generate_response, try_except. fold primary.
  pose proof (call_outcome l primary) as Ho. pose proof (call_log l primary) as Hl.
  destruct (call_make_api_request api settings messages primary kw l) as [r0 l0].
  simpl in Ho, Hl. subst. rewrite H. reflexivity.
Qed.

End GatewayFacts.

(** C1 (the defect): with the configured default model [gpt-3.5-turbo],
    no [model] keyword and an endpoint that fails every time, one call of
    [generate_response] sends three requests, and the third goes to the
    identity of the first: the final fallback is tried without the
    comparison that guards the first fallback. *)
Theorem default_model_attempted_twice :
  ChatGPT.attempts ChatGPT.always_timeout ChatGPT.settings0
    [User.turn "user" (VStr "Hello")] ChatGPT.no_kwargs
  = ["gpt-3.5-turbo"; "gpt-3.5-turbo-0125"; "gpt-3.5-turbo"]
  /\ ~ NoDup (ChatGPT.attempts ChatGPT.always_timeout ChatGPT.settings0
                [User.turn "user" (VStr "Hello")] ChatGPT.no_kwargs).
Proof.
  split; [reflexivity|].
  intros H. change (NoDup ["gpt-3.5-turbo"; "gpt-3.5-turbo-0125"; "gpt-3.5-turbo"]) in H.
  inversion H as [|x l Hnotin _]; subst. apply Hnotin. right; left; reflexivity.
Qed.

Section FallbackChain.
Import ChatGPT.
Variable api : nat -> OpenaiRequest -> res value.
Variable settings : Settings.
Variable messages : list value.
Variable kw : kwargs.

Let primary : string := kw_get (kw_model kw) (default_model settings).
Let outcome := attempt_outcome api settings messages kw.

(** When the first attempt fails, the first fallback is tried unless it
    is the primary itself, and then the generic model. *)
Lemma attempts_after_failures (e1 e2 : exn) :
  kw_model kw = None ->
  outcome 0 primary = Err e1 ->
  outcome 1 "gpt-3.5-turbo-0125" = Err e2 ->
  attempts api settings messages kw
  = if (primary =? "gpt-3.5-turbo-0125")%string
    then [primary; "gpt-3.5-turbo"]
    else [primary; "gpt-3.5-turbo-0125"; "gpt-3.5-turbo"].
Proof.
  unfold outcome, attempt_outcome, attempts, generate_response, try_except,
    call_make_api_request, _make_api_request, raise.
  fold primary. intros Hk H1 H2. rewrite Hk in *. simpl. rewrite H1.
  destruct (primary =? "gpt-3.5-turbo-0125")%string; simpl.
  - destruct (request_outcome api settings 1 messages "gpt-3.5-turbo" kw); reflexivity.
  - rewrite H2. destruct (request_outcome api settings 2 _ _ _); reflexivity.
Qed.

(** The guard of the first fallback: a primary equal to it is not sent
    a second request. *)
Lemma first_fallback_not_retried :
  primary = "gpt-3.5-turbo-0125" ->
  count_occ string_dec (attempts api settings messages kw) "gpt-3.5-turbo-0125" <= 1.
Proof.
  unfold attempts, generate_response, try_except, call_make_api_request,
    _make_api_request, raise.
  fold primary. intros ->.
  destruct (kw_model kw); simpl.
  - auto.
  - destruct (request_outcome api settings 0 _ _ _); simpl; [auto|].
    destruct (request_outcome api settings 1 _ _ _); simpl; auto.
Qed.

(** No identity is attempted twice as long as the primary model is not
    the generic one. *)
Lemma attempts_distinct :
  primary <> "gpt-3.5-turbo" ->
  NoDup (attempts api settings messages kw).
Proof.
  unfold attempts, generate_response, try_except, call_make_api_request,
    _make_api_request, raise.
  fold primary. intros Hne.
  assert (Hsingle : forall x : string, NoDup [x])
    by (intros; constructor; [intros []|constructor]).
  assert (Hpair : forall x y : string, x <> y -> NoDup [x; y]).
  { intros x y Hxy. constructor; [|apply Hsingle].
    intros [H|[]]. congruence. }
  destruct (kw_model kw); simpl.
  - destruct (negb _); simpl; constructor.
  - destruct (request_outcome api settings 0 _ _ _); simpl; [apply Hsingle|].
    destruct (String.eqb_spec primary "gpt-3.5-turbo-0125") as [Heq|Hneq]; simpl.
    + destruct (request_outcome api settings 1 _ _ _); simpl; apply Hpair; exact Hne.
    + destruct (request_outcome api settings 1 _ _ _); simpl; [apply Hpair; exact Hneq|].
      assert (H3 : NoDup [primary; "gpt-3.5-turbo-0125"; "gpt-3.5-turbo"]).
      { constructor.
        - intros [H|[H|[]]]; congruence.
        - apply Hpair. discriminate. }
      destruct (request_outcome api settings 2 _ _ _); simpl; exact H3.
Qed.

(** C7: when the primary attempt fails with [e1] and the first fallback
    (tried unless the primary is that very model) fails too, the caller
    gets the response of the generic second fallback if that attempt
    succeeds, and otherwise the error [e1] of the primary attempt, not
    the error of a fallback. *)
Theorem fallback_chain_outcome (l : log) (e1 : exn) :
  outcome (List.length l) primary = Err e1 ->
  (primary <> "gpt-3.5-turbo-0125" ->
   exists e2, outcome (List.length l + 1) "gpt-3.5-turbo-0125" = Err e2) ->
  fst (generate_response api settings messages kw l)
  = match outcome (List.length l
                   + if (primary =? "gpt-3.5-turbo-0125")%string then 1 else 2)
                  "gpt-3.5-turbo" with
    | Ok r => Ok r
    | Err _ => Err e1
    end.
Proof.
  unfold outcome, attempt_outcome, generate_response, try_except,
    call_make_api_request, _make_api_request, raise.
  fold primary. intros H1 H2.
  destruct (kw_model kw) as [m|]; simpl.
  - inversion H1; subst. destruct (negb _); reflexivity.
  - rewrite H1.
    destruct (String.eqb_spec primary "gpt-3.5-turbo-0125") as [Heq|Hneq]; simpl.
    + rewrite length_app. simpl.
      match goal with
        | |- context [request_outcome api settings ?i ?m ?x ?k] =>
            destruct (request_outcome api settings i m x k)
        end; reflexivity.
    + destruct (H2 Hneq) as [e2 He2].
      rewrite length_app. simpl. rewrite He2.
      rewrite !length_app. simpl.
      replace (List.length l + 1 + 1) with (List.length l + 2) by lia.
      match goal with
        | |- context [request_outcome api settings ?i ?m ?x ?k] =>
            destruct (request_outcome api settings i m x k)
        end; reflexivity.
Qed.

End FallbackChain.

(** Two timeouts, then an answer from the generic model. *)
Lemma fallback_chain_outcome_witness :
  fst (ChatGPT.generate_response ChatGPT.third_time_lucky ChatGPT.settings0 []
         ChatGPT.no_kwargs [])
  = Ok (VDict [("model", VStr "gpt-3.5-turbo")]).
Proof.
  rewrite (fallback_chain_outcome ChatGPT.third_time_lucky ChatGPT.settings0 []
             ChatGPT.no_kwargs [] ChatGPT.timeout_error).
  - reflexivity.
  - reflexivity.
  - intros _. exists ChatGPT.timeout_error. reflexivity.
Defined.

(** Every attempt fails, each with its own error, and the caller sees the
    first. *)

Example all_attempts_fail :
  ChatGPT.generate_response ChatGPT.fails_in_turn ChatGPT.settings0 [] ChatGPT.no_kwargs []
  = (Err (Exn "HTTPStatusError" "first"),
     ["gpt-3.5-turbo"; "gpt-3.5-turbo-0125"; "gpt-3.5-turbo"]).
Proof. reflexivity. Qed.

(* ===================================================================== *)
(** ** Dispatch: envelopes, validation and provider failures *)
(* ===================================================================== *)

Lemma absent_key_is_falsy (k : string) (d : dict) :
  lookup k d = None -> truthy (get k d) = false.
Proof. unfold get. intros ->. reflexivity. Qed.

Lemma empty_string_is_falsy (k : string) (d : dict) :
  lookup k d = Some (VStr "") -> truthy (get k d) = false.
Proof. unfold get. intros ->. reflexivity. Qed.

Lemma log_not_extended {A : Type} (l : list A) (x : A) : l <> l ++ [x].
Proof.
  intros H. apply (f_equal (@List.length A)) in H.
  rewrite length_app in H. simpl in H. lia.
Qed.

Section DispatchFacts.
Import TravelHandler.
Variable date_fromisoformat : string -> option Cal.date.
Variable datetime_fromisoformat : string -> option Cal.datetime.
Variable today : Cal.date.
Variable validate_flight : Flights.FlightSearchReqeust -> res Flights.FlightSearchReqeust.
Variable validate_restaurant :
  Dining.RestaurantSearchRequest -> res Dining.RestaurantSearchRequest.
Variable validate_transport :
  Transport.TransportSearchRequest -> res Transport.TransportSearchRequest.
Variable search_flights : nat -> Flights.FlightSearchReqeust -> res value.
Variable search_restaurants : nat -> Dining.RestaurantSearchRequest -> res value.
Variable search_transport : nat -> Transport.TransportSearchRequest -> res value.

Variable context : User.UserContext.

Let dispatch (intent : value) (entities : dict) : M plog value :=
  process_travel_intent date_fromisoformat datetime_fromisoformat today
    validate_flight validate_restaurant validate_transport
    search_flights search_restaurants search_transport intent entities context.
Let flight_search :=
  _handle_flight_search date_fromisoformat today validate_flight
    search_flights search_restaurants search_transport.
Let restaurant_search :=
  _handle_restaurant_search validate_restaurant
    search_flights search_restaurants search_transport.
Let transport_search :=
  _handle_transport_search date_fromisoformat datetime_fromisoformat today
    validate_transport search_flights search_restaurants search_transport.

(** A search either returns its data or raises, and is logged with what
    it did. *)
Lemma call_provider_handled (c : provider_call) (kind message : string) (l : plog) :
  handled l
    (bind (call_provider search_flights search_restaurants search_transport c)
          (fun response => ret (envelope kind response message)) l).
Proof.
  unfold bind, call_provider, ret.
  destruct (provider search_flights search_restaurants search_transport (List.length l) c).
  - apply handled_found.
  - apply handled_search_failed.
Qed.

(** Parsing a date never raises. *)
Lemma _parse_date_total (v : value) :
  exists d, _parse_date date_fromisoformat v = Ok d.
Proof.
  unfold _parse_date, py_date_fromisoformat.
  destruct (negb (truthy v)); [eauto|].
  destruct v; simpl; eauto.
  destruct (date_fromisoformat s); simpl; eauto.
Qed.

Lemma _parse_datetime_total (v : value) :
  exists d, _parse_datetime date_fromisoformat datetime_fromisoformat v = Ok d.
Proof.
  unfold _parse_datetime, py_datetime_fromisoformat.
  destruct (negb (truthy v)); [eauto|].
  destruct (_parse_date_total v) as [[d|] Hd]; rewrite Hd.
  - destruct v; simpl; eauto. destruct (datetime_fromisoformat s); simpl; eauto.
  - destruct v; simpl; eauto. destruct (datetime_fromisoformat s); simpl; eauto.
Qed.

Lemma flight_search_handled (entities : dict) (l : plog) :
  handled l (flight_search entities l).
Proof.
  unfold flight_search, _handle_flight_search.
  destruct (negb (truthy (get "origin" entities)) || negb (truthy (get "destination" entities))).
  - apply handled_without_data.
  - destruct (_parse_date_total (get "departure_date" entities)) as [dep Hdep].
    destruct (_parse_date_total (get "return_date" entities)) as [ret_d Hret].
    unfold bind at 1. unfold lift at 1. rewrite Hdep.
    unfold bind at 1. unfold lift at 1. rewrite Hret.
    unfold bind at 1.
    assert (Hdef : exists r, (match dep with Some d => ret d | None => lift (Cal.plus_one_day today) end) l = (r, l)).
    { destruct dep; unfold ret, lift; eauto. }
    destruct Hdef as [[d|e] Hdef]; rewrite Hdef; [|apply handled_raised].
    unfold bind at 1. unfold lift at 1.
    destruct (validate_flight _) as [rq|e]; [|apply handled_raised].
    apply call_provider_handled.
Qed.

Lemma restaurant_search_handled (entities : dict) (l : plog) :
  handled l (restaurant_search entities l).
Proof.
  unfold restaurant_search, _handle_restaurant_search.
  destruct (negb (truthy (get "location" entities))).
  - apply handled_without_data.
  - unfold bind at 1. unfold lift at 1.
    destruct (validate_restaurant _) as [rq|e]; [|apply handled_raised].
    apply call_provider_handled.
Qed.

Lemma transport_search_handled (entities : dict) (l : plog) :
  handled l (transport_search entities l).
Proof.
  unfold transport_search, _handle_transport_search.
  destruct (negb (truthy (get "origin" entities)) || negb (truthy (get "destination" entities))).
  - apply handled_without_data.
  - destruct (_parse_datetime_total (get "departure_date" entities)) as [dep Hdep].
    unfold bind at 1. unfold lift at 1. rewrite Hdep.
    unfold bind at 1.
    assert (Hdef : exists r,
               (match dep with
                | Some d => ret d
                | None => bind (lift (Cal.plus_one_day today))
                               (fun tomorrow => ret (Cal.at_noon tomorrow))
                end) l = (r, l)).
    { destruct dep; unfold ret, lift, bind; eauto.
      destruct (Cal.plus_one_day today); eauto. }
    destruct Hdef as [[d|e] Hdef]; rewrite Hdef; [|apply handled_raised].
    unfold bind at 1. unfold lift at 1.
    destruct (parse_modes entities) as [modes|e]; [|apply handled_raised].
    unfold bind at 1. unfold lift at 1.
    destruct (validate_transport _) as [rq|e]; [|apply handled_raised].
    apply call_provider_handled.
Qed.

(** What dispatch makes of the end of a handler: an exception becomes an
    error envelope, everything else passes. *)
Lemma try_except_handled (m : M plog value) (l : plog) :
  handled l (m l) ->
  (exists kind message, try_except m (fun e => ret (error_envelope e)) l
                        = (Ok (envelope kind VNone message), l))
  \/ (exists e, try_except m (fun e => ret (error_envelope e)) l = (Ok (error_envelope e), l))
  \/ (exists c v kind message,
        try_except m (fun e => ret (error_envelope e)) l
        = (Ok (envelope kind v message), l ++ [(c, Ok v)]))
  \/ (exists c e, try_except m (fun e => ret (error_envelope e)) l
                  = (Ok (error_envelope e), l ++ [(c, Err e)])).
Proof.
  unfold try_except, ret. intros H.
  destruct H as [k msg | e | c v k msg | c e].
  - left. eauto.
  - right; left. eauto.
  - right; right; left. eexists _, _, _, _. reflexivity.
  - right; right; right. eauto.
Qed.

(** Every run of dispatch ends in one of five ways. *)
Lemma dispatch_outcome (intent : value) (entities : dict) (l : plog) :
  (domain_intent intent = false
   /\ dispatch intent entities l = (Ok general_envelope, l))
  \/ (domain_intent intent = true
      /\ ((exists kind message,
             dispatch intent entities l = (Ok (envelope kind VNone message), l))
          \/ (exists e, dispatch intent entities l = (Ok (error_envelope e), l))
          \/ (exists c v kind message,
                dispatch intent entities l
                = (Ok (envelope kind v message), l ++ [(c, Ok v)]))
          \/ (exists c e,
                dispatch intent entities l
                = (Ok (error_envelope e), l ++ [(c, Err e)])))).
Proof.
  unfold dispatch, process_travel_intent, domain_intent.
  destruct (eq_str intent "flight"); simpl.
  { right. split; [reflexivity|]. apply try_except_handled, flight_search_handled. }
  destruct (eq_str intent "hotel"); simpl.
  { right. split; [reflexivity|]. apply try_except_handled, handled_without_data. }
  destruct (eq_str intent "restaurant"); simpl.
  { right. split; [reflexivity|]. apply try_except_handled, restaurant_search_handled. }
  destruct (eq_str intent "attraction"); simpl.
  { right. split; [reflexivity|]. apply try_except_handled, handled_without_data. }
  destruct (eq_str intent "transport"); simpl.
  { right. split; [reflexivity|]. apply try_except_handled, transport_search_handled. }
  destruct (eq_str intent "seasonal_advice"); simpl.
  { right. split; [reflexivity|]. apply try_except_handled, handled_without_data. }
  left. split; reflexivity.
Qed.

(** Dispatch never raises. *)
Lemma dispatch_total (intent : value) (entities : dict) (l : plog) :
  exists env, fst (dispatch intent entities l) = Ok env.
Proof.
  destruct (dispatch_outcome intent entities l)
    as [[_ H] | [_ [(k & m & H) | [(e & H) | [(c & v & k & m & H) | (c & e & H)]]]]];
    rewrite H; simpl; eauto.
Qed.

(** One dispatch sends at most one search. *)
Lemma dispatch_sends_at_most_one (intent : value) (entities : dict) (l : plog) :
  snd (dispatch intent entities l) = l
  \/ exists c r, snd (dispatch intent entities l) = l ++ [(c, r)].
Proof.
  destruct (dispatch_outcome intent entities l)
    as [[_ H] | [_ [(k & m & H) | [(e & H) | [(c & v & k & m & H) | (c & e & H)]]]]];
    rewrite H; simpl; eauto.
Qed.

(** C2 (as the code has it): dispatch always returns an envelope; for the
    six intents with a handler the envelope has a [message] holding a
    string, also when the handler raised; for [general] and every other
    intent the envelope is exactly [type: general, data: None], with the
    data absent and no [message] key. *)
Theorem dispatch_envelope_message (intent : value) (entities : dict) (l : plog) :
  exists env,
    fst (dispatch intent entities l) = Ok env
    /\ if domain_intent intent
       then exists m, field "message" env = Some (VStr m)
       else env = VDict [("type", VStr "general"); ("data", VNone)]
            /\ field "data" env = Some VNone
            /\ field "message" env = None.
Proof.
  destruct (dispatch_outcome intent entities l)
    as [[Hd H] | [Hd [(k & m & H) | [(e & H) | [(c & v & k & m & H) | (c & e & H)]]]]];
    rewrite H, Hd; simpl; eexists; (split; [reflexivity|]); simpl; eauto.
Qed.

(** C3 (as the code has it): when the search sent by a dispatch fails with
    [e], dispatch catches it and returns the envelope [type: error,
    message: str(e)]; nothing is raised to the caller. *)
Theorem provider_failure_becomes_error_envelope
        (intent : value) (entities : dict) (l : plog) (c : provider_call) (e : exn) :
  snd (dispatch intent entities l) = l ++ [(c, Err e)] ->
  fst (dispatch intent entities l)
  = Ok (VDict [("type", VStr "error"); ("message", VStr (exn_msg e))]).
Proof.
  destruct (dispatch_outcome intent entities l)
    as [[_ H] | [_ [(k & m & H) | [(e' & H) | [(c' & v & k & m & H) | (c' & e' & H)]]]]];
    rewrite H; simpl; intros Hlog.
  - destruct (log_not_extended _ _ Hlog).
  - destruct (log_not_extended _ _ Hlog).
  - destruct (log_not_extended _ _ Hlog).
  - apply app_inv_head in Hlog. discriminate.
  - apply app_inv_head in Hlog. inversion Hlog. reflexivity.
Qed.

(** C6: a flight or transport request whose [origin] or [destination] is
    missing or falsy (None, the empty string, ...) gets the envelope with
    no data and the message that names what is missing, and the log of
    provider searches is left as it was. *)
Theorem missing_endpoint_no_search (kind : string) (entities : dict) (l : plog) :
  kind = "flight" \/ kind = "transport" ->
  truthy (get "origin" entities) = false
  \/ truthy (get "destination" entities) = false ->
  dispatch (VStr kind) entities l
  = (Ok (VDict [("type", VStr kind); ("data", VNone);
                ("message", VStr ("Missing origin or destination for " ++ kind
                                  ++ " search"))]),
     l).
Proof.
  intros Hkind Hmissing.
  assert (Htest : negb (truthy (get "origin" entities))
                  || negb (truthy (get "destination" entities)) = true).
  { destruct Hmissing as [-> | ->]; [reflexivity|apply orb_true_r]. }
  unfold dispatch, process_travel_intent, try_except.
  destruct Hkind as [-> | ->]; simpl.
  - unfold _handle_flight_search. rewrite Htest. reflexivity.
  - unfold _handle_transport_search. rewrite Htest. reflexivity.
Qed.

End DispatchFacts.

(** A flight request without destination: the failure envelope, and an
    empty log. *)
Lemma missing_endpoint_no_search_witness :
  ("flight" = "flight" \/ "flight" = "transport")
  /\ (truthy (get "origin" [("origin", VStr "Paris")]) = false
      \/ truthy (get "destination" [("origin", VStr "Paris")]) = false)
  /\ Demo.dispatch (VStr "flight") [("origin", VStr "Paris")] []
     = (Ok (VDict [("type", VStr "flight"); ("data", VNone);
                   ("message", VStr "Missing origin or destination for flight search")]),
        []).
Proof.
  split; [left; reflexivity|].
  split; [right; reflexivity|].
  apply (missing_endpoint_no_search Iso.date_fromisoformat Iso.datetime_fromisoformat
           Demo.today Demo.accept Demo.accept Demo.accept
           (Demo.found "FlightSearchResponse") (Demo.found "RestaurantSearchResponse")
           (Demo.found "TransportSearchResponse") (User.new "u1")
           "flight" [("origin", VStr "Paris")] []).
  - left; reflexivity.
  - right; reflexivity.
Defined.

(** C2 (the claim fails): the envelope of the [general] intent has no
    [message] key. *)
Lemma general_envelope_without_message :
  fst (Demo.dispatch (VStr "general") [("intent", VStr "general")] [])
  = Ok (VDict [("type", VStr "general"); ("data", VNone)])
  /\ TravelHandler.field "message" (VDict [("type", VStr "general"); ("data", VNone)])
     = None.
Proof. split; reflexivity. Qed.

(** C3 (the claim fails): with the flight provider down, dispatch returns
    an envelope; the provider's exception does not reach the caller. *)
Lemma provider_failure_swallowed :
  fst (Demo.dispatch_down (VStr "flight") Demo.paris_trip [])
  = Ok (VDict [("type", VStr "error");
               ("message", VStr "All connection attempts failed")])
  /\ fst (Demo.dispatch_down (VStr "flight") Demo.paris_trip [])
     <> Err Demo.connect_error.
Proof. split; [reflexivity|discriminate]. Qed.

(** One search was sent, it failed, and the envelope carries its text. *)
Lemma provider_failure_becomes_error_envelope_witness :
  exists c,
    snd (Demo.dispatch_down (VStr "flight") Demo.paris_trip [])
    = [] ++ [(c, Err Demo.connect_error)]
    /\ fst (Demo.dispatch_down (VStr "flight") Demo.paris_trip [])
       = Ok (VDict [("type", VStr "error");
                    ("message", VStr "All connection attempts failed")]).
Proof.
  eexists. split; [reflexivity|].
  eapply (provider_failure_becomes_error_envelope
            Iso.date_fromisoformat Iso.datetime_fromisoformat
            Demo.today Demo.accept Demo.accept Demo.accept
            Demo.down Demo.down Demo.down (User.new "u1")
            (VStr "flight") Demo.paris_trip [] _ Demo.connect_error).
  reflexivity.
Defined.

(* ===================================================================== *)
(** ** Parsing of the departure date *)
(* ===================================================================== *)

Section DepartureFacts.
Import TravelHandler.
Variable date_fromisoformat : string -> option Cal.date.
Variable datetime_fromisoformat : string -> option Cal.datetime.
Variable today : Cal.date.
Variable validate_flight : Flights.FlightSearchReqeust -> res Flights.FlightSearchReqeust.
Variable validate_restaurant :
  Dining.RestaurantSearchRequest -> res Dining.RestaurantSearchRequest.
Variable validate_transport :
  Transport.TransportSearchRequest -> res Transport.TransportSearchRequest.
Variable search_flights : nat -> Flights.FlightSearchReqeust -> res value.
Variable search_restaurants : nat -> Dining.RestaurantSearchRequest -> res value.
Variable search_transport : nat -> Transport.TransportSearchRequest -> res value.

Let flight_search :=
  _handle_flight_search date_fromisoformat today validate_flight
    search_flights search_restaurants search_transport.
Let transport_search :=
  _handle_transport_search date_fromisoformat datetime_fromisoformat today
    validate_transport search_flights search_restaurants search_transport.






End DepartureFacts.



(** Transport: a text that is no date leaves tomorrow at noon, a plain date
    leaves on that day at midnight, a date with a time at that time. *)
Example transport_departures :
  (exists request,
     snd (Demo.transport_search (Demo.paris_trip_on "next friday") [])
     = [(TravelHandler.SearchTransport request, Ok (VObj "TransportSearchResponse"))]
     /\ Transport.departure_date request = Cal.Datetime (Cal.Date 2024 5 1) 12 0 0)
  /\ (exists request,
        snd (Demo.transport_search (Demo.paris_trip_on "2024-06-15") [])
        = [(TravelHandler.SearchTransport request, Ok (VObj "TransportSearchResponse"))]
        /\ Transport.departure_date request = Cal.Datetime (Cal.Date 2024 6 15) 0 0 0)
  /\ (exists request,
        snd (Demo.transport_search (Demo.paris_trip_on "2024-06-15T10:00:00") [])
        = [(TravelHandler.SearchTransport request, Ok (VObj "TransportSearchResponse"))]
        /\ Transport.departure_date request = Cal.Datetime (Cal.Date 2024 6 15) 10 0 0).
Proof. repeat split; eexists; split; reflexivity. Qed.

(** The flight searched for a departure text with a time of day leaves
    tomorrow, not on the fifteenth of June. *)
Example datetime_text_flies_tomorrow :
  exists request,
    snd (Demo.flight_search (Demo.paris_trip_on "2024-06-15T10:00:00") [])
    = [(TravelHandler.SearchFlights request, Ok (VObj "FlightSearchResponse"))]
    /\ Flights.departure_date request = Cal.Date 2024 5 1.
Proof. eexists. split; reflexivity. Qed.

(* ===================================================================== *)
(** ** Entity extraction *)
(* ===================================================================== *)

Lemma find_from_absent (c : ascii) (s : list ascii) (i : Z) :
  ~ In c s -> Str.find_from c s i = (-1)%Z.
Proof.
  revert i. induction s as [|a s IH]; intros i Hnotin; simpl; [reflexivity|].
  destruct (Ascii.eqb_spec a c) as [->|Hne].
  - exfalso. apply Hnotin. left; reflexivity.
  - apply IH. intros Hin. apply Hnotin. right; exact Hin.
Qed.

Lemma find_from_first (c : ascii) (pre post : list ascii) (i : Z) :
  ~ In c pre ->
  Str.find_from c (pre ++ c :: post) i = (i + Z.of_nat (List.length pre))%Z.
Proof.
  revert i. induction pre as [|a pre IH]; intros i Hnotin; simpl.
  - rewrite Ascii.eqb_refl. lia.
  - destruct (Ascii.eqb_spec a c) as [->|Hne].
    + exfalso. apply Hnotin. left; reflexivity.
    + rewrite IH by (intros Hin; apply Hnotin; right; exact Hin). lia.
Qed.

Lemma rfind_from_absent (c : ascii) (s : list ascii) (i last : Z) :
  ~ In c s -> Str.rfind_from c s i last = last.
Proof.
  revert i last. induction s as [|a s IH]; intros i last Hnotin; simpl; [reflexivity|].
  destruct (Ascii.eqb_spec a c) as [->|Hne].
  - exfalso. apply Hnotin. left; reflexivity.
  - apply IH. intros Hin. apply Hnotin. right; exact Hin.
Qed.

Lemma rfind_from_last (c : ascii) (pre post : list ascii) (i last : Z) :
  ~ In c post ->
  Str.rfind_from c (pre ++ c :: post) i last = (i + Z.of_nat (List.length pre))%Z.
Proof.
  revert i last. induction pre as [|a pre IH]; intros i last Hnotin; simpl.
  - rewrite Ascii.eqb_refl. rewrite rfind_from_absent by exact Hnotin. lia.
  - rewrite IH by exact Hnotin. lia.
Qed.

Lemma length_chars (s : string) : List.length (Str.chars s) = String.length s.
Proof. induction s as [|a s IH]; simpl; [reflexivity|]. f_equal. exact IH. Qed.

Lemma length_of_chars (l : list ascii) : String.length (Str.of_chars l) = List.length l.
Proof. induction l as [|a l IH]; simpl; [reflexivity|]. f_equal. exact IH. Qed.

Lemma length_append (s1 s2 : string) :
  String.length (s1 ++ s2) = String.length s1 + String.length s2.
Proof. induction s1 as [|a s1 IH]; simpl; [reflexivity|]. f_equal. exact IH. Qed.

Lemma chars_of_chars (l : list ascii) : Str.chars (Str.of_chars l) = l.
Proof. apply list_ascii_of_string_of_list_ascii. Qed.

Lemma of_chars_chars (s : string) : Str.of_chars (Str.chars s) = s.
Proof. apply string_of_list_ascii_of_string. Qed.

Lemma firstn_skipn_middle {A : Type} (p a b : list A) :
  firstn (List.length a) (skipn (List.length p) (p ++ a ++ b)) = a.
Proof.
  rewrite skipn_app, skipn_all, Nat.sub_diag. simpl.
  rewrite firstn_app, firstn_all, Nat.sub_diag. simpl. apply app_nil_r.
Qed.

(** The candidate is the text from the first opening brace to the last
    closing brace, both included. *)
Lemma json_candidate_braces (pre mid post : list ascii) :
  ~ In "{"%char pre ->
  ~ In "}"%char post ->
  Context.json_candidate (Str.of_chars (pre ++ "{"%char :: mid ++ "}"%char :: post))
  = Some (Str.of_chars ("{"%char :: mid ++ ["}"%char])).
Proof.
  intros Hpre Hpost.
  unfold Context.json_candidate, Str.find, Str.rfind, Str.slice.
  rewrite chars_of_chars.
  rewrite find_from_first by exact Hpre.
  replace (pre ++ "{"%char :: mid ++ "}"%char :: post)
    with ((pre ++ "{"%char :: mid) ++ "}"%char :: post)
    by (rewrite <- app_assoc; reflexivity).
  rewrite rfind_from_last by exact Hpost.
  rewrite length_app. simpl List.length.
  replace ((0 <=? 0 + Z.of_nat (List.length pre))%Z) with true
    by (symmetry; apply Z.leb_le; lia).
  replace ((0 + Z.of_nat (List.length pre)
            <? 0 + Z.of_nat (List.length pre + S (List.length mid)) + 1)%Z) with true
    by (symmetry; apply Z.ltb_lt; lia).
  simpl andb. f_equal. f_equal.
  replace (Z.to_nat (0 + Z.of_nat (List.length pre))) with (List.length pre) by lia.
  replace (Z.to_nat (0 + Z.of_nat (List.length pre + S (List.length mid)) + 1)
           - List.length pre) with (List.length ("{"%char :: mid ++ ["}"%char]))
    by (simpl; rewrite length_app; simpl; lia).
  replace ((pre ++ "{"%char :: mid) ++ "}"%char :: post)
    with (pre ++ ("{"%char :: mid ++ ["}"%char]) ++ post)
    by (simpl; rewrite <- !app_assoc; reflexivity).
  rewrite firstn_skipn_middle. reflexivity.
Qed.

(** A text without opening brace has no candidate. *)
Lemma json_candidate_no_opening (content : string) :
  ~ In "{"%char (Str.chars content) -> Context.json_candidate content = None.
Proof.
  intros H. unfold Context.json_candidate, Str.find.
  rewrite find_from_absent by exact H. reflexivity.
Qed.

(** A text without closing brace has no candidate. *)
Lemma json_candidate_no_closing (content : string) :
  ~ In "}"%char (Str.chars content) -> Context.json_candidate content = None.
Proof.
  intros H. unfold Context.json_candidate, Str.rfind.
  rewrite rfind_from_absent by exact H. simpl.
  destruct (0 <=? Str.find "{" content)%Z eqn:E; [|reflexivity].
  apply Z.leb_le in E. replace (Str.find "{" content <? 0)%Z with false; [reflexivity|].
  symmetry. apply Z.ltb_ge. exact E.
Qed.

Section ExtractionFacts.
Import ChatGPT User Context.
Variable api : nat -> OpenaiRequest -> res value.
Variable settings : Settings.
Variable json_loads : string -> res value.
Variable extraction_prompt : string.

Let extract := extract_entities api settings json_loads extraction_prompt.


End ExtractionFacts.


(** An answer without braces, with the braces in the wrong order, with
    braces around something that is no JSON, without text, and no answer
    at all: the result is [intent: general] each time. *)
Example extraction_degrades :
  fst (Demo.extract (Demo.answers (VStr "no json here")) "hi" (User.new "u1") [])
  = Ok (VDict [("intent", VStr "general")])
  /\ fst (Demo.extract (Demo.answers (VStr "} reversed {")) "hi" (User.new "u1") [])
     = Ok (VDict [("intent", VStr "general")])
  /\ fst (Demo.extract (Demo.answers (VStr "{broken}")) "hi" (User.new "u1") [])
     = Ok (VDict [("intent", VStr "general")])
  /\ fst (Demo.extract (Demo.answers VNone) "hi" (User.new "u1") [])
     = Ok (VDict [("intent", VStr "general")])
  /\ fst (Demo.extract ChatGPT.always_timeout "hi" (User.new "u1") [])
     = Ok (VDict [("intent", VStr "general")]).
Proof. repeat split. Qed.


(* ===================================================================== *)
(** ** Link extraction *)
(* ===================================================================== *)

Section LinkFacts.
Import Re LinkProcessor.

(** A loop that appends one link per item builds the image of the items. *)
Lemma append_loop {A B : Type} (f : A -> B) (items : list A) (links : list B) :
  fold_left (fun links x => links ++ [f x]) items links = links ++ map f items.
Proof.
  revert links. induction items as [|x items IH]; intros links; simpl.
  - symmetry. apply app_nil_r.
  - rewrite IH, <- app_assoc. reflexivity.
Qed.

(** The clean-up loop keeps the stripped names that are long enough and
    not on the stoplist, in order. *)
Lemma keep_place_loop (matches places : list string) :
  fold_left keep_place matches places
  = places ++ filter kept_place (map Str.strip matches).
Proof.
  revert places. induction matches as [|m matches IH]; intros places; simpl.
  - symmetry. apply app_nil_r.
  - rewrite IH. unfold keep_place, kept_place.
    destruct ((3 <? String.length (Str.strip m)) && negb (stoplisted (Str.strip m))).
    + rewrite <- app_assoc. reflexivity.
    + reflexivity.
Qed.

(** Whatever the body raises, the answer is the empty list. *)
Lemma extract_links_catches (text : value) (e : exn) :
  extract_links_body text = Err e -> extract_links text = Ok [].
Proof. unfold extract_links. intros ->. reflexivity. Qed.

(** No exception leaves [extract_links]. *)
Lemma extract_links_total (text : value) :
  exists links, extract_links text = Ok links.
Proof.
  unfold extract_links, rtry. destruct (extract_links_body text); eauto.
Qed.

(** C10: [extract_links] returns a list for every argument and raises
    nothing.  On a string the body raises nothing either and the list is
    the generic-marker links, then the specific-marker links, then the
    place links; on anything else the first scan raises [TypeError], which
    is caught, and the list is empty. *)
Theorem extract_links_result (text : value) :
  match text with
  | VStr s =>
      extract_links_body text
      = Ok (generic_links s ++ specific_links s ++ place_links s)
      /\ extract_links text
         = Ok (generic_links s ++ specific_links s ++ place_links s)
  | _ =>
      extract_links_body text = Err not_a_string
      /\ extract_links text = Ok []
  end.
Proof.
  destruct text as [| b | z | f | s | vs | d | tag]; try (split; reflexivity).
  assert (Hbody : extract_links_body (VStr s)
                  = Ok (generic_links s ++ specific_links s ++ place_links s)).
  { unfold extract_links_body, generic_links, specific_links, place_links. simpl.
    rewrite !append_loop. simpl.
    destruct (Str.contains "places to visit" (Str.lower s)
              || Str.contains "attractions" (Str.lower s)).
    - rewrite keep_place_loop. simpl. rewrite <- !app_assoc. reflexivity.
    - rewrite app_nil_r. reflexivity. }
  split; [exact Hbody|]. unfold extract_links. rewrite Hbody. reflexivity.
Qed.

End LinkFacts.

(** The three groups on one text, in order. *)
Example links_in_order :
  LinkProcessor.extract_links
    (VStr "Top attractions in Rome: <link:https://x.example/|Book now> <Links to hotels>")
  = Ok
    [ LinkProcessor.mk_link "https://www.booking.com/" "Find hotels" "general";
      LinkProcessor.mk_link "https://x.example/" "Book now" "specific";
      LinkProcessor.mk_link "https://www.google.com/search?q=things+to+do+in+the+area"
        "Explore the area" "general" ].
Proof. reflexivity. Qed.

(* ===================================================================== *)
(** ** Stripping of the specific markers *)
(* ===================================================================== *)

Section SubFacts.
Import Re.
Variable r : regex.
Variable repl : caps -> string.

(** A pass that finds no match copies the text. *)
Lemma scan_without_hit (fuel : nat) (l : list ascii) :
  List.length l < fuel ->
  hits (scan fuel r l) = [] ->
  subst repl (scan fuel r l) = Str.of_chars l.
Proof.
  revert l. induction fuel as [|fuel IH]; intros l Hfuel Hhits; [lia|].
  simpl in *. destruct (match_at r l) as [[s' c]|].
  - destruct (List.length s' <? List.length l); [discriminate|].
    destruct l; discriminate.
  - destruct l as [|a l]; [reflexivity|].
    simpl in *. f_equal. apply IH; [lia|exact Hhits].
Qed.

Lemma sub_without_match (s : string) :
  hits (tokens r s) = [] -> sub r repl s = s.
Proof.
  intros H. unfold sub, tokens in *.
  rewrite scan_without_hit.
  - apply string_of_list_ascii_of_string.
  - rewrite length_chars. lia.
  - exact H.
Qed.

End SubFacts.

(** C9: [format_response_with_links] is not idempotent.  When the display
    text of a marker opens a marker of its own, the single pass of
    [re.sub] takes the outer marker away and leaves a complete inner one
    in the formatted text, which a second pass takes away in turn. *)
Lemma nested_marker_not_idempotent :
  LinkProcessor.format_response_with_links "<link:a|<link:b|c>>" = "<link:b|c>"
  /\ LinkProcessor.format_response_with_links
       (LinkProcessor.format_response_with_links "<link:a|<link:b|c>>") = "c"
  /\ LinkProcessor.format_response_with_links
       (LinkProcessor.format_response_with_links "<link:a|<link:b|c>>")
     <> LinkProcessor.format_response_with_links "<link:a|<link:b|c>>".
Proof. repeat split. discriminate. Qed.

(* ===================================================================== *)
(** ** What a match of the specific marker consumes *)
(* ===================================================================== *)

Section MatcherFacts.
Import Re.
Context {R : Type}.

(** A star hands to its continuation a rest of the input that is no
    longer than what it started on, if its body does. *)
Lemma star_loop_continues
      (body : list ascii -> caps -> (list ascii -> caps -> option R) -> option R)
      (greedy : bool) (k : list ascii -> caps -> option R) :
  (forall s c k' x, body s c k' = Some x ->
                    exists s' c', List.length s' <= List.length s /\ k' s' c' = Some x) ->
  forall n s c x,
    star_loop body greedy k n s c = Some x ->
    exists s' c', List.length s' <= List.length s /\ k s' c' = Some x.
Proof.
  intros Hbody. induction n as [|n IH]; intros s c x H; simpl in H.
  - destruct greedy.
    + exists s, c. split; [lia|exact H].
    + destruct (k s c) eqn:Ek; [|discriminate].
      exists s, c. split; [lia|]. rewrite Ek. exact H.
  - assert (Hagain : forall x0,
               body s c (fun s' c' =>
                 if List.length s' <? List.length s
                 then star_loop body greedy k n s' c' else None) = Some x0 ->
               exists s' c', List.length s' <= List.length s /\ k s' c' = Some x0).
    { intros x0 H0. apply Hbody in H0. destruct H0 as (s1 & c1 & Hlen & H1).
      destruct (List.length s1 <? List.length s); [|discriminate].
      apply IH in H1. destruct H1 as (s2 & c2 & Hlen2 & H2).
      exists s2, c2. split; [lia|exact H2]. }
    destruct greedy.
    + destruct (body s c _) eqn:Eb.
      * inversion H; subst. apply Hagain. reflexivity.
      * exists s, c. split; [lia|exact H].
    + destruct (k s c) eqn:Ek.
      * exists s, c. split; [lia|]. rewrite Ek. exact H.
      * apply Hagain. exact H.
Qed.

(** The matcher hands to its continuation a rest of the input. *)
Lemma rmatch_continues (r : regex) :
  forall s c (k : list ascii -> caps -> option R) x,
    rmatch r s c k = Some x ->
    exists s' c', List.length s' <= List.length s /\ k s' c' = Some x.
Proof.
  induction r as [| p | r1 IH1 r2 IH2 | r1 IH1 r2 IH2 | greedy r1 IH1 | i r1 IH1];
    intros s c k x H; simpl in H.
  - exists s, c. split; [lia|exact H].
  - destruct s as [|a s]; [discriminate|].
    destruct (p a); [|discriminate].
    exists s, c. split; [simpl; lia|exact H].
  - apply IH1 in H. destruct H as (s1 & c1 & Hlen1 & H).
    apply IH2 in H. destruct H as (s2 & c2 & Hlen2 & H).
    exists s2, c2. split; [lia|exact H].
  - destruct (rmatch r1 s c k) eqn:E1.
    + inversion H; subst. apply IH1 in E1. exact E1.
    + apply IH2 in H. exact H.
  - apply (star_loop_continues _ greedy k) in H; [exact H|].
    intros s0 c0 k' x0 H0. apply IH1 in H0. exact H0.
  - apply IH1 in H. destruct H as (s1 & c1 & Hlen1 & H).
    eexists s1, _. split; [exact Hlen1|exact H].
Qed.

(** A literal consumes itself. *)
Lemma rmatch_literal (p : list ascii) :
  forall s c (k : list ascii -> caps -> option R) x,
    rmatch (Lit_chars p) s c k = Some x ->
    exists s', s = p ++ s' /\ k s' c = Some x.
Proof.
  induction p as [|a p IH]; intros s c k x H; simpl in H.
  - exists s. split; [reflexivity|exact H].
  - destruct s as [|b s]; [discriminate|].
    destruct (Ascii.eqb_spec a b) as [->|]; [|discriminate].
    apply IH in H. destruct H as (s' & -> & H).
    exists s'. split; [reflexivity|exact H].
Qed.

(** A single character consumes itself. *)
Lemma rmatch_chr (a : ascii) (s : list ascii) (c : caps)
      (k : list ascii -> caps -> option R) (x : R) :
  rmatch (Chr a) s c k = Some x ->
  exists s', s = a :: s' /\ k s' c = Some x.
Proof.
  simpl. destruct s as [|b s]; [discriminate|].
  destruct (Ascii.eqb_spec a b) as [->|]; [|discriminate].
  intros H. exists s. split; [reflexivity|exact H].
Qed.

(** A group records what its body consumed. *)
Lemma rmatch_group (i : nat) (r : regex) (s : list ascii) (c : caps)
      (k : list ascii -> caps -> option R) :
  rmatch (Group i r) s c k
  = rmatch r s c (fun s' c' =>
      k s' ((i, firstn (List.length s - List.length s') s) :: c')).
Proof. reflexivity. Qed.

Lemma rmatch_seq (r1 r2 : regex) (s : list ascii) (c : caps)
      (k : list ascii -> caps -> option R) :
  rmatch (Seq r1 r2) s c k = rmatch r1 s c (fun s' c' => rmatch r2 s' c' k).
Proof. reflexivity. Qed.

End MatcherFacts.

Section MarkerFacts.
Import Re LinkProcessor.

(** A match of the specific marker is at least eight characters longer
    than its second group: the opening [<link:], the bar and the closing
    bracket stay out of it. *)
Lemma specific_match_length (s s' : list ascii) (c : caps) :
  match_at specific_link_pattern s = Some (s', c) ->
  String.length (group 2 c) + 8 <= List.length s - List.length s'
  /\ List.length s' < List.length s.
Proof.
  unfold match_at, specific_link_pattern. intros H.
  rewrite rmatch_seq in H. apply rmatch_literal in H. destruct H as (s1 & -> & H).
  rewrite rmatch_seq in H. apply rmatch_continues in H.
  destruct H as (s2 & c2 & Hlen2 & H).
  rewrite rmatch_seq in H. apply rmatch_chr in H. destruct H as (s3 & -> & H).
  rewrite rmatch_seq, rmatch_group in H. apply rmatch_continues in H.
  destruct H as (s4 & c4 & Hlen4 & H).
  apply rmatch_chr in H. destruct H as (s5 & -> & H).
  inversion H; subst. clear H.
  unfold group. simpl cap_lookup. cbv iota.
  rewrite length_of_chars, length_firstn, length_app.
  change (List.length (Str.chars "<link:")) with 6.
  simpl List.length in Hlen2, Hlen4. lia.
Qed.

(** One pass over a text: each match takes at least eight characters
    away. *)
Lemma scan_shrinks (fuel : nat) (l : list ascii) :
  List.length l < fuel ->
  String.length (subst (group 2) (scan fuel specific_link_pattern l))
  + 8 * List.length (hits (scan fuel specific_link_pattern l))
  <= List.length l.
Proof.
  revert l. induction fuel as [|fuel IH]; intros l Hfuel; [lia|].
  simpl. destruct (match_at specific_link_pattern l) as [[s' c]|] eqn:E.
  - apply specific_match_length in E. destruct E as [Hlen Hlt].
    apply Nat.ltb_lt in Hlt. rewrite Hlt. apply Nat.ltb_lt in Hlt.
    simpl. rewrite length_append.
    specialize (IH s' ltac:(lia)). lia.
  - destruct l as [|a l]; simpl; [lia|].
    specialize (IH l ltac:(simpl in Hfuel; lia)). lia.
Qed.

(** A text that holds a marker gets shorter, so it changes. *)
Lemma format_changes_marked_text (s : string) :
  findall2 specific_link_pattern s <> [] ->
  format_response_with_links s <> s.
Proof.
  intros Hhits Heq.
  assert (Hlen : String.length (format_response_with_links s)
                 + 8 * List.length (hits (tokens specific_link_pattern s))
                 <= String.length s).
  { unfold format_response_with_links, sub, tokens.
    rewrite <- (length_chars s) at 3. apply scan_shrinks. rewrite length_chars. lia. }
  rewrite Heq in Hlen.
  unfold findall2 in Hhits.
  destruct (hits (tokens specific_link_pattern s)); [apply Hhits; reflexivity|].
  simpl in Hlen. lia.
Qed.

Lemma starts_with_app (p s : list ascii) : Str.starts_with p (p ++ s) = true.
Proof.
  induction p as [|a p IH]; simpl; [reflexivity|].
  rewrite Ascii.eqb_refl. exact IH.
Qed.

(** A marker begins with its opening. *)
Lemma specific_match_opening (s s' : list ascii) (c : caps) :
  match_at specific_link_pattern s = Some (s', c) ->
  Str.starts_with (Str.chars "<link:") s = true.
Proof.
  unfold match_at, specific_link_pattern. intros H.
  rewrite rmatch_seq in H. apply rmatch_literal in H. destruct H as (s1 & -> & _).
  apply starts_with_app.
Qed.

Lemma scan_without_opening (fuel : nat) (l : list ascii) :
  Str.contains_chars (Str.chars "<link:") l = false ->
  hits (scan fuel specific_link_pattern l) = [].
Proof.
  revert l. induction fuel as [|fuel IH]; intros l Hno; [reflexivity|].
  assert (Hhead : Str.starts_with (Str.chars "<link:") l = false).
  { destruct l as [|a l]; [reflexivity|].
    change (Str.starts_with (Str.chars "<link:") (a :: l)
            || Str.contains_chars (Str.chars "<link:") l = false) in Hno.
    apply orb_false_iff in Hno. apply Hno. }
  simpl. destruct (match_at specific_link_pattern l) as [[s' c]|] eqn:E.
  - apply specific_match_opening in E. congruence.
  - destruct l as [|a l]; [reflexivity|]. simpl. apply IH.
    change (Str.starts_with (Str.chars "<link:") (a :: l)
            || Str.contains_chars (Str.chars "<link:") l = false) in Hno.
    apply orb_false_iff in Hno. apply Hno.
Qed.

(** A text in which [<link:] does not occur holds no marker. *)
Lemma no_opening_no_marker (s : string) :
  Str.contains "<link:" s = false ->
  findall2 specific_link_pattern s = [].
Proof.
  intros H. unfold findall2, tokens.
  rewrite scan_without_opening; [reflexivity|exact H].
Qed.

End MarkerFacts.

(** A second pass leaves the text of the first alone exactly when the first
    left no marker behind. *)
Lemma format_twice_iff (t : string) :
  LinkProcessor.format_response_with_links (LinkProcessor.format_response_with_links t)
  = LinkProcessor.format_response_with_links t
  <-> Re.findall2 LinkProcessor.specific_link_pattern
        (LinkProcessor.format_response_with_links t) = [].
Proof.
  split.
  - intros Heq.
    destruct (Re.findall2 LinkProcessor.specific_link_pattern
                (LinkProcessor.format_response_with_links t)) eqn:E; [reflexivity|].
    exfalso. apply (format_changes_marked_text (LinkProcessor.format_response_with_links t)).
    + rewrite E. discriminate.
    + exact Heq.
  - intros H. unfold LinkProcessor.format_response_with_links at 1.
    apply sub_without_match.
    unfold Re.findall2 in H. apply map_eq_nil in H. exact H.
Qed.

(* ===================================================================== *)
(** ** The bounds on iteration are never reached *)
(* ===================================================================== *)

Section FuelFacts.
Import Re.
Context {R : Type}.

Lemma star_loop_ext (body : matcher R) (greedy : bool) :
  extensional body ->
  forall n s c k1 k2,
    (forall s' c', k1 s' c' = k2 s' c') ->
    star_loop body greedy k1 n s c = star_loop body greedy k2 n s c.
Proof.
  intros Hext. induction n as [|n IH]; intros s c k1 k2 Hk; simpl.
  - rewrite (Hk s c). reflexivity.
  - rewrite (Hk s c).
    rewrite (Hext s c _ (fun s' c' =>
               if List.length s' <? List.length s
               then star_loop body greedy k2 n s' c' else None)).
    + reflexivity.
    + intros s' c'. destruct (List.length s' <? List.length s); [|reflexivity].
      apply IH. exact Hk.
Qed.

Lemma rmatch_ext (r : regex) : extensional (fun s c k => @rmatch R r s c k).
Proof.
  unfold extensional.
  induction r as [| p | r1 IH1 r2 IH2 | r1 IH1 r2 IH2 | greedy r1 IH1 | i r1 IH1];
    intros s c k1 k2 Hk; simpl.
  - apply Hk.
  - destruct s as [|a s]; [reflexivity|]. destruct (p a); [apply Hk|reflexivity].
  - apply IH1. intros s' c'. apply IH2. exact Hk.
  - rewrite (IH1 s c k1 k2 Hk), (IH2 s c k1 k2 Hk). reflexivity.
  - apply star_loop_ext; [exact IH1|exact Hk].
  - apply IH1. intros s' c'. apply Hk.
Qed.

Lemma star_loop_strict (body : matcher R) (greedy : bool) :
  extensional body -> strict body ->
  forall n s c, star_loop body greedy (fun _ _ => None) n s c = None.
Proof.
  intros Hext Hstrict. induction n as [|n IH]; intros s c; simpl.
  - destruct greedy; reflexivity.
  - assert (Hagain : body s c (fun s' c' =>
                       if List.length s' <? List.length s
                       then star_loop body greedy (fun _ _ => None) n s' c'
                       else None) = None).
    { rewrite (Hext s c _ (fun _ _ => None)); [apply Hstrict|].
      intros s' c'. destruct (List.length s' <? List.length s); [apply IH|reflexivity]. }
    rewrite Hagain. destruct greedy; reflexivity.
Qed.

Lemma rmatch_strict (r : regex) : strict (fun s c k => @rmatch R r s c k).
Proof.
  unfold strict.
  induction r as [| p | r1 IH1 r2 IH2 | r1 IH1 r2 IH2 | greedy r1 IH1 | i r1 IH1];
    intros s c; simpl.
  - reflexivity.
  - destruct s as [|a s]; [reflexivity|]. destruct (p a); reflexivity.
  - rewrite (rmatch_ext r1 s c _ (fun _ _ => None)); [apply IH1|].
    intros s' c'. apply IH2.
  - rewrite IH1, IH2. reflexivity.
  - apply star_loop_strict; [apply rmatch_ext|exact IH1].
  - apply IH1.
Qed.

(** Once the bound of a star is the length of the input, a larger bound
    changes nothing: every iteration consumes a character, so the bound is
    an upper limit that no run reaches with input left. *)
Lemma star_loop_bound (body : matcher R) (greedy : bool)
      (k : list ascii -> caps -> option R) :
  extensional body -> strict body ->
  forall n m s c,
    List.length s <= n -> List.length s <= m ->
    star_loop body greedy k n s c = star_loop body greedy k m s c.
Proof.
  intros Hext Hstrict.
  assert (Hzero : forall m s c,
             List.length s = 0 ->
             star_loop body greedy k 0 s c = star_loop body greedy k m s c).
  { intros [|m] s c Hs; [reflexivity|]. simpl.
    assert (Hagain : body s c (fun s' c' =>
                       if List.length s' <? List.length s
                       then star_loop body greedy k m s' c' else None) = None).
    { rewrite (Hext s c _ (fun _ _ => None)); [apply Hstrict|].
      intros s' c'. rewrite Hs. reflexivity. }
    rewrite Hagain. reflexivity. }
  induction n as [|n IH]; intros m s c Hn Hm.
  - apply Hzero. lia.
  - destruct m as [|m]; [symmetry; apply Hzero; lia|].
    simpl.
    rewrite (Hext s c _ (fun s' c' =>
               if List.length s' <? List.length s
               then star_loop body greedy k m s' c' else None)).
    + reflexivity.
    + intros s' c'. destruct (List.length s' <? List.length s) eqn:E; [|reflexivity].
      apply Nat.ltb_lt in E. apply IH; lia.
Qed.

(** The same for a pass over a text: a step consumes a character, and the
    bound of [tokens] is never reached with text left. *)
Lemma scan_bound (r : regex) :
  forall fuel fuel' l,
    List.length l < fuel -> List.length l < fuel' ->
    scan fuel r l = scan fuel' r l.
Proof.
  induction fuel as [|fuel IH]; intros fuel' l H H'; [lia|].
  destruct fuel' as [|fuel']; [lia|].
  simpl. destruct (match_at r l) as [[s' c]|].
  - destruct (List.length s' <? List.length l) eqn:E.
    + apply Nat.ltb_lt in E. f_equal. apply IH; lia.
    + destruct l as [|a l]; [reflexivity|].
      f_equal. f_equal. apply IH; simpl in *; lia.
  - destruct l as [|a l]; [reflexivity|].
    f_equal. apply IH; simpl in *; lia.
Qed.

(** The bound a star starts with is enough. *)
Lemma star_bound_enough (greedy : bool) (r : regex) (s : list ascii) (c : caps)
      (k : list ascii -> caps -> option R) (n : nat) :
  List.length s <= n ->
  rmatch (Star greedy r) s c k
  = star_loop (fun s' c' k' => rmatch r s' c' k') greedy k n s c.
Proof.
  intros Hn. simpl. apply star_loop_bound.
  - apply rmatch_ext.
  - apply rmatch_strict.
  - lia.
  - exact Hn.
Qed.

(** The bound a pass starts with is enough. *)
Lemma tokens_bound_enough (r : regex) (s : string) (fuel : nat) :
  String.length s < fuel ->
  tokens r s = scan fuel r (Str.chars s).
Proof.
  intros Hfuel. unfold tokens. apply scan_bound; rewrite length_chars; lia.
Qed.

End FuelFacts.

(** In particular a second pass changes nothing when the first pass left no
    [<link:] in the text. *)
Lemma format_twice_without_opening (t : string) :
  Str.contains "<link:" (LinkProcessor.format_response_with_links t) = false ->
  LinkProcessor.format_response_with_links (LinkProcessor.format_response_with_links t)
  = LinkProcessor.format_response_with_links t.
Proof.
  intros H. apply format_twice_iff. apply no_opening_no_marker. exact H.
Qed.

(* ===================================================================== *)
(** ** The turn: [process_message] *)
(* ===================================================================== *)

Section ServiceFacts.
Import ChatGPT User TravelHandler EnhancedConversation.
Variable api : nat -> OpenaiRequest -> res value.
Variable settings : Settings.
Variable json_loads : string -> res value.
Variable json_dumps : value -> string.
Variable extraction_prompt : string.
Variable persona_prompt : string.
Variable now : Cal.datetime.
Variable date_fromisoformat : string -> option Cal.date.
Variable datetime_fromisoformat : string -> option Cal.datetime.
Variable today : Cal.date.
Variable validate_flight : Flights.FlightSearchReqeust -> res Flights.FlightSearchReqeust.
Variable validate_restaurant :
  Dining.RestaurantSearchRequest -> res Dining.RestaurantSearchRequest.
Variable validate_transport :
  Transport.TransportSearchRequest -> res Transport.TransportSearchRequest.
Variable search_flights : nat -> Flights.FlightSearchReqeust -> res value.
Variable search_restaurants : nat -> Dining.RestaurantSearchRequest -> res value.
Variable search_transport : nat -> Transport.TransportSearchRequest -> res value.

Let turn_of :=
  process_message api settings json_loads json_dumps extraction_prompt persona_prompt now
    date_fromisoformat datetime_fromisoformat today
    validate_flight validate_restaurant validate_transport
    search_flights search_restaurants search_transport.
Let body :=
  process_message_body api settings json_loads json_dumps extraction_prompt persona_prompt
    date_fromisoformat datetime_fromisoformat today
    validate_flight validate_restaurant validate_transport
    search_flights search_restaurants search_transport.
Let extract := Context.extract_entities api settings json_loads extraction_prompt.
Let dispatch :=
  process_travel_intent date_fromisoformat datetime_fromisoformat today
    validate_flight validate_restaurant validate_transport
    search_flights search_restaurants search_transport.
Let synthesize := _generate_response api settings json_dumps persona_prompt.

(** The context at the start of the [try] block: the one given, or a
    new one, with the user turn appended and the clock read. *)
Let started (user_id message : string) (context : option UserContext) : UserContext :=
  touch now (append_turn (turn "user" (VStr message))
               (match context with Some c => c | None => User.new user_id end)).

(** How the pieces of the store are threaded. *)
Lemma bind_run {S A B : Type} (m : M S A) (k : A -> M S B) (s : S) :
  bind m k s = match m s with
               | (Ok a, s') => k a s'
               | (Err e, s') => (Err e, s')
               end.
Proof. reflexivity. Qed.

Lemma on_api_run {A : Type} (m : M log A) (w : world) (c : UserContext) :
  on_api m (w, c)
  = (fst (m (api_log w)), (World (snd (m (api_log w))) (provider_log w), c)).
Proof. unfold on_api, zoom. simpl. destruct (m (api_log w)); reflexivity. Qed.

Lemma on_providers_run {A : Type} (m : M plog A) (w : world) (c : UserContext) :
  on_providers m (w, c)
  = (fst (m (provider_log w)), (World (api_log w) (snd (m (provider_log w))), c)).
Proof. unfold on_providers, zoom. simpl. destruct (m (provider_log w)); reflexivity. Qed.

(** [process_message] is its [try] block run on the started context. *)
Lemma process_message_run (user_id message : string) (context : option UserContext)
      (w : world) :
  turn_of user_id message context w
  = let (r, st) :=
        try_except (body message)
          (fun e => bind the_context (fun context =>
                      ret (Reply (VStr (apology (exn_type e))) (VList []) context)))
          (w, started user_id message context) in
    (r, fst st).
Proof. reflexivity. Qed.

(** The [try] block when the synthesis raises: the exception leaves the
    block, with the context as it was started. *)
Lemma body_synthesis_failure (message : string) (w : world) (c : UserContext)
      (entities : dict) (handler_response : value) (l1 l3 : log) (pl2 : plog) (e : exn) :
  extract message c (api_log w) = (Ok (VDict entities), l1) ->
  dispatch (get_default "intent" (VStr "general") entities) entities c (provider_log w)
  = (Ok handler_response, pl2) ->
  synthesize message entities handler_response c l1 = (Err e, l3) ->
  body message (w, c) = (Err e, (World l3 pl2, c)).
Proof.
  intros Hextract Hdispatch Hsynth.
  unfold body, process_message_body.
  rewrite bind_run. unfold the_context at 1. simpl.
  rewrite bind_run, on_api_run. fold extract. rewrite Hextract. simpl.
  rewrite bind_run. unfold lift at 1. simpl.
  rewrite bind_run, on_providers_run. fold dispatch. simpl. rewrite Hdispatch. simpl.
  rewrite bind_run, on_api_run. fold synthesize. simpl. rewrite Hsynth. reflexivity.
Qed.

(** C5: when the synthesis raises [e] after extraction and dispatch went
    through, [process_message] still returns a reply and raises nothing.
    The text of the reply is the apology sentence with the class name of
    [e] in it, its links are the empty list, and its context is the one
    given (or a new one for the user) whose history ends with the turn
    of role [user] that holds the message: nothing is taken back from
    the history, and no assistant turn is added. *)
Theorem synthesis_failure_reply (user_id message : string) (context : option UserContext)
        (w : world) (entities : dict) (handler_response : value)
        (l1 l3 : log) (pl2 : plog) (e : exn) :
  extract message (started user_id message context) (api_log w) = (Ok (VDict entities), l1) ->
  dispatch (get_default "intent" (VStr "general") entities) entities
    (started user_id message context) (provider_log w)
  = (Ok handler_response, pl2) ->
  synthesize message entities handler_response (started user_id message context) l1
  = (Err e, l3) ->
  let given := match context with Some c => c | None => User.new user_id end in
  turn_of user_id message context w
  = (Ok (Reply
           (VStr ("I'm having trouble processing your request. There was an error: "
                  ++ exn_type e
                  ++ ". Please try again in a moment, or let me know if I can help "
                  ++ "with something else."))
           (VList [])
           {| User.user_id := User.user_id given;
              User.location := User.location given;
              User.preferences := User.preferences given;
              User.conversation_history :=
                User.conversation_history given
                ++ [VDict [("role", VStr "user"); ("content", VStr message)]];
              User.last_interaction := Some now |}),
     World l3 pl2).
Proof.
  intros Hextract Hdispatch Hsynth given.
  rewrite process_message_run. unfold try_except.
  rewrite (body_synthesis_failure _ _ _ _ _ _ _ _ _ Hextract Hdispatch Hsynth).
  reflexivity.
Qed.

(** The [try] block changes the context, if at all, by appending the
    assistant turn. *)
Lemma body_context (message : string) (w : world) (c : UserContext) :
  snd (snd (body message (w, c))) = c
  \/ exists t, snd (snd (body message (w, c))) = append_turn (turn "assistant" t) c.
Proof.
  unfold body, process_message_body.
  rewrite bind_run. unfold the_context at 1. simpl.
  rewrite bind_run, on_api_run. simpl.
  destruct (Context.extract_entities api settings json_loads extraction_prompt message c
              (api_log w)) as [[ent|e] l1]; simpl; [|left; reflexivity].
  rewrite bind_run. unfold lift at 1. simpl.
  destruct (PyOps.as_dict ent) as [entities|e]; simpl; [|left; reflexivity].
  rewrite bind_run, on_providers_run. simpl.
  match goal with
  | |- context [process_travel_intent ?a1 ?a2 ?a3 ?a4 ?a5 ?a6 ?a7 ?a8 ?a9 ?i ?en ?cx ?l] =>
      destruct (process_travel_intent a1 a2 a3 a4 a5 a6 a7 a8 a9 i en cx l) as [[hr|e] pl]
  end; simpl; [|left; reflexivity].
  rewrite bind_run, on_api_run. simpl.
  destruct (_generate_response api settings json_dumps persona_prompt message entities hr c l1)
    as [[t|e] l3]; simpl; [|left; reflexivity].
  right. exists t.
  rewrite bind_run. unfold update_context at 1. simpl.
  rewrite bind_run. unfold lift at 1. simpl.
  destruct (PyOps.as_dict hr) as [env|e]; simpl; [|reflexivity].
  destruct (extract_links_total t) as [found Hfound].
  rewrite bind_run.
  destruct (negb (truthy (get_default "links" (VList []) env))).
  - rewrite bind_run. unfold lift at 1. rewrite Hfound. unfold ret at 1.
    rewrite bind_run. unfold lift at 1. simpl. reflexivity.
  - unfold ret at 1. rewrite bind_run. unfold lift at 1.
    destruct (PyOps.len _) as [n|e]; simpl; reflexivity.
Qed.

(** The context of a reply of the [try] block is the context it leaves
    in the store. *)
Lemma body_reply_context (message : string) (st : store) (reply : reply) :
  fst (body message st) = Ok reply ->
  EnhancedConversation.context reply = snd (snd (body message st)).
Proof.
  destruct st as [w c]. unfold body, process_message_body.
  rewrite bind_run. unfold the_context at 1. simpl.
  rewrite bind_run, on_api_run. simpl.
  destruct (Context.extract_entities api settings json_loads extraction_prompt message c
              (api_log w)) as [[ent|e] l1]; simpl; [|discriminate].
  rewrite bind_run. unfold lift at 1. simpl.
  destruct (PyOps.as_dict ent) as [entities|e]; simpl; [|discriminate].
  rewrite bind_run, on_providers_run. simpl.
  match goal with
  | |- context [process_travel_intent ?a1 ?a2 ?a3 ?a4 ?a5 ?a6 ?a7 ?a8 ?a9 ?i ?en ?cx ?l] =>
      destruct (process_travel_intent a1 a2 a3 a4 a5 a6 a7 a8 a9 i en cx l) as [[hr|e] pl]
  end; simpl; [|discriminate].
  rewrite bind_run, on_api_run. simpl.
  destruct (_generate_response api settings json_dumps persona_prompt message entities hr c l1)
    as [[t|e] l3]; simpl; [|discriminate].
  rewrite bind_run. unfold update_context at 1. simpl.
  rewrite bind_run. unfold lift at 1. simpl.
  destruct (PyOps.as_dict hr) as [env|e]; simpl; [|discriminate].
  destruct (extract_links_total t) as [found Hfound].
  rewrite bind_run.
  destruct (negb (truthy (get_default "links" (VList []) env))).
  - rewrite !bind_run. unfold lift, ret, the_context. rewrite Hfound. simpl.
    intros H. inversion H. reflexivity.
  - unfold ret at 1. cbv iota beta.
    rewrite !bind_run. unfold lift, ret, the_context.
    destruct (PyOps.len (get_default "links" (VList []) env)) as [n|e]; simpl;
      [|discriminate].
    intros H. inversion H. reflexivity.
Qed.

(** A turn always ends with a reply: no exception leaves
    [process_message], and the context of the reply holds the history it
    was given, then the user turn, then at most the assistant turn. *)
Lemma process_message_replies (user_id message : string) (context : option UserContext)
      (w : world) :
  exists reply,
    fst (turn_of user_id message context w) = Ok reply
    /\ (EnhancedConversation.context reply = started user_id message context
        \/ exists t, EnhancedConversation.context reply
                     = append_turn (turn "assistant" t) (started user_id message context)).
Proof.
  rewrite process_message_run. unfold try_except.
  pose proof (body_context message w (started user_id message context)) as Hctx.
  pose proof (body_reply_context message (w, started user_id message context)) as Hreply.
  destruct (body message (w, started user_id message context)) as [[reply|e] [w' c']].
  - simpl in *. exists reply. split; [reflexivity|].
    rewrite (Hreply reply eq_refl). exact Hctx.
  - simpl in *. eexists. split; [reflexivity|]. simpl. exact Hctx.
Qed.

End ServiceFacts.

(** A turn in which the extraction is answered, the flight search
    succeeds and every synthesis attempt times out: the reply is the
    apology for [ReadTimeout] and the history holds the user turn. *)
Lemma synthesis_failure_reply_witness :
  fst (Demo.turn_of (Demo.answers_once (VStr Demo.flight_answer))
         "u1" "fly me to Paris" None (EnhancedConversation.World [] []))
  = Ok (EnhancedConversation.Reply
          (VStr ("I'm having trouble processing your request. There was an error: "
                 ++ "ReadTimeout. Please try again in a moment, or let me know if I "
                 ++ "can help with something else."))
          (VList [])
          {| User.user_id := "u1"; User.location := VNone; User.preferences := VNone;
             User.conversation_history :=
               [VDict [("role", VStr "user"); ("content", VStr "fly me to Paris")]];
             User.last_interaction := Some Demo.now |}).
Proof.
  unfold Demo.turn_of.
  eapply eq_trans.
  - apply (f_equal fst).
    eapply (synthesis_failure_reply
               (Demo.answers_once (VStr Demo.flight_answer)) ChatGPT.settings0
               Demo.json_loads Demo.json_dumps
               "Extract the travel entities." "You are Jetzy." Demo.now
               Iso.date_fromisoformat Iso.datetime_fromisoformat Demo.today
               Demo.accept Demo.accept Demo.accept
               (Demo.found "FlightSearchResponse") (Demo.found "RestaurantSearchResponse")
               (Demo.found "TransportSearchResponse")
               "u1" "fly me to Paris" None (EnhancedConversation.World [] []));
      lazy; reflexivity.
  - reflexivity.
Defined.

(* ===================================================================== *)
(** ** The request budget of the gateway *)
(* ===================================================================== *)

Section GatewayBudget.
Import ChatGPT.
Variable api : nat -> OpenaiRequest -> res value.
Variable settings : Settings.
Variable messages : list value.
Variable kw : kwargs.

Let primary : string := kw_get (kw_model kw) (default_model settings).

(** One call entered without a [model] keyword: what it returns and what
    it adds to the log. *)
Lemma make_api_request_run (l : log) (model : string) :
  kw_model kw = None ->
  call_make_api_request api settings messages model kw l
  = (request_outcome api settings (List.length l) messages model kw, l ++ [model]).
Proof.
  intros Hkw. unfold call_make_api_request. rewrite Hkw. reflexivity.
Qed.

Lemma make_api_request_collides (l : log) (model given : string) :
  kw_model kw = Some given ->
  call_make_api_request api settings messages model kw l = (Err multiple_values_error, l).
Proof.
  intros Hkw. unfold call_make_api_request. rewrite Hkw. reflexivity.
Qed.

(** What one request leaves in the log, in every case. *)
Lemma generate_response_sends (l : log) :
  exists sent,
    snd (generate_response api settings messages kw l) = l ++ sent
    /\ (sent = [] /\ kw_model kw <> None
        \/ sent = [primary]
        \/ sent = [primary; "gpt-3.5-turbo-0125"]
        \/ sent = [primary; "gpt-3.5-turbo-0125"; "gpt-3.5-turbo"]
        \/ sent = [primary; "gpt-3.5-turbo"])
    /\ (forall r, fst (generate_response api settings messages kw l) = Ok r ->
        exists i model,
          i < List.length sent
          /\ nth_error sent i = Some model
          /\ api (List.length l + i) (build_request settings messages model kw) = Ok r
          /\ sanitized_response r = Ok tt).
Proof.
  assert (Hout : forall i model r,
            request_outcome api settings i messages model kw = Ok r ->
            api i (build_request settings messages model kw) = Ok r
            /\ sanitized_response r = Ok tt).
  { intros i model r. unfold request_outcome, rbind.
    destruct (api i _) as [v|e]; [|discriminate].
    destruct (sanitized_response v) as [[]|e] eqn:Hs; [|discriminate].
    intros H. inversion H. subst. auto. }
  unfold generate_response, try_except. fold primary.
  destruct (kw_model kw) as [given|] eqn:Hkw.
  - unfold call_make_api_request. rewrite Hkw. unfold raise. simpl.
    exists []. rewrite app_nil_r.
    destruct (negb (primary =? "gpt-3.5-turbo-0125")%string); simpl;
      (repeat split; [left; split; [reflexivity|discriminate]|discriminate]).
  - rewrite (make_api_request_run l primary Hkw).
    destruct (request_outcome api settings (List.length l) messages primary kw)
      as [r|e1] eqn:H1.
    + exists [primary]. simpl. repeat split; [tauto|].
      intros r' Hr. inversion Hr; subst. exists 0, primary.
      rewrite Nat.add_0_r. apply Hout in H1. simpl. intuition lia.
    + destruct (negb (primary =? "gpt-3.5-turbo-0125")%string).
      * rewrite (make_api_request_run _ "gpt-3.5-turbo-0125" Hkw).
        rewrite length_app. simpl List.length.
        destruct (request_outcome api settings (List.length l + 1) messages
                    "gpt-3.5-turbo-0125" kw) as [r|e2] eqn:H2.
        -- exists [primary; "gpt-3.5-turbo-0125"]. simpl.
           rewrite <- app_assoc. simpl. repeat split; [tauto|].
           intros r' Hr. inversion Hr; subst. exists 1, "gpt-3.5-turbo-0125".
           apply Hout in H2. simpl. intuition lia.
        -- rewrite (make_api_request_run _ "gpt-3.5-turbo" Hkw).
           rewrite !length_app. simpl List.length.
           exists [primary; "gpt-3.5-turbo-0125"; "gpt-3.5-turbo"].
           rewrite <- !app_assoc. simpl.
           destruct (request_outcome api settings (List.length l + 1 + 1) messages
                       "gpt-3.5-turbo" kw) as [r|e3] eqn:H3; simpl.
           ++ repeat split; [tauto|].
              intros r' Hr. inversion Hr; subst. exists 2, "gpt-3.5-turbo".
              apply Hout in H3. simpl.
              replace (List.length l + 2) with (List.length l + 1 + 1) by lia.
              intuition lia.
           ++ repeat split; [tauto|]. unfold raise. simpl. discriminate.
      * rewrite (make_api_request_run _ "gpt-3.5-turbo" Hkw).
        rewrite !length_app. simpl List.length.
        exists [primary; "gpt-3.5-turbo"].
        rewrite <- !app_assoc. simpl.
        destruct (request_outcome api settings (List.length l + 1) messages
                    "gpt-3.5-turbo" kw) as [r|e3] eqn:H3; simpl.
        -- repeat split; [tauto|].
           intros r' Hr. inversion Hr; subst. exists 1, "gpt-3.5-turbo".
           apply Hout in H3. simpl. intuition lia.
        -- repeat split; [tauto|]. unfold raise. simpl. discriminate.
Qed.

(** X1: one call of [generate_response] leaves the earlier entries of
    the log as they were and adds the requests it sent, which are a
    beginning of this sequence: the requested (or default) model; then
    [gpt-3.5-turbo-0125], unless that was the requested model; then
    [gpt-3.5-turbo].  Nothing is sent only when a [model] keyword is
    given, and then nothing at all.  So at most three requests are
    sent, and every request after the first goes to one of the two
    fallback models. *)
Theorem generate_response_request_budget (l : log) :
  exists sent,
    snd (generate_response api settings messages kw l) = l ++ sent
    /\ (sent = [] /\ kw_model kw <> None
        \/ sent = [primary] /\ kw_model kw = None
        \/ sent = [primary; "gpt-3.5-turbo-0125"]
           /\ primary <> "gpt-3.5-turbo-0125" /\ kw_model kw = None
        \/ sent = [primary; "gpt-3.5-turbo-0125"; "gpt-3.5-turbo"]
           /\ primary <> "gpt-3.5-turbo-0125" /\ kw_model kw = None
        \/ sent = ["gpt-3.5-turbo-0125"; "gpt-3.5-turbo"]
           /\ primary = "gpt-3.5-turbo-0125" /\ kw_model kw = None)
    /\ List.length sent <= 3.
Proof.
  unfold generate_response, try_except. fold primary.
  destruct (kw_model kw) as [given|] eqn:Hkw.
  - exists []. rewrite app_nil_r.
    unfold call_make_api_request. rewrite Hkw. unfold raise. simpl.
    destruct (negb (primary =? "gpt-3.5-turbo-0125")%string);
      (split; [reflexivity|split; [left; split; [reflexivity|discriminate]|simpl; lia]]).
  - rewrite (make_api_request_run l primary Hkw).
    destruct (request_outcome api settings (List.length l) messages primary kw)
      as [r|e1].
    { exists [primary]. simpl. split; [reflexivity|]. split; [|lia].
      right. left. split; reflexivity. }
    destruct (String.eqb_spec primary "gpt-3.5-turbo-0125") as [Heq | Hne];
      cbv beta iota delta [negb].
    + rewrite (make_api_request_run _ "gpt-3.5-turbo" Hkw).
      exists ["gpt-3.5-turbo-0125"; "gpt-3.5-turbo"].
      split; [|split; [|simpl; lia]].
      * rewrite Heq, <- app_assoc.
        destruct (request_outcome _ _ _ _ _ _); reflexivity.
      * do 4 right. auto.
    + rewrite (make_api_request_run _ "gpt-3.5-turbo-0125" Hkw).
      destruct (request_outcome api settings (List.length (l ++ [primary])) messages
                  "gpt-3.5-turbo-0125" kw) as [r|e2].
      { exists [primary; "gpt-3.5-turbo-0125"].
        split; [|split; [|simpl; lia]].
        - rewrite <- app_assoc. reflexivity.
        - do 2 right. left. auto. }
      rewrite (make_api_request_run _ "gpt-3.5-turbo" Hkw).
      exists [primary; "gpt-3.5-turbo-0125"; "gpt-3.5-turbo"].
      split; [|split; [|simpl; lia]].
      * rewrite <- !app_assoc.
        destruct (request_outcome _ _ _ _ _ _); reflexivity.
      * do 3 right. left. auto.
Qed.

(** X2: a [model] keyword given to [generate_response] collides with the
    positional argument of every inner call, so the call fails with a
    [TypeError] and no request is sent: the log is left as it was. *)
Theorem model_keyword_never_reaches_endpoint (l : log) (given : string) :
  kw_model kw = Some given ->
  exists e,
    generate_response api settings messages kw l = (Err e, l)
    /\ exn_type e = "TypeError".
Proof.
  intros Hkw. exists multiple_values_error. split; [|reflexivity].
  unfold generate_response, try_except, call_make_api_request.
  rewrite Hkw. unfold raise. simpl.
  destruct (negb (given =? "gpt-3.5-turbo-0125")%string); reflexivity.
Qed.

(** X3: a response returned by [generate_response] is the decoded body
    of one of the requests sent by this call, and it is a dict whose
    [choices] entry, when present, has a length. *)
Theorem returned_response_is_a_dict (l : log) (r : value) :
  fst (generate_response api settings messages kw l) = Ok r ->
  (exists i model,
     i < 3 /\ api (List.length l + i) (build_request settings messages model kw) = Ok r)
  /\ exists d n,
       r = VDict d /\ PyOps.len (get_default "choices" (VList []) d) = Ok n.
Proof.
  intros Hr.
  destruct (generate_response_sends l) as (sent & _ & Hsent & Hok).
  destruct (Hok r Hr) as (i & model & Hi & _ & Hapi & Hs).
  split.
  - exists i, model. split; [|exact Hapi].
    destruct Hsent as [[-> _] | [-> | [-> | [-> | ->]]]]; simpl in Hi; lia.
  - unfold sanitized_response, rbind in Hs.
    destruct r as [| b | z | f | s | vs | d | tag]; simpl in Hs; try discriminate.
    destruct (PyOps.len (get_default "choices" (VList []) d)) as [n|e] eqn:Hn;
      [|discriminate].
    exists d, n. auto.
Qed.

End GatewayBudget.

(** A call that asks for [gpt-4] by keyword on an endpoint that would answer. *)
Lemma model_keyword_never_reaches_endpoint_witness :
  exists e,
    ChatGPT.generate_response ChatGPT.third_time_lucky ChatGPT.settings0 []
      {| ChatGPT.kw_model := Some "gpt-4"; ChatGPT.kw_temperature := None;
         ChatGPT.kw_max_tokens := None; ChatGPT.kw_top_p := None;
         ChatGPT.kw_frequency_penalty := None; ChatGPT.kw_presence_penalty := None |} []
    = (Err e, [])
    /\ exn_type e = "TypeError".
Proof.
  apply (model_keyword_never_reaches_endpoint ChatGPT.third_time_lucky ChatGPT.settings0 []
           _ [] "gpt-4").
  reflexivity.
Defined.

(** The endpoint that answers the third request: its answer is what the call returns. *)
Lemma returned_response_is_a_dict_witness :
  fst (ChatGPT.generate_response ChatGPT.third_time_lucky ChatGPT.settings0 []
         ChatGPT.no_kwargs [])
  = Ok (VDict [("model", VStr "gpt-3.5-turbo")])
  /\ (exists i model,
        i < 3
        /\ ChatGPT.third_time_lucky (List.length (@nil string) + i)
             (ChatGPT.build_request ChatGPT.settings0 [] model ChatGPT.no_kwargs)
           = Ok (VDict [("model", VStr "gpt-3.5-turbo")]))
  /\ exists d n,
       VDict [("model", VStr "gpt-3.5-turbo")] = VDict d
       /\ PyOps.len (get_default "choices" (VList []) d) = Ok n.
Proof.
  split; [reflexivity|].
  apply (returned_response_is_a_dict ChatGPT.third_time_lucky ChatGPT.settings0 []
           ChatGPT.no_kwargs [] (VDict [("model", VStr "gpt-3.5-turbo")])).
  reflexivity.
Defined.

(* ===================================================================== *)
(** ** The footprint of a dispatch *)
(* ===================================================================== *)

Section DispatchFootprint.
Import TravelHandler.
Variable date_fromisoformat : string -> option Cal.date.
Variable datetime_fromisoformat : string -> option Cal.datetime.
Variable today : Cal.date.
Variable validate_flight : Flights.FlightSearchReqeust -> res Flights.FlightSearchReqeust.
Variable validate_restaurant :
  Dining.RestaurantSearchRequest -> res Dining.RestaurantSearchRequest.
Variable validate_transport :
  Transport.TransportSearchRequest -> res Transport.TransportSearchRequest.
Variable search_flights : nat -> Flights.FlightSearchReqeust -> res value.
Variable search_restaurants : nat -> Dining.RestaurantSearchRequest -> res value.
Variable search_transport : nat -> Transport.TransportSearchRequest -> res value.
Variable context : User.UserContext.

Let dispatch (intent : value) (entities : dict) : M plog value :=
  process_travel_intent date_fromisoformat datetime_fromisoformat today
    validate_flight validate_restaurant validate_transport
    search_flights search_restaurants search_transport intent entities context.
Let flight_search :=
  _handle_flight_search date_fromisoformat today validate_flight
    search_flights search_restaurants search_transport.
Let restaurant_search :=
  _handle_restaurant_search validate_restaurant
    search_flights search_restaurants search_transport.
Let transport_search :=
  _handle_transport_search date_fromisoformat datetime_fromisoformat today
    validate_transport search_flights search_restaurants search_transport.
Let ask := call_provider search_flights search_restaurants search_transport.

Lemma eq_str_true (v : value) (s : string) : eq_str v s = true -> v = VStr s.
Proof.
  destruct v; simpl; try discriminate. intros H. apply String.eqb_eq in H. congruence.
Qed.

(** The log after a search that ends a handler. *)
Lemma call_provider_log (c : provider_call) (kind message : string) (l : plog) :
  snd (bind (ask c) (fun response => ret (envelope kind response message)) l)
  = l ++ [(c, provider search_flights search_restaurants search_transport
                (List.length l) c)].
Proof.
  unfold bind, ask, call_provider, ret.
  destruct (provider search_flights search_restaurants search_transport (List.length l) c);
    reflexivity.
Qed.

Lemma flight_search_log (entities : dict) (l : plog) (out : res value * plog) :
  flight_search entities l = out ->
  snd out = l
  \/ exists r, snd out = l ++ [(SearchFlights r, search_flights (List.length l) r)].
Proof.
  unfold flight_search, _handle_flight_search.
  destruct (negb (truthy (get "origin" entities)) || negb (truthy (get "destination" entities)));
    [intros <-; left; reflexivity|].
  unfold bind at 1. unfold lift at 1.
  destruct (_parse_date date_fromisoformat (get "departure_date" entities)) as [dep|e];
    [|intros <-; left; reflexivity].
  unfold bind at 1. unfold lift at 1.
  destruct (_parse_date date_fromisoformat (get "return_date" entities)) as [ret_d|e];
    [|intros <-; left; reflexivity].
  unfold bind at 1.
  assert (Hdef : exists r, (match dep with Some d => ret d | None => lift (Cal.plus_one_day today) end) l = (r, l)).
  { destruct dep; unfold ret, lift; eauto. }
  destruct Hdef as [[d|e] Hdef]; rewrite Hdef; [|intros <-; left; reflexivity].
  unfold bind at 1. unfold lift at 1.
  destruct (validate_flight _) as [rq|e]; [|intros <-; left; reflexivity].
  intros <-. right. exists rq. apply call_provider_log.
Qed.

Lemma restaurant_search_log (entities : dict) (l : plog) (out : res value * plog) :
  restaurant_search entities l = out ->
  snd out = l
  \/ exists r, snd out = l ++ [(SearchRestaurants r, search_restaurants (List.length l) r)].
Proof.
  unfold restaurant_search, _handle_restaurant_search.
  destruct (negb (truthy (get "location" entities))); [intros <-; left; reflexivity|].
  unfold bind at 1. unfold lift at 1.
  destruct (validate_restaurant _) as [rq|e]; [|intros <-; left; reflexivity].
  intros <-. right. exists rq. apply call_provider_log.
Qed.

Lemma transport_search_log (entities : dict) (l : plog) (out : res value * plog) :
  transport_search entities l = out ->
  snd out = l
  \/ exists r, snd out = l ++ [(SearchTransport r, search_transport (List.length l) r)].
Proof.
  unfold transport_search, _handle_transport_search.
  destruct (negb (truthy (get "origin" entities)) || negb (truthy (get "destination" entities)));
    [intros <-; left; reflexivity|].
  unfold bind at 1. unfold lift at 1.
  destruct (_parse_datetime date_fromisoformat datetime_fromisoformat
              (get "departure_date" entities)) as [dep|e]; [|intros <-; left; reflexivity].
  unfold bind at 1.
  assert (Hdef : exists r,
             (match dep with
              | Some d => ret d
              | None => bind (lift (Cal.plus_one_day today))
                             (fun tomorrow => ret (Cal.at_noon tomorrow))
              end) l = (r, l)).
  { destruct dep; unfold ret, lift, bind; eauto.
    destruct (Cal.plus_one_day today); eauto. }
  destruct Hdef as [[d|e] Hdef]; rewrite Hdef; [|intros <-; left; reflexivity].
  unfold bind at 1. unfold lift at 1.
  destruct (parse_modes entities) as [modes|e]; [|intros <-; left; reflexivity].
  unfold bind at 1. unfold lift at 1.
  destruct (validate_transport _) as [rq|e]; [|intros <-; left; reflexivity].
  intros <-. right. exists rq. apply call_provider_log.
Qed.

(** Turning an exception into an envelope sends nothing. *)
Lemma error_envelope_log (m : M plog value) (l : plog) :
  snd (try_except m (fun e => ret (error_envelope e)) l) = snd (m l).
Proof.
  unfold try_except, ret. destruct (m l) as [[v|e] l']; reflexivity.
Qed.

(** X4: a restaurant request whose [location] is missing or falsy gets
    the envelope without data that names what is missing, and no search
    is sent. *)
Theorem missing_location_no_search (entities : dict) (l : plog) :
  truthy (get "location" entities) = false ->
  dispatch (VStr "restaurant") entities l
  = (Ok (VDict [("type", VStr "restaurant"); ("data", VNone);
                ("message", VStr "Missing location for restaurant search")]),
     l).
Proof.
  intros Hmissing.
  unfold dispatch, process_travel_intent, try_except. simpl.
  unfold _handle_restaurant_search. rewrite Hmissing. reflexivity.
Qed.

(** X5: a dispatch either leaves the log of searches as it was or adds
    exactly one search, and then the provider asked is the one of the
    intent: flights for [flight], restaurants for [restaurant], transport
    for [transport].  No other intent reaches a provider. *)
Theorem search_follows_intent (intent : value) (entities : dict) (l : plog) :
  snd (dispatch intent entities l) = l
  \/ (intent = VStr "flight"
      /\ exists r, snd (dispatch intent entities l)
                   = l ++ [(SearchFlights r, search_flights (List.length l) r)])
  \/ (intent = VStr "restaurant"
      /\ exists r, snd (dispatch intent entities l)
                   = l ++ [(SearchRestaurants r, search_restaurants (List.length l) r)])
  \/ (intent = VStr "transport"
      /\ exists r, snd (dispatch intent entities l)
                   = l ++ [(SearchTransport r, search_transport (List.length l) r)]).
Proof.
  unfold dispatch, process_travel_intent. rewrite error_envelope_log.
  destruct (eq_str intent "flight") eqn:Hf.
  { apply eq_str_true in Hf.
    destruct (flight_search_log entities l _ eq_refl) as [H|H]; [left; exact H|].
    right; left. auto. }
  destruct (eq_str intent "hotel"); [left; reflexivity|].
  destruct (eq_str intent "restaurant") eqn:Hr.
  { apply eq_str_true in Hr.
    destruct (restaurant_search_log entities l _ eq_refl) as [H|H]; [left; exact H|].
    right; right; left. auto. }
  destruct (eq_str intent "attraction"); [left; reflexivity|].
  destruct (eq_str intent "transport") eqn:Ht.
  { apply eq_str_true in Ht.
    destruct (transport_search_log entities l _ eq_refl) as [H|H]; [left; exact H|].
    right; right; right. auto. }
  destruct (eq_str intent "seasonal_advice"); left; reflexivity.
Qed.

(** X6: when the search sent by a dispatch succeeds with the data [v],
    the envelope returned carries [v] unchanged under [data], next to a
    message. *)
Theorem found_data_is_returned
        (intent : value) (entities : dict) (l : plog) (c : provider_call) (v : value) :
  snd (dispatch intent entities l) = l ++ [(c, Ok v)] ->
  exists env message,
    fst (dispatch intent entities l) = Ok env
    /\ field "data" env = Some v
    /\ field "message" env = Some (VStr message).
Proof.
  destruct (dispatch_outcome date_fromisoformat datetime_fromisoformat today
              validate_flight validate_restaurant validate_transport
              search_flights search_restaurants search_transport context intent entities l)
    as [[_ H] | [_ [(k & m & H) | [(e' & H) | [(c' & v' & k & m & H) | (c' & e' & H)]]]]];
    fold (dispatch intent entities) in H; rewrite H; simpl; intros Hlog.
  - destruct (log_not_extended _ _ Hlog).
  - destruct (log_not_extended _ _ Hlog).
  - destruct (log_not_extended _ _ Hlog).
  - apply app_inv_head in Hlog. inversion Hlog; subst.
    exists (envelope k v m), m. auto.
  - apply app_inv_head in Hlog. discriminate.
Qed.

End DispatchFootprint.

(** A restaurant request whose location is the empty text. *)
Lemma missing_location_no_search_witness :
  truthy (get "location" [("intent", VStr "restaurant"); ("location", VStr "")]) = false
  /\ Demo.dispatch (VStr "restaurant")
       [("intent", VStr "restaurant"); ("location", VStr "")] []
     = (Ok (VDict [("type", VStr "restaurant"); ("data", VNone);
                   ("message", VStr "Missing location for restaurant search")]),
        []).
Proof.
  split; [reflexivity|].
  apply (missing_location_no_search Iso.date_fromisoformat Iso.datetime_fromisoformat
           Demo.today Demo.accept Demo.accept Demo.accept
           (Demo.found "FlightSearchResponse") (Demo.found "RestaurantSearchResponse")
           (Demo.found "TransportSearchResponse") (User.new "u1")).
  reflexivity.
Defined.

(** The flight search of the Paris trip with working providers. *)
Lemma found_data_is_returned_witness :
  exists env message,
    fst (Demo.dispatch (VStr "flight") Demo.paris_trip []) = Ok env
    /\ TravelHandler.field "data" env = Some (VObj "FlightSearchResponse")
    /\ TravelHandler.field "message" env = Some (VStr message).
Proof.
  eapply (found_data_is_returned Iso.date_fromisoformat Iso.datetime_fromisoformat
            Demo.today Demo.accept Demo.accept Demo.accept
            (Demo.found "FlightSearchResponse") (Demo.found "RestaurantSearchResponse")
            (Demo.found "TransportSearchResponse") (User.new "u1")
            (VStr "flight") Demo.paris_trip []).
  lazy. reflexivity.
Defined.

(* ===================================================================== *)
(** ** The requested transport modes *)
(* ===================================================================== *)

Section ModeFacts.
Import TravelHandler.

(** The loop over the requested modes, on names that are strings. *)
Lemma add_mode_loop (names : list string) (modes : list Transport.TransportMode) :
  fold_left add_mode (map VStr names) (Ok modes)
  = Ok (modes ++ flat_map (fun name => match Transport.member (Str.upper name) with
                                       | Some m => [m]
                                       | None => []
                                       end) names).
Proof.
  revert modes. induction names as [|name names IH]; intros modes; simpl.
  - rewrite app_nil_r. reflexivity.
  - replace (add_mode (Ok modes) (VStr name))
      with (Ok (A:=list Transport.TransportMode)
              (match Transport.member (Str.upper name) with
               | Some m => modes ++ [m]
               | None => modes
               end))
      by (unfold add_mode; simpl; destruct (Transport.member (Str.upper name)); reflexivity).
    destruct (Transport.member (Str.upper name)) as [m|]; rewrite IH.
    + rewrite <- app_assoc. reflexivity.
    + reflexivity.
Qed.

(** X7: of a list of mode names the handler keeps those that name a
    member of [TransportMode] when put in upper case, in the order given,
    and silently drops the others. *)
Theorem parse_modes_keeps_known (entities : dict) (names : list string) :
  lookup "transport_modes" entities = Some (VList (map VStr names)) ->
  parse_modes entities
  = Ok (Some (flat_map (fun name => match Transport.member (Str.upper name) with
                                    | Some m => [m]
                                    | None => []
                                    end) names)).
Proof.
  intros H. unfold parse_modes. rewrite H. simpl.
  rewrite add_mode_loop. reflexivity.
Qed.




End ModeFacts.

(** Three names, of which [Boat] names no mode. *)
Lemma parse_modes_keeps_known_witness :
  TravelHandler.parse_modes
    [("transport_modes", VList (map VStr ["train"; "Boat"; "bus"]))]
  = Ok (Some [Transport.TRAIN; Transport.BUS]).
Proof.
  apply (parse_modes_keeps_known
           [("transport_modes", VList (map VStr ["train"; "Boat"; "bus"]))]
           ["train"; "Boat"; "bus"]).
  reflexivity.
Defined.


(* ===================================================================== *)
(** ** The shape of the extracted links *)
(* ===================================================================== *)

Section LinkShape.
Import Re LinkProcessor.

(** The links of one text, whatever the text: the three groups. *)
Lemma extract_links_groups (s : string) :
  extract_links (VStr s) = Ok (generic_links s ++ specific_links s ++ place_links s).
Proof.
  unfold extract_links, extract_links_body, generic_links, specific_links, place_links.
  simpl. rewrite !append_loop. simpl.
  destruct (Str.contains "places to visit" (Str.lower s)
            || Str.contains "attractions" (Str.lower s)).
  - rewrite keep_place_loop. simpl. rewrite <- !app_assoc. reflexivity.
  - rewrite app_nil_r. reflexivity.
Qed.

Lemma kept_place_long (p : string) :
  kept_place p = true -> 3 < String.length p /\ ~ In p stoplist.
Proof.
  unfold kept_place, stoplisted. intros H. apply andb_true_iff in H.
  destruct H as [Hlen Hstop]. apply Nat.ltb_lt in Hlen. split; [exact Hlen|].
  intros Hin. apply negb_true_iff in Hstop.
  assert (Hex : existsb (String.eqb p) stoplist = true).
  { apply existsb_exists. exists p. split; [exact Hin|apply String.eqb_refl]. }
  congruence.
Qed.

Lemma in_firstn {A : Type} (n : nat) (l : list A) (x : A) : In x (firstn n l) -> In x l.
Proof.
  intros H. rewrite <- (firstn_skipn n l). apply in_or_app. left. exact H.
Qed.

(** X9: after the links of the markers, a text gives either no further
    link, or at most three links to places followed by exactly one link
    to explore the location; each place named is longer than three
    characters and is none of the three names of the stoplist. *)
Theorem at_most_three_place_links (s : string) :
  exists tail,
    extract_links (VStr s) = Ok (generic_links s ++ specific_links s ++ tail)
    /\ (tail = []
        \/ exists location places,
             tail
             = map (fun place =>
                      VDict [("url", VStr ("https://www.google.com/search?q=" ++ place
                                           ++ "+" ++ location));
                             ("text", VStr ("Learn about " ++ place));
                             ("type", VStr "attraction")])
                   places
               ++ [VDict [("url", VStr ("https://www.google.com/search?q=things+to+do+in+"
                                        ++ Str.replace_char " " "+" location));
                          ("text", VStr ("Explore " ++ location));
                          ("type", VStr "general")]]
             /\ List.length places <= 3
             /\ Forall (fun p => 3 < String.length p
                                 /\ ~ In p ["New York"; "United States"; "America"])
                       places).
Proof.
  exists (place_links s). split; [apply extract_links_groups|].
  unfold place_links.
  destruct (Str.contains "places to visit" (Str.lower s)
            || Str.contains "attractions" (Str.lower s)); [|left; reflexivity].
  right. eexists _, _. split; [reflexivity|]. split.
  - apply firstn_le_length.
  - apply Forall_forall. intros p Hp. apply kept_place_long.
    apply in_firstn in Hp. apply filter_In in Hp. apply Hp.
Qed.

(** X10: every link returned by [extract_links], for any argument, is a
    dict with exactly the keys [url], [text] and [type], all three
    strings, and its type is [general], [specific] or [attraction]. *)
Theorem extracted_links_are_well_formed (text : value) :
  exists links,
    extract_links text = Ok links
    /\ Forall (fun link => exists url display type,
                  link = VDict [("url", VStr url); ("text", VStr display);
                                ("type", VStr type)]
                  /\ In type ["general"; "specific"; "attraction"]) links.
Proof.
  destruct text as [| b | z | f | s | vs | d | tag];
    try (exists []; split; [reflexivity|constructor]).
  exists (generic_links s ++ specific_links s ++ place_links s).
  split; [apply extract_links_groups|].
  repeat rewrite Forall_app. repeat split.
  - unfold generic_links. apply Forall_forall. intros link Hin.
    apply in_map_iff in Hin. destruct Hin as (purpose & <- & _).
    eexists _, _, _. split; [reflexivity|]. simpl. auto.
  - unfold specific_links. apply Forall_forall. intros link Hin.
    apply in_map_iff in Hin. destruct Hin as ([url display] & <- & _).
    eexists _, _, _. split; [reflexivity|]. simpl. auto.
  - unfold place_links.
    destruct (Str.contains "places to visit" (Str.lower s)
              || Str.contains "attractions" (Str.lower s)); [|constructor].
    rewrite Forall_app. split.
    + apply Forall_forall. intros link Hin.
      apply in_map_iff in Hin. destruct Hin as (place & <- & _).
      eexists _, _, _. split; [reflexivity|]. simpl. auto.
    + constructor; [|constructor].
      eexists _, _, _. split; [reflexivity|]. simpl. auto.
Qed.

(** X11: stripping the specific markers never makes a text longer: every
    marker found in the text takes at least eight characters away. *)
Theorem format_removes_markers (s : string) :
  String.length (format_response_with_links s)
  + 8 * List.length (findall2 specific_link_pattern s)
  <= String.length s.
Proof.
  unfold format_response_with_links, sub, findall2, tokens.
  rewrite length_map. rewrite <- (length_chars s) at 3.
  apply scan_shrinks. rewrite length_chars. lia.
Qed.

(** X12: a text in which [<link:] does not occur is returned as it is;
    the generic markers stay in the text. *)
Theorem format_keeps_unmarked_text (s : string) :
  Str.contains "<link:" s = false ->
  format_response_with_links s = s.
Proof.
  intros H. unfold format_response_with_links.
  apply sub_without_match. unfold tokens.
  apply scan_without_opening. exact H.
Qed.

End LinkShape.

(** A reply that ends with a generic marker. *)
Lemma format_keeps_unmarked_text_witness :
  Str.contains "<link:" "Paris has much to see. <Links to these places>" = false
  /\ LinkProcessor.format_response_with_links
       "Paris has much to see. <Links to these places>"
     = "Paris has much to see. <Links to these places>".
Proof.
  split; [reflexivity|].
  apply (format_keeps_unmarked_text "Paris has much to see. <Links to these places>").
  reflexivity.
Defined.

(* ===================================================================== *)
(** ** Substrings, and the placeholder site of a purpose *)
(* ===================================================================== *)

Section ContainsFacts.

Lemma starts_with_prefix (p s : list ascii) :
  Str.starts_with p s = true -> exists post, s = p ++ post.
Proof.
  revert s. induction p as [|a p IH]; intros s H; simpl in H.
  - exists s. reflexivity.
  - destruct s as [|b s]; [discriminate|].
    apply andb_true_iff in H. destruct H as [Hab H].
    apply Ascii.eqb_eq in Hab. subst b.
    destruct (IH s H) as [post ->]. exists post. reflexivity.
Qed.

(** [p in s] holds exactly when [s] is some text, then [p], then some
    text. *)
Lemma contains_chars_iff (p s : list ascii) :
  Str.contains_chars p s = true <-> exists pre post, s = pre ++ p ++ post.
Proof.
  split.
  - induction s as [|b s IH]; simpl; intros H.
    + rewrite orb_false_r in H. apply starts_with_prefix in H.
      destruct H as [post H]. exists [], post. exact H.
    + apply orb_true_iff in H. destruct H as [H|H].
      * apply starts_with_prefix in H. destruct H as [post H]. exists [], post. exact H.
      * destruct (IH H) as (pre & post & ->). exists (b :: pre), post. reflexivity.
  - intros (pre & post & ->). induction pre as [|b pre IH].
    + simpl. pose proof (starts_with_app p post) as Hp.
      destruct (p ++ post); simpl; rewrite Hp; reflexivity.
    + simpl. rewrite IH. apply orb_true_r.
Qed.

(** Leading whitespace ends no later than a word that does not begin
    with whitespace. *)
Lemma lstrip_keeps (p pre post : list ascii) :
  p <> [] -> Str.lstrip_chars p = p ->
  exists pre', Str.lstrip_chars (pre ++ p ++ post) = pre' ++ p ++ post.
Proof.
  intros Hne Hhead. induction pre as [|b pre IH].
  - exists []. simpl. destruct p as [|a p]; [contradiction|].
    simpl in *. destruct (Str.is_space a) eqn:Ha; [|reflexivity].
    exfalso.
    assert (Hlen : forall l, List.length (Str.lstrip_chars l) <= List.length l).
    { induction l as [|c l IHl]; simpl; [lia|]. destruct (Str.is_space c); simpl; lia. }
    pose proof (Hlen p) as Hp. rewrite Hhead in Hp. simpl in Hp. lia.
  - simpl. destruct (Str.is_space b).
    + exact IH.
    + exists (b :: pre). reflexivity.
Qed.

(** [strip] keeps every occurrence of a word that neither begins nor
    ends with whitespace. *)
Lemma strip_keeps (p s : string) :
  p <> "" ->
  Str.lstrip_chars (Str.chars p) = Str.chars p ->
  Str.lstrip_chars (rev (Str.chars p)) = rev (Str.chars p) ->
  Str.contains p s = true -> Str.contains p (Str.strip s) = true.
Proof.
  intros Hne Hhead Hlast H. unfold Str.contains in *.
  assert (Hne' : Str.chars p <> []).
  { intros E. apply Hne. rewrite <- (of_chars_chars p), E. reflexivity. }
  apply contains_chars_iff in H. destruct H as (pre & post & Hs).
  unfold Str.strip. rewrite chars_of_chars. rewrite Hs.
  destruct (lstrip_keeps (Str.chars p) pre post Hne' Hhead) as [pre' ->].
  rewrite !rev_app_distr, <- app_assoc.
  assert (Hne'' : rev (Str.chars p) <> []).
  { intros E. apply Hne'. rewrite <- (rev_involutive (Str.chars p)), E. reflexivity. }
  destruct (lstrip_keeps (rev (Str.chars p)) (rev post) (rev pre') Hne'' Hlast)
    as [post' ->].
  rewrite !rev_app_distr, !rev_involutive, <- app_assoc.
  apply contains_chars_iff. exists pre', (rev post'). reflexivity.
Qed.

(** X13: a purpose that mentions [flight], in any letter case, is sent
    to the flight site, whatever else it mentions. *)
Theorem flight_keyword_wins (purpose : string) :
  Str.contains "flight" (Str.lower purpose) = true ->
  LinkProcessor._generate_placeholder_url purpose = "https://www.skyscanner.com/".
Proof.
  intros H. unfold LinkProcessor._generate_placeholder_url.
  rewrite (strip_keeps "flight" (Str.lower purpose)); try reflexivity; [discriminate|exact H].
Qed.

End ContainsFacts.

(** A purpose that names hotels before flights, in capitals. *)
Lemma flight_keyword_wins_witness :
  Str.contains "flight" (Str.lower "book Hotels and FLIGHTS") = true
  /\ LinkProcessor._generate_placeholder_url "book Hotels and FLIGHTS"
     = "https://www.skyscanner.com/".
Proof.
  split; [reflexivity|].
  apply (flight_keyword_wins "book Hotels and FLIGHTS"). reflexivity.
Defined.

(* ===================================================================== *)
(** ** Booking links *)
(* ===================================================================== *)

Section BookingFacts.
Import LinkProcessor.
Variable py_str : value -> string.
Variable dict_slice_error : exn.

Let generate := generate_booking_links py_str dict_slice_error.

(** A loop that ends well has appended one link per item. *)
Lemma links_loop_made (f : value -> res value) (items : list value) :
  forall links out,
    links_loop f items links = Ok out ->
    exists made, out = links ++ made /\ Forall2 (fun x link => f x = Ok link) items made.
Proof.
  induction items as [|x items IH]; intros links out; simpl.
  - intros H. inversion H. exists []. rewrite app_nil_r. split; [reflexivity|constructor].
  - unfold rbind. destruct (f x) as [link|e] eqn:Hx; [|discriminate].
    intros H. destruct (IH _ _ H) as (made & -> & Hall).
    exists (link :: made). rewrite <- app_assoc. split; [reflexivity|].
    constructor; assumption.
Qed.

Lemma first_three_short (v : value) (items : list value) :
  first_three dict_slice_error v = Ok items -> List.length items <= 3.
Proof.
  destruct v as [| b | z | f | s | l | d | tag]; unfold first_three;
    try discriminate; intros [= <-].
  - rewrite length_map. exact (firstn_le_length 3 (Str.chars s)).
  - exact (firstn_le_length 3 l).
Qed.

(** The links of one offer each: never more than three, each of the
    given shape. *)
Lemma offers_links (f : value -> res value) (type : string) (v : value) (out : list value) :
  (forall x link, f x = Ok link -> exists url text, link = booking url text type) ->
  (items <~ first_three dict_slice_error v ;; links_loop f items []) = Ok out ->
  List.length out <= 3
  /\ Forall (fun link => exists url text, link = booking url text type) out.
Proof.
  intros Hf. unfold rbind.
  destruct (first_three dict_slice_error v) as [items|e] eqn:Hitems; [|discriminate].
  intros H. apply links_loop_made in H. destruct H as (made & -> & Hall). simpl.
  apply first_three_short in Hitems. split.
  - rewrite <- (Forall2_length Hall). exact Hitems.
  - clear Hitems. induction Hall; constructor; eauto.
Qed.

(** X14: whatever the data, [generate_booking_links] that returns has
    made at most three links, each a dict with the keys [url], [text]
    and [type] whose type is [booking], or [attraction] for the
    attractions. *)
Theorem booking_links_at_most_three (data_type : value) (data : option dict)
        (links : list value) :
  generate data_type data = Ok links ->
  List.length links <= 3
  /\ Forall (fun link => exists url text type,
               link = VDict [("url", url); ("text", VStr text); ("type", VStr type)]
               /\ (type = "booking" \/ type = "attraction")) links.
Proof.
  unfold generate, generate_booking_links.
  set (d := match data with Some d => d | None => [] end).
  assert (Hshape : forall f type v out,
             (forall x link, f x = Ok link -> exists url text, link = booking url text type) ->
             type = "booking" \/ type = "attraction" ->
             (options <~ PyOps.getitem_key (VDict d) v ;;
              items <~ first_three dict_slice_error options ;; links_loop f items []) = Ok out ->
             List.length out <= 3
             /\ Forall (fun link => exists url text type,
                          link = booking url text type
                          /\ (type = "booking" \/ type = "attraction")) out).
  { intros f type v out Hf Htype. unfold rbind at 1.
    destruct (PyOps.getitem_key (VDict d) v) as [options|e]; [|discriminate].
    intros H. destruct (offers_links f type options out Hf H) as [Hlen Hall].
    split; [exact Hlen|]. eapply Forall_impl; [|exact Hall].
    intros link (url & text & ->). eauto. }
  destruct (is_text data_type "flight" && _ && _).
  { apply (Hshape _ "booking"); [|auto].
    intros x link. unfold flight_booking, rbind.
    repeat match goal with
           | |- context [match ?r with Ok _ => _ | Err _ => _ end] =>
               destruct r; try discriminate
           end.
    intros H. inversion H. eauto. }
  destruct (is_text data_type "restaurant" && _ && _).
  { apply (Hshape _ "booking"); [|auto].
    intros x link. unfold restaurant_booking, rbind.
    repeat match goal with
           | |- context [match ?r with Ok _ => _ | Err _ => _ end] =>
               destruct r; try discriminate
           end.
    intros H. inversion H. eauto. }
  destruct (is_text data_type "attraction" && _ && _).
  { apply (Hshape _ "attraction"); [|auto].
    intros x link. unfold attraction_visit, rbind.
    repeat match goal with
           | |- context [match ?r with Ok _ => _ | Err _ => _ end] =>
               destruct r; try discriminate
           end.
    intros H. inversion H. eauto. }
  destruct (is_text data_type "transport" && _ && _).
  { apply (Hshape _ "booking"); [|auto].
    intros x link. unfold transport_booking, rbind.
    repeat match goal with
           | |- context [match ?r with Ok _ => _ | Err _ => _ end] =>
               destruct r; try discriminate
           end.
    intros H. inversion H. eauto. }
  intros H. inversion H. split; [simpl; lia|constructor].
Qed.

(** A loop whose body succeeds on every item ends well. *)
Lemma links_loop_total (f : value -> res value) (g : value -> value -> Prop)
      (items : list value) :
  Forall (fun x => exists link, f x = Ok link /\ g x link) items ->
  forall links,
    exists made, links_loop f items links = Ok (links ++ made) /\ Forall2 g items made.
Proof.
  induction 1 as [|x items (link & Hx & Hg) _ IH]; intros links; simpl.
  - exists []. rewrite app_nil_r. split; [reflexivity|constructor].
  - rewrite Hx. simpl. destruct (IH (links ++ [link])) as (made & -> & Hall).
    exists (link :: made). rewrite <- app_assoc. split; [reflexivity|].
    constructor; assumption.
Qed.

(** X15: for restaurant data whose first three options are dicts with a
    [name], [generate_booking_links] returns one link per option, in
    order: its url is the [reservation_link] of the option, or the
    reservation site when the option has none, and its text names the
    restaurant. *)
Theorem restaurant_bookings_listed (d : dict) (options : list value) :
  lookup "options" d = Some (VList options) ->
  Forall (fun option => exists od name, option = VDict od /\ lookup "name" od = Some name)
         (firstn 3 options) ->
  exists links,
    generate (VStr "restaurant") (Some d) = Ok links
    /\ Forall2 (fun option link =>
                  exists od name,
                    option = VDict od
                    /\ lookup "name" od = Some name
                    /\ link
                       = VDict [("url", get_default "reservation_link"
                                          (VStr "https://www.opentable.com/") od);
                                ("text", VStr ("Reserve a table at " ++ fmt py_str name));
                                ("type", VStr "booking")])
         (firstn 3 options) links.
Proof.
  intros Hoptions Hnamed.
  unfold generate, generate_booking_links. simpl is_text. cbv iota beta.
  assert (Hd : match d with [] => false | _ :: _ => true end = true).
  { destruct d; [discriminate|reflexivity]. }
  assert (Hin : Py.contains "options" d = true).
  { unfold Py.contains. rewrite Hoptions. reflexivity. }
  change (match Some d with Some (_ :: _) => true | _ => false end)
    with (match d with [] => false | _ :: _ => true end).
  rewrite Hd, Hin. simpl andb. cbv iota.
  unfold PyOps.getitem_key. rewrite Hoptions. simpl rbind.
  change (first_three dict_slice_error (VList options)) with (Ok (A:=list value) (firstn 3 options)).
  simpl rbind.
  edestruct (links_loop_total (restaurant_booking py_str)) as (made & Hloop & Hall);
    [|rewrite Hloop; exists made; split; [reflexivity|exact Hall]].
  eapply Forall_impl; [|exact Hnamed].
  intros option (od & name & -> & Hname).
  eexists. split.
  - unfold restaurant_booking. simpl. rewrite Hname. simpl. reflexivity.
  - exists od, name. auto.
Qed.

End BookingFacts.

(** One restaurant without a reservation link. *)
Lemma restaurant_bookings_listed_witness :
  exists links,
    LinkProcessor.generate_booking_links (fun _ => "") (Exn "TypeError" "unhashable type: 'slice'")
      (VStr "restaurant")
      (Some [("options", VList [VDict [("name", VStr "Da Enzo")]])])
    = Ok links
    /\ List.length links = 1.
Proof.
  destruct (restaurant_bookings_listed (fun _ => "") (Exn "TypeError" "unhashable type: 'slice'")
              [("options", VList [VDict [("name", VStr "Da Enzo")]])]
              [VDict [("name", VStr "Da Enzo")]]) as (links & Hrun & Hall).
  - reflexivity.
  - repeat constructor. exists [("name", VStr "Da Enzo")], (VStr "Da Enzo"). auto.
  - exists links. split; [exact Hrun|].
    apply Forall2_length in Hall. simpl in Hall. auto.
Defined.

(** The link made for one restaurant. *)
Lemma booking_links_at_most_three_witness :
  LinkProcessor.generate_booking_links (fun _ => "")
    (Exn "TypeError" "unhashable type: 'slice'") (VStr "restaurant")
    (Some [("options", VList [VDict [("name", VStr "Da Enzo")]])])
  = Ok [VDict [("url", VStr "https://www.opentable.com/");
               ("text", VStr "Reserve a table at Da Enzo"); ("type", VStr "booking")]]
  /\ List.length [VDict [("url", VStr "https://www.opentable.com/");
                         ("text", VStr "Reserve a table at Da Enzo");
                         ("type", VStr "booking")]] <= 3
  /\ Forall (fun link => exists url text type,
               link = VDict [("url", url); ("text", VStr text); ("type", VStr type)]
               /\ (type = "booking" \/ type = "attraction"))
       [VDict [("url", VStr "https://www.opentable.com/");
               ("text", VStr "Reserve a table at Da Enzo"); ("type", VStr "booking")]].
Proof.
  split; [reflexivity|].
  apply (booking_links_at_most_three (fun _ => "") (Exn "TypeError" "unhashable type: 'slice'")
           (VStr "restaurant")
           (Some [("options", VList [VDict [("name", VStr "Da Enzo")]])])).
  reflexivity.
Defined.

(* ===================================================================== *)
(** ** A whole turn *)
(* ===================================================================== *)

Section TurnFacts.
Import ChatGPT User TravelHandler EnhancedConversation.
Variable api : nat -> OpenaiRequest -> res value.
Variable settings : Settings.
Variable json_loads : string -> res value.
Variable json_dumps : value -> string.
Variable extraction_prompt : string.
Variable persona_prompt : string.
Variable now : Cal.datetime.
Variable date_fromisoformat : string -> option Cal.date.
Variable datetime_fromisoformat : string -> option Cal.datetime.
Variable today : Cal.date.
Variable validate_flight : Flights.FlightSearchReqeust -> res Flights.FlightSearchReqeust.
Variable validate_restaurant :
  Dining.RestaurantSearchRequest -> res Dining.RestaurantSearchRequest.
Variable validate_transport :
  Transport.TransportSearchRequest -> res Transport.TransportSearchRequest.
Variable search_flights : nat -> Flights.FlightSearchReqeust -> res value.
Variable search_restaurants : nat -> Dining.RestaurantSearchRequest -> res value.
Variable search_transport : nat -> Transport.TransportSearchRequest -> res value.

Let turn_of :=
  process_message api settings json_loads json_dumps extraction_prompt persona_prompt now
    date_fromisoformat datetime_fromisoformat today
    validate_flight validate_restaurant validate_transport
    search_flights search_restaurants search_transport.
Let body :=
  process_message_body api settings json_loads json_dumps extraction_prompt persona_prompt
    date_fromisoformat datetime_fromisoformat today
    validate_flight validate_restaurant validate_transport
    search_flights search_restaurants search_transport.
Let extract := Context.extract_entities api settings json_loads extraction_prompt.
Let dispatch :=
  process_travel_intent date_fromisoformat datetime_fromisoformat today
    validate_flight validate_restaurant validate_transport
    search_flights search_restaurants search_transport.
Let synthesize := _generate_response api settings json_dumps persona_prompt.
Let started (user_id message : string) (context : option UserContext) : UserContext :=
  touch now (append_turn (turn "user" (VStr message))
               (match context with Some c => c | None => User.new user_id end)).

(** The extraction sends what its one call of the gateway sends. *)
Lemma extract_entities_log (message : string) (c : UserContext) (l : log) :
  exists sent, snd (extract message c l) = l ++ sent /\ List.length sent <= 3.
Proof.
  unfold extract, Context.extract_entities.
  rewrite bind_run. unfold lift at 1.
  destruct (ChatGPTClient settings) as [[]|e]; simpl.
  2:{ exists []. rewrite app_nil_r. simpl. split; [reflexivity|lia]. }
  rewrite bind_run. unfold try_except at 1. rewrite bind_run.
  destruct (generate_response_sends api settings
              (Context.extraction_messages extraction_prompt message c)
              Context.extraction_kwargs l) as (sent & Hlog & Hsent & _).
  assert (Hlen : List.length sent <= 3).
  { destruct Hsent as [[-> _] | [-> | [-> | [-> | ->]]]]; simpl; lia. }
  exists sent. split; [|exact Hlen]. rewrite <- Hlog.
  destruct (generate_response api settings _ Context.extraction_kwargs l)
    as [[response|e] l1]; simpl; [|reflexivity].
  rewrite bind_run. unfold lift at 1.
  destruct (Context.response_content response) as [content|e]; [|reflexivity].
  rewrite bind_run. unfold lift at 1.
  destruct (PyOps.can_slice content) as [[]|e]; [|reflexivity].
  unfold Context.try_except_when, try_except.
  rewrite bind_run. unfold lift at 1.
  destruct (PyOps.as_text content) as [text|e]; simpl.
  - destruct ((0 <=? Str.find "{" text)%Z
              && (Str.find "{" text <? Str.rfind "}" text + 1)%Z); [|reflexivity].
    unfold lift. destruct (json_loads _) as [entities|e]; [reflexivity|].
    destruct (Context.json_decode_error e); reflexivity.
  - destruct (Context.json_decode_error e); reflexivity.
Qed.

(** The synthesis sends what its one call of the gateway sends. *)
Lemma _generate_response_log (message : string) (entities : dict) (hr : value)
      (c : UserContext) (l : log) :
  exists sent, snd (synthesize message entities hr c l) = l ++ sent /\ List.length sent <= 3.
Proof.
  unfold synthesize, _generate_response.
  rewrite bind_run.
  match goal with
  | |- context [generate_response api settings ?m synthesis_kwargs l] =>
      destruct (generate_response_sends api settings m synthesis_kwargs l)
        as (sent & Hlog & Hsent & _);
      destruct (generate_response api settings m synthesis_kwargs l) as [[response|e] l1]
  end; simpl in Hlog; subst l1.
  - assert (Hlen : List.length sent <= 3).
    { destruct Hsent as [[-> _] | [-> | [-> | [-> | ->]]]]; simpl; lia. }
    exists sent. split; [|exact Hlen].
    rewrite bind_run. unfold lift at 1.
    destruct (has_message response) as [[|]|e]; try reflexivity.
    rewrite bind_run. unfold lift at 1.
    destruct (Context.response_content response) as [content|e]; [|reflexivity].
    rewrite bind_run. unfold lift at 1.
    destruct (PyOps.can_slice content) as [[]|e]; reflexivity.
  - assert (Hlen : List.length sent <= 3).
    { destruct Hsent as [[-> _] | [-> | [-> | [-> | ->]]]]; simpl; lia. }
    exists sent. split; [reflexivity|exact Hlen].
Qed.

(** An envelope of dispatch is a dict without a [links] key. *)
Lemma dispatch_envelope_has_no_links (intent : value) (entities : dict) (c : UserContext)
      (pl : plog) (hr : value) :
  fst (dispatch intent entities c pl) = Ok hr ->
  exists d, hr = VDict d /\ lookup "links" d = None.
Proof.
  destruct (dispatch_outcome date_fromisoformat datetime_fromisoformat today
              validate_flight validate_restaurant validate_transport
              search_flights search_restaurants search_transport c intent entities pl)
    as [[_ H] | [_ [(k & m & H) | [(e' & H) | [(c' & v' & k & m & H) | (c' & e' & H)]]]]];
    fold (dispatch intent entities c) in H; rewrite H; simpl; intros Hr;
    inversion Hr; subst; eexists; split; reflexivity.
Qed.

(** The [try] block of a turn, in full: it adds at most six requests to
    the log of the model endpoint and at most one search to the log of
    the providers, and it either raises with the context untouched or
    returns the text of the synthesis, the links found in that text and
    the context with the assistant turn appended. *)
Lemma body_cases (message : string) (w : world) (c : UserContext) :
  exists sent searched,
    List.length sent <= 6 /\ List.length searched <= 1
    /\ ((exists e,
           body message (w, c)
           = (Err e, (World (api_log w ++ sent) (provider_log w ++ searched), c)))
        \/ (exists t found,
              LinkProcessor.extract_links t = Ok found
              /\ body message (w, c)
                 = (Ok (Reply t (VList found) (append_turn (turn "assistant" t) c)),
                    (World (api_log w ++ sent) (provider_log w ++ searched),
                     append_turn (turn "assistant" t) c)))).
Proof.
  unfold body, process_message_body.
  rewrite bind_run. unfold the_context at 1. simpl.
  rewrite bind_run, on_api_run. simpl. fold extract.
  destruct (extract_entities_log message c (api_log w)) as (s1 & Hs1 & Hlen1).
  destruct (extract message c (api_log w)) as [[ent|e] l1]; simpl in Hs1; subst l1; simpl.
  2:{ exists s1, []. rewrite app_nil_r. repeat split; [lia|simpl; lia|]. left. eauto. }
  rewrite bind_run. unfold lift at 1. simpl.
  destruct (PyOps.as_dict ent) as [entities|e]; simpl.
  2:{ exists s1, []. rewrite app_nil_r. repeat split; [lia|simpl; lia|]. left. eauto. }
  rewrite bind_run, on_providers_run. simpl.
  set (intent := get_default "intent" (VStr "general") entities).
  pose proof (dispatch_sends_at_most_one date_fromisoformat datetime_fromisoformat today
                validate_flight validate_restaurant validate_transport
                search_flights search_restaurants search_transport c intent entities
                (provider_log w)) as Hp.
  pose proof (dispatch_envelope_has_no_links intent entities c (provider_log w)) as Henv.
  unfold dispatch in *.
  destruct (process_travel_intent date_fromisoformat datetime_fromisoformat today
              validate_flight validate_restaurant validate_transport
              search_flights search_restaurants search_transport intent entities c
              (provider_log w)) as [[hr|e] pl]; simpl in Hp, Henv; simpl.
  2:{ destruct Hp as [-> | (pc & r & ->)].
      - exists s1, []. rewrite app_nil_r. repeat split; [lia|simpl; lia|]. left. eauto.
      - exists s1, [(pc, r)]. repeat split; [lia|simpl; lia|]. left. eauto. }
  destruct (Henv hr eq_refl) as (env & -> & Hlinks).
  assert (Hpl : exists searched, pl = provider_log w ++ searched /\ List.length searched <= 1).
  { destruct Hp as [-> | (pc & r & ->)].
    - exists []. rewrite app_nil_r. simpl. split; [reflexivity|lia].
    - exists [(pc, r)]. simpl. split; [reflexivity|lia]. }
  destruct Hpl as (searched & -> & Hlen2).
  rewrite bind_run, on_api_run. simpl. fold (synthesize message entities (VDict env) c).
  destruct (_generate_response_log message entities (VDict env) c (api_log w ++ s1))
    as (s3 & Hs3 & Hlen3).
  destruct (synthesize message entities (VDict env) c (api_log w ++ s1)) as [[t|e] l3];
    simpl in Hs3; subst l3; simpl; rewrite <- app_assoc.
  2:{ exists (s1 ++ s3), searched. rewrite length_app. repeat split; [lia|lia|]. left. eauto. }
  exists (s1 ++ s3), searched. rewrite length_app. repeat split; [lia|lia|]. right.
  destruct (LinkProcessor.extract_links t) as [found|e] eqn:Hfound.
  2:{ destruct (extract_links_total t) as [found' Hf]. congruence. }
  exists t, found. split; [exact Hfound|].
  rewrite bind_run. unfold update_context at 1. simpl.
  rewrite bind_run. unfold lift at 1. simpl.
  unfold get_default. rewrite Hlinks. simpl.
  reflexivity.
Qed.

(** X16: one turn of [process_message] adds at most six requests to the
    log of the model endpoint and at most one search to the log of the
    providers, and leaves the earlier entries of both logs as they
    were. *)
Theorem turn_call_budget (user_id message : string) (context : option UserContext)
        (w : world) :
  exists sent searched,
    snd (turn_of user_id message context w)
    = World (api_log w ++ sent) (provider_log w ++ searched)
    /\ List.length sent <= 6
    /\ List.length searched <= 1.
Proof.
  unfold turn_of. rewrite process_message_run. unfold try_except.
  destruct (body_cases message w (started user_id message context))
    as (sent & searched & Hsent & Hsearched & [(e & H) | (t & found & _ & H)]);
    exists sent, searched; fold body;
    unfold body, started in *; rewrite H; simpl; auto.
Qed.

(** X17: [process_message] always returns a reply, and it keeps the
    identity, location and preferences of the context and stamps it with
    the clock.  The reply is either an apology without links, and then
    the history has gained the user turn only, or a text with the links
    found in that text, and then the history has gained the user turn
    followed by the assistant turn that holds this very text. *)
Theorem turn_reply_and_history (user_id message : string) (context : option UserContext)
        (w : world) :
  let given := match context with Some c => c | None => User.new user_id end in
  exists reply,
    fst (turn_of user_id message context w) = Ok reply
    /\ User.user_id (EnhancedConversation.context reply) = User.user_id given
    /\ User.location (EnhancedConversation.context reply) = User.location given
    /\ User.preferences (EnhancedConversation.context reply) = User.preferences given
    /\ User.last_interaction (EnhancedConversation.context reply) = Some now
    /\ ((exists error_type,
           text reply
           = VStr ("I'm having trouble processing your request. There was an error: "
                   ++ error_type
                   ++ ". Please try again in a moment, or let me know if I can help "
                   ++ "with something else.")
           /\ links reply = VList []
           /\ conversation_history (EnhancedConversation.context reply)
              = conversation_history given
                ++ [VDict [("role", VStr "user"); ("content", VStr message)]])
        \/ (exists found,
              LinkProcessor.extract_links (text reply) = Ok found
              /\ links reply = VList found
              /\ conversation_history (EnhancedConversation.context reply)
                 = conversation_history given
                   ++ [VDict [("role", VStr "user"); ("content", VStr message)];
                       VDict [("role", VStr "assistant"); ("content", text reply)]])).
Proof.
  intros given. unfold turn_of. rewrite process_message_run. unfold try_except.
  destruct (body_cases message w (started user_id message context))
    as (sent & searched & _ & _ & [(e & H) | (t & found & Hfound & H)]);
    fold body; unfold body, started in *; rewrite H; simpl.
  - eexists. split; [reflexivity|]. simpl. repeat split.
    left. exists (exn_type e). auto.
  - eexists. split; [reflexivity|]. simpl. repeat split.
    right. exists found. repeat split; [exact Hfound|].
    fold given. rewrite <- app_assoc. reflexivity.
Qed.

Lemma chars_append (s1 s2 : string) : Str.chars (s1 ++ s2) = Str.chars s1 ++ Str.chars s2.
Proof.
  unfold Str.chars. induction s1 as [|a s1 IH]; simpl; [reflexivity|].
  rewrite IH. reflexivity.
Qed.

(** A text that holds the whole placeholder holds its opening. *)
Lemma placeholder_opening (s : string) :
  Str.contains "<Links to these places>" s = true -> Str.contains "<Links to " s = true.
Proof.
  unfold Str.contains. intros H. apply contains_chars_iff in H.
  destruct H as (pre & post & ->). apply contains_chars_iff.
  exists pre, (Str.chars "these places>" ++ post). reflexivity.
Qed.

(** The marker step on a text, for the intent [attraction]: the result
    is a text that holds the opening of a placeholder. *)
Lemma add_missing_placeholder_text (entities : dict) (content : value) (t : string) :
  lookup "intent" entities = Some (VStr "attraction") ->
  add_missing_placeholder entities content = Ok (VStr t) ->
  Str.contains "<Links to " t = true
  /\ (content = VStr t
      \/ exists s, content = VStr s /\ t = (s ++ " <Links to these places>")%string
                   /\ Str.contains "<Links to " s = false).
Proof.
  intros Hintent. unfold add_missing_placeholder, get_default. rewrite Hintent. simpl.
  destruct content as [| b | z | f | s | vs | d | tag]; simpl; try discriminate.
  - destruct (Str.contains "<Links to these places>" s) eqn:Ha.
    + intros H. inversion H; subst. split; [apply placeholder_opening, Ha|auto].
    + unfold rbind. simpl. destruct (Str.contains "<Links to " s) eqn:Hb.
      * intros H. inversion H; subst. auto.
      * simpl. intros H. inversion H; subst. split.
        -- unfold Str.contains. rewrite chars_append. apply contains_chars_iff.
           exists (Str.chars s ++ Str.chars " "), (Str.chars "these places>").
           rewrite <- app_assoc. reflexivity.
        -- right. exists s. auto.
  - destruct (existsb _ vs); simpl; [discriminate|].
    destruct (existsb _ vs); simpl; discriminate.
  - destruct (Py.contains "<Links to these places>" d); simpl; [discriminate|].
    destruct (Py.contains "<Links to " d); simpl; discriminate.
Qed.

(** X18: when the intent is [attraction], a text returned by the
    synthesis always holds a link placeholder: the model's own, or the
    one appended to a content that had none. *)
Theorem attraction_reply_has_placeholder
        (message : string) (entities : dict) (hr : value) (c : UserContext)
        (l : log) (t : string) :
  lookup "intent" entities = Some (VStr "attraction") ->
  fst (synthesize message entities hr c l) = Ok (VStr t) ->
  Str.contains "<Links to " t = true.
Proof.
  intros Hintent. unfold synthesize, _generate_response.
  rewrite bind_run.
  match goal with
  | |- context [generate_response api settings ?m synthesis_kwargs l] =>
      destruct (generate_response api settings m synthesis_kwargs l) as [[response|e] l1]
  end; simpl; [|discriminate].
  rewrite bind_run. unfold lift at 1.
  destruct (has_message response) as [[|]|e]; simpl; try discriminate.
  rewrite bind_run. unfold lift at 1.
  destruct (Context.response_content response) as [content|e]; simpl; [|discriminate].
  rewrite bind_run. unfold lift at 1.
  destruct (PyOps.can_slice content) as [[]|e]; simpl; [|discriminate].
  unfold lift. simpl. intros H.
  apply (add_missing_placeholder_text entities content t Hintent H).
Qed.

(** X19: the prompt of the extraction is built after the user turn has
    been appended to the history, so the messages of the prompt end with
    the user's message twice; between them and the instruction stand at
    most three earlier turns. *)
Theorem extraction_prompt_repeats_message
        (user_id message : string) (context : option UserContext) :
  exists earlier,
    Context.extraction_messages extraction_prompt message
      (started user_id message context)
    = turn "system" (VStr extraction_prompt)
      :: earlier ++ [turn "user" (VStr message); turn "user" (VStr message)]
    /\ List.length earlier <= 3
    /\ exists older,
         conversation_history
           (match context with Some c => c | None => User.new user_id end)
         = older ++ earlier.
Proof.
  set (h := conversation_history
              (match context with Some c => c | None => User.new user_id end)).
  exists (skipn (List.length h - 3) h).
  split; [|split].
  - unfold Context.extraction_messages, started. simpl. fold h.
    destruct (h ++ [turn "user" (VStr message)]) eqn:E.
    { destruct h; discriminate. }
    rewrite <- E. unfold last_turns. rewrite length_app. simpl List.length.
    replace (List.length h + 1 - 4) with (List.length h - 3) by lia.
    rewrite skipn_app.
    replace (List.length h - 3 - List.length h) with 0 by lia.
    simpl. rewrite <- app_assoc. reflexivity.
  - rewrite length_skipn. lia.
  - exists (firstn (List.length h - 3) h). symmetry. apply firstn_skipn.
Qed.

End TurnFacts.

(** An answer about Paris that carries no placeholder of its own. *)
Lemma attraction_reply_has_placeholder_witness :
  fst (EnhancedConversation._generate_response
         (Demo.answers (VStr "See the Louvre.")) ChatGPT.settings0 Demo.json_dumps
         "You are Jetzy." "what to see in Paris" [("intent", VStr "attraction")]
         TravelHandler.general_envelope (User.new "u1") [])
  = Ok (VStr "See the Louvre. <Links to these places>")
  /\ Str.contains "<Links to " "See the Louvre. <Links to these places>" = true.
Proof.
  split; [reflexivity|].
  apply (attraction_reply_has_placeholder
           (Demo.answers (VStr "See the Louvre.")) ChatGPT.settings0 Demo.json_dumps
           "You are Jetzy." "what to see in Paris" [("intent", VStr "attraction")]
           TravelHandler.general_envelope (User.new "u1") []
           "See the Louvre. <Links to these places>").
  - reflexivity.
  - reflexivity.
Defined.

(* ===================================================================== *)
(** ** The plain conversation service *)
(* ===================================================================== *)

Section PlainService.
Import ChatGPT User Conversation.
Variable api : nat -> OpenaiRequest -> res value.
Variable settings : Settings.
Variable system_text : string.
Variable now : Cal.datetime.
Variable object_choices : string -> res value.

(** What the gateway returns has no attribute [choices], so the query
    always ends in the fallback answer. *)
Lemma _handle_query_falls_back (message : string) (context : UserContext) (l : log) :
  exists sent,
    _handle_query api settings system_text object_choices message context l
    = (Ok (general_answer (VStr fallback_text)), l ++ sent)
    /\ List.length sent <= 3.
Proof.
  unfold _handle_query, try_except. rewrite bind_run.
  match goal with
  | |- context [generate_response api settings ?m no_kwargs l] =>
      destruct (generate_response_sends api settings m no_kwargs l)
        as (sent & Hlog & Hsent & Hok);
      destruct (generate_response api settings m no_kwargs l) as [[response|e] l1]
  end; simpl in Hlog, Hok; subst l1;
    (assert (Hlen : List.length sent <= 3)
      by (destruct Hsent as [[-> _] | [-> | [-> | [-> | ->]]]]; simpl; lia));
    exists sent; (split; [|exact Hlen]); [|reflexivity].
  destruct (Hok response eq_refl) as (_ & _ & _ & _ & _ & Hs).
  unfold sanitized_response, rbind in Hs.
  destruct response; simpl in Hs; try discriminate.
  reflexivity.
Qed.

(** X20: the plain [ConversationService] reads the response of the
    gateway through an attribute that a decoded JSON body does not have:
    whatever the endpoint answers, [process_message] returns the fixed
    fallback text with no links, records the user turn and that text in
    the history, and has sent at most three requests. *)
Theorem plain_service_always_falls_back
        (user_id message : string) (context : option UserContext) (l : log) :
  let given := match context with Some c => c | None => User.new user_id end in
  exists sent reply,
    process_message api settings system_text now object_choices user_id message context l
    = (Ok reply, l ++ sent)
    /\ List.length sent <= 3
    /\ EnhancedConversation.text reply
       = VStr ("I'm having trouble connecting to my travel database at the moment. "
               ++ "Please try again in a moment, or let me know if I can help with "
               ++ "something else.")
    /\ EnhancedConversation.links reply = VList []
    /\ conversation_history (EnhancedConversation.context reply)
       = conversation_history given
         ++ [VDict [("role", VStr "user"); ("content", VStr message)];
             VDict [("role", VStr "assistant");
                    ("content", EnhancedConversation.text reply)]]
    /\ last_interaction (EnhancedConversation.context reply) = Some now.
Proof.
  intros given. unfold process_message. rewrite bind_run.
  match goal with
  | |- context [_handle_query api settings system_text object_choices message ?c l] =>
      destruct (_handle_query_falls_back message c l) as (sent & Hq & Hlen)
  end.
  fold given in Hq |- *. rewrite Hq. simpl.
  exists sent. eexists. split; [reflexivity|]. simpl.
  repeat split; [exact Hlen|]. rewrite <- app_assoc. reflexivity.
Qed.

End PlainService.

(* ===================================================================== *)
(** ** The mock flights and the flight provider *)
(* ===================================================================== *)

Section SortFacts.
Import MockData.
Context {A : Type}.
Variable key : A -> Z.

Let le_key (x y : A) : Prop := (key x <= key y)%Z.

Lemma insert_by_permutation (x : A) (l : list A) : Permutation (insert_by key x l) (x :: l).
Proof.
  induction l as [|y l IH]; simpl; [reflexivity|].
  destruct (key x <=? key y)%Z; [reflexivity|].
  rewrite IH. apply perm_swap.
Qed.

(** Sorting rearranges: nothing is lost and nothing is added. *)
Lemma sorted_by_permutation (l : list A) : Permutation (sorted_by key l) l.
Proof.
  induction l as [|x l IH]; simpl; [reflexivity|].
  rewrite insert_by_permutation. apply perm_skip, IH.
Qed.

Lemma insert_by_sorted (x : A) (l : list A) :
  Sorted le_key l -> Sorted le_key (insert_by key x l).
Proof.
  induction 1 as [|y l Hs IH Hhd]; simpl.
  - repeat constructor.
  - destruct (key x <=? key y)%Z eqn:E.
    + apply Z.leb_le in E. repeat constructor; assumption.
    + apply Z.leb_gt in E. constructor; [exact IH|].
      destruct l as [|z l]; simpl.
      * constructor. unfold le_key. lia.
      * destruct (key x <=? key z)%Z.
        -- constructor. unfold le_key. lia.
        -- constructor. inversion Hhd; assumption.
Qed.

(** The result of sorting is in ascending order of the key. *)
Lemma sorted_by_sorted (l : list A) : Sorted le_key (sorted_by key l).
Proof.
  induction l as [|x l IH]; simpl; [constructor|].
  apply insert_by_sorted, IH.
Qed.

End SortFacts.

Section DrawFacts.
Import Random.
Variable entropy : nat -> nat.

Lemma randint_run (a b : Z) (n : nat) :
  (a <= b)%Z ->
  exists v, randint entropy a b n = (Ok v, S n) /\ (a <= v <= b)%Z.
Proof.
  intros Hab. unfold randint. eexists. split; [reflexivity|].
  pose proof (Z.mod_pos_bound (Z.of_nat (entropy n)) (b - a + 1) ltac:(lia)). lia.
Qed.

Lemma choice_run {A : Type} (l : list A) (n : nat) :
  l <> [] ->
  exists x, choice entropy l n = (Ok x, S n) /\ In x l.
Proof.
  intros Hne. unfold choice.
  assert (Hlt : entropy n mod List.length l < List.length l).
  { apply Nat.mod_upper_bound. destruct l; [contradiction|discriminate]. }
  apply nth_error_Some in Hlt.
  destruct (nth_error l (entropy n mod List.length l)) as [x|] eqn:E; [|contradiction].
  exists x. split; [reflexivity|]. eapply nth_error_In, E.
Qed.

End DrawFacts.

Section ClockFacts.
Import Cal Timedelta.

(** Less than two days of minutes from a date that has a next day: the
    sum exists. *)
Lemma plus_minutes_ok (d tomorrow : date) (h m s : Z) (duration : Z) :
  plus_one_day d = Ok tomorrow ->
  (0 <= 60 * h + m + duration < 2880)%Z ->
  exists arrival, plus_minutes (Datetime d h m s) duration = Ok arrival.
Proof.
  intros Hd Hrange. unfold plus_minutes. cbn [hour minute dt_date second].
  assert (Hdays : ((60 * h + m + duration) / 1440 = 0
                   \/ (60 * h + m + duration) / 1440 = 1)%Z).
  { Z.div_mod_to_equations. lia. }
  destruct Hdays as [-> | ->].
  - simpl. eauto.
  - change (Z.to_nat 1) with 1. simpl plus_days. rewrite Hd. simpl. eauto.
Qed.

End ClockFacts.

Ltac draw_int :=
  rewrite bind_run;
  match goal with
  | |- context [Random.randint ?e ?a ?b ?n] =>
      let v := fresh "v" in
      let Hv := fresh "Hv" in
      let E := fresh "E" in
      destruct (randint_run e a b n ltac:(lia)) as (v & E & Hv);
      rewrite E; clear E; cbv iota beta
  end.

Ltac draw_choice :=
  rewrite bind_run;
  match goal with
  | |- context [Random.choice ?e ?l ?n] =>
      let x := fresh "x" in
      let Hx := fresh "Hx" in
      let E := fresh "E" in
      destruct (choice_run e l n ltac:(discriminate)) as (x & E & Hx);
      rewrite E; clear E; cbv iota beta
  end.

Section FlightFacts.
Import Cal Random MockData.
Variable entropy : nat -> nat.

Lemma in_quarters (q : Z) : In q quarters -> (0 <= q <= 45)%Z.
Proof. unfold quarters. simpl. intros H. lia. Qed.

Lemma first_char_airline (airline : string) :
  In airline MOCK_AIRLINES -> exists initial, first_char airline = Ok initial.
Proof.
  unfold MOCK_AIRLINES. simpl.
  intros [<- | [<- | [<- | []]]]; simpl; eauto.
Qed.

(** A round of the loop without a return date appends nothing. *)
Lemma one_flight_one_way (origin_data dest_data : airport)
      (departure_date tomorrow : date) (n : nat) :
  plus_one_day departure_date = Ok tomorrow ->
  one_flight entropy origin_data dest_data departure_date None n = (Ok None, n + 6).
Proof.
  intros Hnext. unfold one_flight.
  draw_choice.
  rewrite bind_run. unfold lift at 1.
  destruct (first_char_airline x Hx) as [initial ->]. cbv iota beta.
  draw_int. draw_int. draw_choice. draw_int. draw_choice.
  apply in_quarters in Hx0, Hx1.
  rewrite bind_run. unfold lift at 1.
  destruct (plus_minutes_ok departure_date tomorrow v0 x0 0 (60 * v1 + x1) Hnext
              ltac:(lia)) as [arrival ->].
  cbv iota beta. unfold ret. f_equal. lia.
Qed.

Lemma flights_loop_one_way (origin_data dest_data : airport)
      (departure_date tomorrow : date) (count : nat) :
  plus_one_day departure_date = Ok tomorrow ->
  forall options n,
    flights_loop entropy origin_data dest_data departure_date None count options n
    = (Ok options, n + 6 * count).
Proof.
  intros Hnext. induction count as [|count IH]; intros options n; simpl flights_loop.
  - unfold ret. f_equal. lia.
  - rewrite bind_run, (one_flight_one_way _ _ _ _ _ Hnext). cbv iota beta.
    rewrite IH. f_equal. lia.
Qed.

(** What every option of a round trip between two airports looks like. *)
Let flies (o d : airport) (option : FlightOption.t) : Prop :=
  (200 <= FlightOption.total_price option <= 1200)%Z
  /\ (exists out,
        FlightOption.outbound_segments option = [out]
        /\ FlightSegment.departure_airport out = code o
        /\ FlightSegment.arrival_airport out = code d)
  /\ (exists back,
        FlightOption.return_segments option = Some [back]
        /\ FlightSegment.departure_airport back = code d
        /\ FlightSegment.arrival_airport back = code o)
  /\ FlightOption.booking_link option
     = ("https://example.com/book/flight/" ++ code o ++ "-" ++ code d)%string.

Lemma one_flight_round_trip (origin_data dest_data : airport)
      (departure_date return_date tomorrow after : date) (n : nat) :
  plus_one_day departure_date = Ok tomorrow ->
  plus_one_day return_date = Ok after ->
  exists option n',
    one_flight entropy origin_data dest_data departure_date (Some return_date) n
    = (Ok (Some option), n')
    /\ flies origin_data dest_data option.
Proof.
  intros Hnext Hafter. unfold one_flight.
  draw_choice.
  rewrite bind_run. unfold lift at 1.
  destruct (first_char_airline x Hx) as [initial Hinitial]. rewrite Hinitial.
  cbv iota beta.
  draw_int. draw_int. draw_choice. draw_int. draw_choice.
  apply in_quarters in Hx0, Hx1.
  rewrite bind_run. unfold lift at 1.
  destruct (plus_minutes_ok departure_date tomorrow v0 x0 0 (60 * v1 + x1) Hnext
              ltac:(lia)) as [arrival ->].
  cbv iota beta.
  draw_int. draw_choice. draw_int. draw_choice.
  apply in_quarters in Hx2, Hx3.
  rewrite bind_run. unfold lift at 1.
  destruct (plus_minutes_ok return_date after v2 x2 0 (60 * v3 + x3) Hafter
              ltac:(lia)) as [ret_arrival ->].
  cbv iota beta.
  rewrite bind_run. unfold lift at 1. cbv iota beta.
  draw_int. draw_int.
  rewrite bind_run.
  destruct (String.eqb x "Emirates").
  - match goal with
    | |- context [Random.randint ?e ?a ?b ?n] =>
        destruct (randint_run e a b n ltac:(lia)) as (v6 & E & Hv6); rewrite E; clear E
    end.
    cbv iota beta. draw_choice. unfold ret.
    eexists _, _. split; [reflexivity|].
    unfold flies. simpl. repeat split; try lia; eexists; repeat split.
  - unfold ret at 1. cbv iota beta. draw_choice. unfold ret.
    eexists _, _. split; [reflexivity|].
    unfold flies. simpl. repeat split; try lia; eexists; repeat split.
Qed.

Lemma flights_loop_round_trip (origin_data dest_data : airport)
      (departure_date return_date tomorrow after : date) (count : nat) :
  plus_one_day departure_date = Ok tomorrow ->
  plus_one_day return_date = Ok after ->
  forall options n,
    exists made n',
      flights_loop entropy origin_data dest_data departure_date (Some return_date)
        count options n
      = (Ok (options ++ made), n')
      /\ List.length made = count
      /\ Forall (flies origin_data dest_data) made.
Proof.
  intros Hnext Hafter. induction count as [|count IH]; intros options n; simpl flights_loop.
  - exists [], n. rewrite app_nil_r. repeat split. constructor.
  - rewrite bind_run.
    destruct (one_flight_round_trip origin_data dest_data _ _ _ _ n Hnext Hafter)
      as (option & n1 & -> & Hflies).
    cbv iota beta.
    destruct (IH (options ++ [option]) n1) as (made & n' & -> & Hlen & Hall).
    exists (option :: made), n'. rewrite <- app_assoc. simpl.
    repeat split; [lia|]. constructor; assumption.
Qed.

Variable py_str : value -> string.

Lemma to_segment_same (segment : FlightSegment.t) : Skyscanner.to_segment segment = segment.
Proof. destruct segment. reflexivity. Qed.

(** The client rebuilds an option of a round trip as it is. *)
Lemma to_option_same (o d : airport) (option : FlightOption.t) :
  flies o d option -> Skyscanner.to_option option = option.
Proof.
  intros (_ & (out & Hout & _) & (back & Hback & _) & _).
  destruct option as [outs rets price cur link prov]. simpl in Hout, Hback. subst.
  unfold Skyscanner.to_option. simpl. rewrite !to_segment_same. reflexivity.
Qed.

(** The airports of a search: those found for both places, or else
    JFK and LHR. *)
Let route (o d : string) : airport * airport :=
  match find_airport (Str.upper o), find_airport (Str.upper d) with
  | Some origin_data, Some dest_data => (origin_data, dest_data)
  | _, _ => (JFK, LHR)
  end.

(** The mock flights of a round trip. *)
Lemma generate_round_trip (o d : string)
      (departure_date return_date tomorrow after : date) (count n : nat) :
  plus_one_day departure_date = Ok tomorrow ->
  plus_one_day return_date = Ok after ->
  exists made n',
    generate_mock_flight entropy (VStr o) (VStr d) departure_date (Some return_date) count n
    = (Ok (sorted_by FlightOption.total_price made), n')
    /\ List.length made = count
    /\ Forall (flies (fst (route o d)) (snd (route o d))) made.
Proof.
  intros Hnext Hafter. unfold generate_mock_flight, route.
  simpl TravelHandler.py_upper. unfold lift.
  rewrite bind_run. cbv iota beta. rewrite bind_run. cbv iota beta.
  destruct (match find_airport (Str.upper o), find_airport (Str.upper d) with
            | Some origin_data, Some dest_data => (origin_data, dest_data)
            | _, _ => (JFK, LHR)
            end) as [origin_data dest_data].
  rewrite bind_run.
  destruct (flights_loop_round_trip origin_data dest_data _ _ _ _ count Hnext Hafter [] n)
    as (made & n' & -> & Hlen & Hall).
  cbv iota beta. unfold ret. simpl app.
  exists made, n'. auto.
Qed.

(** The mock flights of a one-way trip. *)
Lemma generate_one_way (o d : string) (departure_date tomorrow : date) (count n : nat) :
  plus_one_day departure_date = Ok tomorrow ->
  generate_mock_flight entropy (VStr o) (VStr d) departure_date None count n
  = (Ok [], n + 6 * count).
Proof.
  intros Hnext. unfold generate_mock_flight.
  simpl TravelHandler.py_upper. unfold lift.
  rewrite bind_run. cbv iota beta. rewrite bind_run. cbv iota beta.
  destruct (match find_airport (Str.upper o), find_airport (Str.upper d) with
            | Some origin_data, Some dest_data => (origin_data, dest_data)
            | _, _ => (JFK, LHR)
            end) as [origin_data dest_data].
  rewrite bind_run, (flights_loop_one_way origin_data dest_data _ _ count Hnext).
  reflexivity.
Qed.

(** A search for a round trip, in full. *)
Lemma search_round_trip (request : Flights.FlightSearchReqeust) (o d : string)
      (return_date tomorrow after : date) (n : nat) :
  Flights.origin request = VStr o ->
  Flights.destination request = VStr d ->
  Flights.return_date request = Some return_date ->
  plus_one_day (Flights.departure_date request) = Ok tomorrow ->
  plus_one_day return_date = Ok after ->
  exists response n',
    Skyscanner.search_flights entropy py_str request n = (Ok response, n')
    /\ List.length (FlightSearchResponse.options response) = 5
    /\ Sorted (fun a b => (FlightOption.total_price a <= FlightOption.total_price b)%Z)
         (FlightSearchResponse.options response)
    /\ Forall (flies (fst (route o d)) (snd (route o d)))
         (FlightSearchResponse.options response).
Proof.
  intros Ho Hd Hret Hnext Hafter.
  unfold Skyscanner.search_flights.
  rewrite Ho, Hd, Hret. rewrite bind_run.
  destruct (generate_round_trip o d _ _ _ _ 5 n Hnext Hafter)
    as (made & n' & -> & Hlen & Hall).
  cbv iota beta. unfold ret.
  assert (Hsorted : Forall (flies (fst (route o d)) (snd (route o d)))
                      (sorted_by FlightOption.total_price made)).
  { apply Forall_forall. intros option Hin.
    apply (Permutation_in _ (sorted_by_permutation FlightOption.total_price made)) in Hin.
    revert option Hin. apply Forall_forall. exact Hall. }
  assert (Hsame : map Skyscanner.to_option (sorted_by FlightOption.total_price made)
                  = sorted_by FlightOption.total_price made).
  { rewrite <- (map_id (sorted_by FlightOption.total_price made)) at 2.
    apply map_ext_in. intros option Hin.
    apply (to_option_same (fst (route o d)) (snd (route o d))).
    revert option Hin. apply Forall_forall. exact Hsorted. }
  eexists _, _. split; [reflexivity|]. simpl. rewrite Hsame.
  repeat split.
  - rewrite (Permutation_length (sorted_by_permutation FlightOption.total_price made)).
    exact Hlen.
  - apply sorted_by_sorted.
  - exact Hsorted.
Qed.

(** X21: a search without a return date never finds a flight: the loop
    draws its random values and appends nothing, so the response holds
    the empty list of options. *)
Theorem one_way_search_finds_nothing (request : Flights.FlightSearchReqeust)
        (o d : string) (tomorrow : date) (n : nat) :
  Flights.origin request = VStr o ->
  Flights.destination request = VStr d ->
  Flights.return_date request = None ->
  plus_one_day (Flights.departure_date request) = Ok tomorrow ->
  exists response,
    Skyscanner.search_flights entropy py_str request n = (Ok response, n + 30)
    /\ FlightSearchResponse.options response = []
    /\ FlightSearchResponse.search_id response = ("mock-search-" ++ o ++ "-" ++ d)%string.
Proof.
  intros Ho Hd Hret Hnext.
  unfold Skyscanner.search_flights.
  rewrite Ho, Hd, Hret. rewrite bind_run, (generate_one_way o d _ _ 5 n Hnext).
  cbv iota beta. unfold ret.
  eexists. split; [reflexivity|]. simpl. auto.
Qed.

(** X22: a search for a round trip returns exactly five options, in
    ascending order of price, each priced between 200 and 1200. *)
Theorem round_trip_search_is_sorted (request : Flights.FlightSearchReqeust)
        (o d : string) (return_date tomorrow after : date) (n : nat) :
  Flights.origin request = VStr o ->
  Flights.destination request = VStr d ->
  Flights.return_date request = Some return_date ->
  plus_one_day (Flights.departure_date request) = Ok tomorrow ->
  plus_one_day return_date = Ok after ->
  exists response n',
    Skyscanner.search_flights entropy py_str request n = (Ok response, n')
    /\ List.length (FlightSearchResponse.options response) = 5
    /\ Sorted (fun a b => (FlightOption.total_price a <= FlightOption.total_price b)%Z)
         (FlightSearchResponse.options response)
    /\ Forall (fun option => (200 <= FlightOption.total_price option <= 1200)%Z)
         (FlightSearchResponse.options response).
Proof.
  intros Ho Hd Hret Hnext Hafter.
  destruct (search_round_trip request o d return_date tomorrow after n
              Ho Hd Hret Hnext Hafter) as (response & n' & Hrun & Hlen & Hsorted & Hall).
  exists response, n'. repeat split; try assumption.
  eapply Forall_impl; [|exact Hall]. intros option Hflies. apply Hflies.
Qed.

(** X23: when the origin or the destination is not an airport of the
    table, the search answers with flights from JFK to LHR and back,
    whatever places were asked for. *)
Theorem unknown_airport_flies_jfk_lhr (request : Flights.FlightSearchReqeust)
        (o d : string) (return_date tomorrow after : date) (n : nat) :
  Flights.origin request = VStr o ->
  Flights.destination request = VStr d ->
  Flights.return_date request = Some return_date ->
  plus_one_day (Flights.departure_date request) = Ok tomorrow ->
  plus_one_day return_date = Ok after ->
  find_airport (Str.upper o) = None \/ find_airport (Str.upper d) = None ->
  exists response n',
    Skyscanner.search_flights entropy py_str request n = (Ok response, n')
    /\ Forall (fun option =>
                 exists out back,
                   FlightOption.outbound_segments option = [out]
                   /\ FlightSegment.departure_airport out = "JFK"
                   /\ FlightSegment.arrival_airport out = "LHR"
                   /\ FlightOption.return_segments option = Some [back]
                   /\ FlightSegment.departure_airport back = "LHR"
                   /\ FlightSegment.arrival_airport back = "JFK"
                   /\ FlightOption.booking_link option
                      = "https://example.com/book/flight/JFK-LHR")
         (FlightSearchResponse.options response).
Proof.
  intros Ho Hd Hret Hnext Hafter Hunknown.
  destruct (search_round_trip request o d return_date tomorrow after n
              Ho Hd Hret Hnext Hafter) as (response & n' & Hrun & _ & _ & Hall).
  exists response, n'. split; [exact Hrun|].
  assert (Hroute : route o d = (JFK, LHR)).
  { unfold route. destruct Hunknown as [-> | ->]; [reflexivity|].
    destruct (find_airport (Str.upper o)); reflexivity. }
  rewrite Hroute in Hall. simpl in Hall.
  eapply Forall_impl; [|exact Hall].
  intros option (_ & (out & Hout & Hdep & Harr) & (back & Hback & Hbdep & Hbarr) & Hlink).
  exists out, back. repeat split; assumption.
Qed.

End FlightFacts.

(** A one-way search from Paris to Rome. *)
Lemma one_way_search_finds_nothing_witness :
  exists response,
    Skyscanner.search_flights (fun n => n) (fun _ => "")
      {| Flights.origin := VStr "Paris"; Flights.destination := VStr "Rome";
         Flights.departure_date := Cal.Date 2024 5 1; Flights.return_date := None;
         Flights.adults := VInt 1; Flights.children := VInt 0; Flights.infants := VInt 0;
         Flights.cabin_class := VStr "economy";
         Flights.direct_flights_only := VBool false |} 0
    = (Ok response, 0 + 30)
    /\ FlightSearchResponse.options response = []
    /\ FlightSearchResponse.search_id response = "mock-search-Paris-Rome".
Proof.
  apply (one_way_search_finds_nothing (fun n => n) (fun _ => "")
           {| Flights.origin := VStr "Paris"; Flights.destination := VStr "Rome";
              Flights.departure_date := Cal.Date 2024 5 1; Flights.return_date := None;
              Flights.adults := VInt 1; Flights.children := VInt 0;
              Flights.infants := VInt 0; Flights.cabin_class := VStr "economy";
              Flights.direct_flights_only := VBool false |}
           "Paris" "Rome" (Cal.Date 2024 5 2) 0); reflexivity.
Defined.

(** A round trip between two airports of the table. *)
Lemma round_trip_search_is_sorted_witness :
  exists response n',
    Skyscanner.search_flights (fun n => n) (fun _ => "")
      {| Flights.origin := VStr "nyc"; Flights.destination := VStr "cai";
         Flights.departure_date := Cal.Date 2024 5 1;
         Flights.return_date := Some (Cal.Date 2024 5 8);
         Flights.adults := VInt 1; Flights.children := VInt 0; Flights.infants := VInt 0;
         Flights.cabin_class := VStr "economy";
         Flights.direct_flights_only := VBool false |} 0
    = (Ok response, n')
    /\ List.length (FlightSearchResponse.options response) = 5
    /\ Sorted (fun a b => (FlightOption.total_price a <= FlightOption.total_price b)%Z)
         (FlightSearchResponse.options response)
    /\ Forall (fun option => (200 <= FlightOption.total_price option <= 1200)%Z)
         (FlightSearchResponse.options response).
Proof.
  apply (round_trip_search_is_sorted (fun n => n) (fun _ => "")
           {| Flights.origin := VStr "nyc"; Flights.destination := VStr "cai";
              Flights.departure_date := Cal.Date 2024 5 1;
              Flights.return_date := Some (Cal.Date 2024 5 8);
              Flights.adults := VInt 1; Flights.children := VInt 0;
              Flights.infants := VInt 0; Flights.cabin_class := VStr "economy";
              Flights.direct_flights_only := VBool false |}
           "nyc" "cai" (Cal.Date 2024 5 8) (Cal.Date 2024 5 2) (Cal.Date 2024 5 9) 0);
    reflexivity.
Defined.

(** A round trip between Paris and Rome, neither of which is in the table. *)
Lemma unknown_airport_flies_jfk_lhr_witness :
  (MockData.find_airport (Str.upper "Paris") = None
   \/ MockData.find_airport (Str.upper "Rome") = None)
  /\ exists response n',
       Skyscanner.search_flights (fun n => n) (fun _ => "")
         {| Flights.origin := VStr "Paris"; Flights.destination := VStr "Rome";
            Flights.departure_date := Cal.Date 2024 5 1;
            Flights.return_date := Some (Cal.Date 2024 5 8);
            Flights.adults := VInt 1; Flights.children := VInt 0; Flights.infants := VInt 0;
            Flights.cabin_class := VStr "economy";
            Flights.direct_flights_only := VBool false |} 0
       = (Ok response, n')
       /\ Forall (fun option =>
                    exists out back,
                      FlightOption.outbound_segments option = [out]
                      /\ FlightSegment.departure_airport out = "JFK"
                      /\ FlightSegment.arrival_airport out = "LHR"
                      /\ FlightOption.return_segments option = Some [back]
                      /\ FlightSegment.departure_airport back = "LHR"
                      /\ FlightSegment.arrival_airport back = "JFK"
                      /\ FlightOption.booking_link option
                         = "https://example.com/book/flight/JFK-LHR")
            (FlightSearchResponse.options response).
Proof.
  split; [left; reflexivity|].
  apply (unknown_airport_flies_jfk_lhr (fun n => n) (fun _ => "")
           {| Flights.origin := VStr "Paris"; Flights.destination := VStr "Rome";
              Flights.departure_date := Cal.Date 2024 5 1;
              Flights.return_date := Some (Cal.Date 2024 5 8);
              Flights.adults := VInt 1; Flights.children := VInt 0;
              Flights.infants := VInt 0; Flights.cabin_class := VStr "economy";
              Flights.direct_flights_only := VBool false |}
           "Paris" "Rome" (Cal.Date 2024 5 8) (Cal.Date 2024 5 2) (Cal.Date 2024 5 9) 0);
    try reflexivity.
  left. reflexivity.
Defined.

(* ===================================================================== *)
(** ** The mock restaurants and the restaurant provider *)
(* ===================================================================== *)

Section RestaurantFacts.
Import Random MockData.
Variable entropy : nat -> nat.
Variable unit_interval : nat -> float.
Variable py_str : value -> string.
Variable validate_option : RestaurantOption.t -> res RestaurantOption.t.

(** The city searched: the one the location names, in any letter case,
    or else the one drawn. *)
Let city_of (location_lower default : string) : string :=
  match find (fun city => String.eqb (Str.lower city) location_lower)
             (map fst MOCK_RESTAURANTS) with
  | Some city => city
  | None => default
  end.

Lemma city_of_table (location_lower default : string) :
  In default (map fst MOCK_RESTAURANTS) ->
  In (city_of location_lower default) (map fst MOCK_RESTAURANTS).
Proof.
  intros Hdefault. unfold city_of.
  destruct (find _ (map fst MOCK_RESTAURANTS)) as [city|] eqn:E; [|exact Hdefault].
  apply find_some in E. apply E.
Qed.

(** Every city of the table has a restaurant, and [None] is no range
    to look a price level up in. *)
Lemma price_filter_without_range (city : string) :
  In city (map fst MOCK_RESTAURANTS) ->
  price_filter VNone (restaurants_of city MOCK_RESTAURANTS) []
  = Err (PyOps.type_error "argument is not iterable").
Proof.
  simpl. intros [<- | [<- | [<- | []]]]; reflexivity.
Qed.

(** X24: a search that asks for cuisines and gives no price range fails
    for every location: the price level of the first restaurant is
    looked up in [None], which raises [TypeError] after the one draw of
    the default city. *)
Theorem cuisines_without_price_range_fail
        (request : Dining.RestaurantSearchRequest) (place : string) (n : nat) :
  Dining.location request = VStr place ->
  truthy (Dining.cuisines request) = true ->
  Dining.price_range request = VNone ->
  exists e,
    Yelp.search_restaurants entropy unit_interval py_str validate_option request n
    = (Err e, S n)
    /\ exn_type e = "TypeError".
Proof.
  intros Hplace Hcuisines Hrange.
  exists (PyOps.type_error "argument is not iterable"). split; [|reflexivity].
  unfold Yelp.search_restaurants, generate_mock_restaurant.
  rewrite Hplace, Hcuisines, Hrange.
  rewrite bind_run. rewrite bind_run.
  destruct (choice_run entropy (map fst MOCK_RESTAURANTS) n ltac:(discriminate))
    as (default & -> & Hdefault).
  cbv iota beta. rewrite bind_run. unfold lift at 1. simpl py_lower. cbv iota beta.
  fold (city_of (Str.lower place) default).
  rewrite bind_run. rewrite bind_run. unfold lift at 1.
  rewrite (price_filter_without_range _ (city_of_table (Str.lower place) default Hdefault)).
  reflexivity.
Qed.

Lemma without_length {A : Type} (i : nat) (l : list A) :
  i < List.length l -> List.length (without i l) = List.length l - 1.
Proof.
  revert i. induction l as [|x l IH]; intros i Hi; simpl in *; [lia|].
  destruct i as [|i]; [lia|]. simpl. rewrite IH by lia. lia.
Qed.

Lemma hours_loop_run (days : list string) :
  forall hours n, exists hours' n', hours_loop unit_interval days hours n = (Ok hours', n').
Proof.
  induction days as [|day days IH]; intros hours n; simpl hours_loop.
  - unfold ret. eauto.
  - rewrite bind_run. unfold random at 1. cbv iota beta.
    match goal with
    | |- context [PrimFloat.ltb ?a ?b] => destruct (PrimFloat.ltb a b)
    end; [apply IH|].
    rewrite bind_run. unfold random at 1. cbv iota beta. apply IH.
Qed.

(** What an option says of the restaurant it was made for. *)
Let made_for (city : string) (r : restaurant) (option : RestaurantOption.t) : Prop :=
  RestaurantOption.name option = r_name r
  /\ RestaurantOption.cuisines option = r_cuisines r
  /\ RestaurantOption.price_level option = r_price_level r
  /\ RestaurantOption.rating option = r_rating r
  /\ RestaurantLocation.city (RestaurantOption.location option) = city.

Lemma one_restaurant_run (city : string) (r : restaurant) (n : nat) :
  exists option n',
    one_restaurant entropy unit_interval city r n = (Ok option, n')
    /\ made_for city r option.
Proof.
  unfold one_restaurant. rewrite bind_run.
  destruct (hours_loop_run week [] n) as (hours & n1 & ->). cbv iota beta.
  draw_int. draw_int.
  rewrite bind_run. unfold uniform at 1. rewrite bind_run. unfold random at 1, ret at 1.
  cbv iota beta.
  rewrite bind_run. unfold uniform at 1. rewrite bind_run. unfold random at 1, ret at 1.
  cbv iota beta.
  draw_int. draw_int. draw_int. draw_choice. unfold ret.
  eexists _, _. split; [reflexivity|]. unfold made_for. simpl. auto.
Qed.

Lemma restaurants_loop_run (city : string) (selected : list restaurant) :
  forall options n,
    exists made n',
      restaurants_loop entropy unit_interval city selected options n
      = (Ok (options ++ made), n')
      /\ Forall2 (made_for city) selected made.
Proof.
  induction selected as [|r selected IH]; intros options n; simpl restaurants_loop.
  - exists [], n. rewrite app_nil_r. split; [reflexivity|constructor].
  - rewrite bind_run.
    destruct (one_restaurant_run city r n) as (option & n1 & -> & Hmade). cbv iota beta.
    destruct (IH (options ++ [option]) n1) as (made & n' & -> & Hall).
    exists (option :: made), n'. rewrite <- app_assoc. split; [reflexivity|].
    constructor; assumption.
Qed.

Lemma insert_desc_permutation {A : Type} (key : A -> float) (x : A) (l : list A) :
  Permutation (insert_desc key x l) (x :: l).
Proof.
  induction l as [|y l IH]; simpl; [reflexivity|].
  destruct (PrimFloat.leb (key y) (key x)); [reflexivity|].
  rewrite IH. apply perm_swap.
Qed.

Lemma sorted_desc_permutation {A : Type} (key : A -> float) (l : list A) :
  Permutation (sorted_desc key l) l.
Proof.
  induction l as [|x l IH]; simpl; [reflexivity|].
  rewrite insert_desc_permutation. apply perm_skip, IH.
Qed.

Lemma two_restaurants (city : string) :
  In city (map fst MOCK_RESTAURANTS) ->
  List.length (restaurants_of city MOCK_RESTAURANTS) = 2.
Proof.
  simpl. intros [<- | [<- | [<- | []]]]; reflexivity.
Qed.

(** Taking the item at a position out of a list and putting it in front
    rearranges the list. *)
Lemma without_permutation {A : Type} (i : nat) (l : list A) (x : A) :
  nth_error l i = Some x -> Permutation (x :: without i l) l.
Proof.
  revert i. induction l as [|y l IH]; intros i Hx.
  - destruct i; discriminate.
  - destruct i as [|i]; simpl in *.
    + inversion Hx. reflexivity.
    + rewrite perm_swap. apply perm_skip, IH, Hx.
Qed.

(** A sample no larger than the population takes that many items out of
    it, each position at most once: the sample and what is left behind
    make up the population. *)
Lemma sample_takes_out {A : Type} (k : nat) :
  forall (population : list A) (n : nat),
    k <= List.length population ->
    exists l left_out,
      sample entropy population k n = (Ok l, n + k)
      /\ List.length l = k
      /\ Permutation (l ++ left_out) population.
Proof.
  induction k as [|k IH]; intros population n Hk; simpl sample.
  - exists [], population. unfold ret. rewrite Nat.add_0_r. repeat split. reflexivity.
  - assert (Hi : entropy n mod List.length population < List.length population).
    { apply Nat.mod_upper_bound. lia. }
    pose proof Hi as Hsome. apply nth_error_Some in Hsome.
    destruct (nth_error population (entropy n mod List.length population)) as [x|] eqn:E;
      [|contradiction].
    destruct (IH (without (entropy n mod List.length population) population) (S n))
      as (rest & left_out & Hrest & Hlen & Hperm).
    { rewrite without_length by exact Hi. lia. }
    rewrite bind_run, Hrest. unfold ret.
    exists (x :: rest), left_out. split; [f_equal; lia|]. split; [simpl; lia|].
    simpl. rewrite Hperm. apply without_permutation, E.
Qed.

(** X25: a search that asks for no cuisines always answers, whatever
    place, price range and count it names, and its options are made for
    restaurants of one city of the table: the city the place names in
    any letter case, or else a city drawn at random.  There is one
    option for each of [min(2, count)] entries of that city, no entry
    being served twice: the entries served and those left out make up
    the city's list.  So for a count of two or more the options are
    made for both restaurants of the city, each once.  An option has the
    name, cuisines, price level and rating of its restaurant and the
    city as its location.  The price range is not looked at. *)
Theorem restaurants_of_a_table_city
        (place : string) (cuisines price_range : value) (count n : nat) :
  truthy cuisines = false ->
  exists options n' city served left_out,
    generate_mock_restaurant entropy unit_interval (VStr place) cuisines price_range count n
    = (Ok options, n')
    /\ In city (map fst MOCK_RESTAURANTS)
    /\ (forall known, In known (map fst MOCK_RESTAURANTS) ->
                      Str.lower known = Str.lower place -> city = known)
    /\ Permutation (served ++ left_out) (restaurants_of city MOCK_RESTAURANTS)
    /\ List.length served = Nat.min 2 count
    /\ (2 <= count -> Permutation served (restaurants_of city MOCK_RESTAURANTS))
    /\ Forall2 (fun r option =>
                  RestaurantOption.name option = r_name r
                  /\ RestaurantOption.cuisines option = r_cuisines r
                  /\ RestaurantOption.price_level option = r_price_level r
                  /\ RestaurantOption.rating option = r_rating r
                  /\ RestaurantLocation.city (RestaurantOption.location option) = city)
         served options.
Proof.
  intros Hcuisines. unfold generate_mock_restaurant. rewrite Hcuisines.
  rewrite bind_run.
  destruct (choice_run entropy (map fst MOCK_RESTAURANTS) n ltac:(discriminate))
    as (default & -> & Hdefault).
  cbv iota beta. rewrite bind_run. unfold lift at 1. simpl py_lower. cbv iota beta.
  fold (city_of (Str.lower place) default).
  pose proof (city_of_table (Str.lower place) default Hdefault) as Hcity.
  set (city := city_of (Str.lower place) default) in *.
  rewrite bind_run. unfold ret at 1. cbv iota beta.
  rewrite bind_run. rewrite (two_restaurants city Hcity).
  destruct (sample_takes_out (Nat.min 2 count) (restaurants_of city MOCK_RESTAURANTS) (S n)
              ltac:(rewrite (two_restaurants city Hcity); lia))
    as (selected & left_out & -> & Hlen & Hperm).
  cbv iota beta. rewrite bind_run.
  destruct (restaurants_loop_run city selected [] (S n + Nat.min 2 count))
    as (made & n' & -> & Hmade).
  cbv iota beta. unfold ret. simpl app.
  destruct (Permutation_Forall2
              (Permutation_sym (sorted_desc_permutation RestaurantOption.rating made))
              (Forall2_flip Hmade))
    as (served & Hserved & Hall).
  apply Forall2_flip in Hall.
  assert (Hlength : List.length served = Nat.min 2 count).
  { rewrite <- (Permutation_length Hserved). exact Hlen. }
  exists (sorted_desc RestaurantOption.rating made), n', city, served, left_out.
  split; [reflexivity|]. split; [exact Hcity|].
  split; [|split; [|split; [exact Hlength|split; [|exact Hall]]]].
  - intros known Hknown Hlower. unfold city, city_of.
    destruct (find _ (map fst MOCK_RESTAURANTS)) as [found|] eqn:E.
    + apply find_some in E. destruct E as [Hfound Heq]. apply String.eqb_eq in Heq.
      revert Hknown Hfound Hlower Heq. simpl.
      intros [<- | [<- | [<- | []]]] [<- | [<- | [<- | []]]] <-;
        (reflexivity || (intros Hx; vm_compute in Hx; discriminate)).
    + exfalso. apply (find_none _ _ E) in Hknown.
      rewrite Hlower, String.eqb_refl in Hknown. discriminate.
  - rewrite <- Hserved. exact Hperm.
  - intros Hcount.
    assert (Hnone : left_out = []).
    { apply length_zero_iff_nil.
      pose proof (Permutation_length Hperm) as Hl.
      rewrite length_app, Hlen, (two_restaurants city Hcity) in Hl. lia. }
    rewrite <- Hserved. rewrite Hnone, app_nil_r in Hperm. exact Hperm.
Qed.

End RestaurantFacts.

(** Italian food in Rome, no price range. *)
Lemma cuisines_without_price_range_fail_witness :
  exists e,
    Yelp.search_restaurants (fun n => n) (fun _ => 0.5%float) (fun _ => "") Demo.accept
      {| Dining.location := VStr "Rome"; Dining.radius_km := VFloat 5%float;
         Dining.cuisines := VList [VStr "Italian"]; Dining.price_range := VNone;
         Dining.open_now := VNone |} 0
    = (Err e, 1)
    /\ exn_type e = "TypeError".
Proof.
  apply (cuisines_without_price_range_fail (fun n => n) (fun _ => 0.5%float) (fun _ => "")
           Demo.accept
           {| Dining.location := VStr "Rome"; Dining.radius_km := VFloat 5%float;
              Dining.cuisines := VList [VStr "Italian"]; Dining.price_range := VNone;
              Dining.open_now := VNone |} "Rome" 0); reflexivity.
Defined.

(** Restaurants in [paris], written in lower case, at the default count. *)
Lemma restaurants_of_a_table_city_witness :
  truthy VNone = false
  /\ exists options n' city served left_out,
       MockData.generate_mock_restaurant (fun n => n) (fun _ => 0.5%float)
         (VStr "paris") VNone VNone 5 0
       = (Ok options, n')
       /\ In city (map fst MockData.MOCK_RESTAURANTS)
       /\ (forall known, In known (map fst MockData.MOCK_RESTAURANTS) ->
                         Str.lower known = Str.lower "paris" -> city = known)
       /\ Permutation (served ++ left_out)
                      (MockData.restaurants_of city MockData.MOCK_RESTAURANTS)
       /\ List.length served = Nat.min 2 5
       /\ (2 <= 5 ->
           Permutation served (MockData.restaurants_of city MockData.MOCK_RESTAURANTS))
       /\ Forall2 (fun r option =>
                     RestaurantOption.name option = MockData.r_name r
                     /\ RestaurantOption.cuisines option = MockData.r_cuisines r
                     /\ RestaurantOption.price_level option = MockData.r_price_level r
                     /\ RestaurantOption.rating option = MockData.r_rating r
                     /\ RestaurantLocation.city (RestaurantOption.location option) = city)
            served options.
Proof.
  split; [reflexivity|].
  apply (restaurants_of_a_table_city (fun n => n) (fun _ => 0.5%float)
           "paris" VNone VNone 5 0).
  reflexivity.
Defined.

(* ===================================================================== *)
(** ** The text handed to the JSON parser *)
(* ===================================================================== *)

Section CandidateFacts.

(** A list that holds [c] splits at the first [c], and at the last. *)
Lemma first_split (c : ascii) (l : list ascii) :
  In c l -> exists pre post, l = pre ++ c :: post /\ ~ In c pre.
Proof.
  induction l as [|a l IH]; [intros []|].
  destruct (ascii_dec a c) as [-> | Hne].
  - intros _. exists [], l. split; [reflexivity|intros []].
  - intros [Heq | Hin]; [contradiction|].
    destruct (IH Hin) as (pre & post & -> & Hpre).
    exists (a :: pre), post. split; [reflexivity|].
    intros [Heq | Hin']; [contradiction|exact (Hpre Hin')].
Qed.

Lemma last_split (c : ascii) (l : list ascii) :
  In c l -> exists pre post, l = pre ++ c :: post /\ ~ In c post.
Proof.
  intros Hin. apply in_rev in Hin.
  destruct (first_split c (rev l) Hin) as (pre & post & Hrev & Hpre).
  exists (rev post), (rev pre). split.
  - rewrite <- (rev_involutive l), Hrev, rev_app_distr. simpl.
    rewrite <- app_assoc. reflexivity.
  - intros H. apply Hpre. apply in_rev. exact H.
Qed.

(** After the first opening brace comes whatever follows any opening
    brace that has a closing brace behind it. *)
Lemma closing_after_first (pre rest pre' mid post : list ascii) :
  ~ In "{"%char pre ->
  pre ++ "{"%char :: rest = pre' ++ "{"%char :: mid ++ "}"%char :: post ->
  In "}"%char rest.
Proof.
  intros Hpre Heq. apply app_eq_app in Heq.
  destruct Heq as (l & [[-> Hl] | [-> Hl]]).
  - destruct l as [|a l]; simpl in Hl.
    + inversion Hl. apply in_or_app. right. left. reflexivity.
    + inversion Hl; subst. exfalso. apply Hpre. apply in_or_app. right. left. reflexivity.
  - destruct l as [|a l]; simpl in Hl.
    + inversion Hl. apply in_or_app. right. left. reflexivity.
    + inversion Hl; subst. apply in_or_app. right. right.
      apply in_or_app. right. left. reflexivity.
Qed.

(** X26: what [extract_entities] hands to [json.loads].  Either the
    content holds an opening brace with a closing brace somewhere behind
    it, and then the candidate runs from the first opening brace to the
    last closing brace, both included; or it holds no such pair, and then
    there is no candidate and nothing is parsed. *)
Theorem json_candidate_cases (content : string) :
  (Context.json_candidate content = None
   /\ forall pre mid post,
        Str.chars content <> pre ++ "{"%char :: mid ++ "}"%char :: post)
  \/ exists pre mid post,
       Str.chars content = pre ++ "{"%char :: mid ++ "}"%char :: post
       /\ ~ In "{"%char pre
       /\ ~ In "}"%char post
       /\ Context.json_candidate content
          = Some (Str.of_chars ("{"%char :: mid ++ ["}"%char])).
Proof.
  destruct (in_dec ascii_dec "{"%char (Str.chars content)) as [Hopen | Hnone].
  2:{ left. split; [apply json_candidate_no_opening, Hnone|].
      intros pre mid post Heq. apply Hnone. rewrite Heq.
      apply in_or_app. right. left. reflexivity. }
  destruct (first_split _ _ Hopen) as (pre & rest & Hcontent & Hpre).
  destruct (in_dec ascii_dec "}"%char rest) as [Hclose | Hnone].
  - destruct (last_split _ _ Hclose) as (mid & post & -> & Hpost).
    right. exists pre, mid, post. repeat split; try assumption.
    rewrite <- (of_chars_chars content), Hcontent.
    apply json_candidate_braces; assumption.
  - left. split.
    2:{ intros pre' mid post Heq. apply Hnone.
        rewrite Hcontent in Heq. exact (closing_after_first _ _ _ _ _ Hpre Heq). }
    unfold Context.json_candidate, Str.find, Str.rfind. rewrite Hcontent.
    rewrite find_from_first by exact Hpre.
    destruct (in_dec ascii_dec "}"%char pre) as [Hin | Hout].
    + destruct (last_split _ _ Hin) as (p1 & p2 & -> & Hp2).
      rewrite <- app_assoc. simpl app.
      rewrite rfind_from_last.
      2:{ intros H. apply in_app_or in H. destruct H as [H | [H | H]];
            [exact (Hp2 H)|discriminate|exact (Hnone H)]. }
      rewrite length_app. simpl List.length.
      replace (0 + Z.of_nat (List.length p1 + S (List.length p2))
               <? 0 + Z.of_nat (List.length p1) + 1)%Z with false
        by (symmetry; apply Z.ltb_ge; lia).
      rewrite andb_false_r. reflexivity.
    + rewrite rfind_from_absent.
      2:{ intros H. apply in_app_or in H. destruct H as [H | [H | H]];
            [exact (Hout H)|discriminate|exact (Hnone H)]. }
      replace (0 + Z.of_nat (List.length pre) <? -1 + 1)%Z with false
        by (symmetry; apply Z.ltb_ge; lia).
      rewrite andb_false_r. reflexivity.
Qed.

End CandidateFacts.

(* ===================================================================== *)
(** ** Texts without link markers *)
(* ===================================================================== *)

Section PlainTextFacts.
Import Re LinkProcessor.

(** A pattern that can only match where [p] begins finds nothing in a
    text in which [p] does not occur. *)
Lemma scan_without_prefix (r : regex) (p : list ascii) :
  (forall s s' c, match_at r s = Some (s', c) -> Str.starts_with p s = true) ->
  forall fuel l,
    Str.contains_chars p l = false -> hits (scan fuel r l) = [].
Proof.
  intros Hr. induction fuel as [|fuel IH]; intros l Hno; [reflexivity|].
  assert (Hhead : Str.starts_with p l = false).
  { destruct l as [|a l]; simpl in Hno; apply orb_false_iff in Hno; apply Hno. }
  simpl. destruct (match_at r l) as [[s' c]|] eqn:E.
  - apply Hr in E. congruence.
  - destruct l as [|a l]; [reflexivity|]. simpl. apply IH.
    simpl in Hno. apply orb_false_iff in Hno. apply Hno.
Qed.

Lemma generic_match_opening (s s' : list ascii) (c : caps) :
  match_at generic_link_pattern s = Some (s', c) ->
  Str.starts_with (Str.chars "<Links to ") s = true.
Proof.
  unfold match_at, generic_link_pattern. intros H.
  rewrite rmatch_seq in H. apply rmatch_literal in H. destruct H as (s1 & -> & _).
  apply starts_with_app.
Qed.

(** A word that begins with a character that is not in the text does
    not occur in the text. *)
Lemma absent_head_absent_word (a : ascii) (p l : list ascii) :
  ~ In a l -> Str.contains_chars (a :: p) l = false.
Proof.
  intros Hout. destruct (Str.contains_chars (a :: p) l) eqn:E; [|reflexivity].
  apply contains_chars_iff in E. destruct E as (pre & post & ->).
  exfalso. apply Hout. apply in_or_app. right. left. reflexivity.
Qed.

(** X27: a text without an opening angle bracket that mentions neither
    places to visit nor attractions gives no link at all. *)
Theorem plain_text_has_no_links (s : string) :
  ~ In "<"%char (Str.chars s) ->
  Str.contains "places to visit" (Str.lower s) = false ->
  Str.contains "attractions" (Str.lower s) = false ->
  extract_links (VStr s) = Ok [].
Proof.
  intros Hangle Hplaces Hattractions.
  rewrite extract_links_groups.
  unfold generic_links, specific_links, place_links, findall1, findall2, tokens.
  rewrite (scan_without_prefix generic_link_pattern (Str.chars "<Links to ")
             generic_match_opening).
  2:{ apply (absent_head_absent_word "<"%char). exact Hangle. }
  rewrite (scan_without_prefix specific_link_pattern (Str.chars "<link:")
             specific_match_opening).
  2:{ apply (absent_head_absent_word "<"%char). exact Hangle. }
  rewrite Hplaces, Hattractions. reflexivity.
Qed.

End PlainTextFacts.

(** A reply in plain words. *)
Lemma plain_text_has_no_links_witness :
  LinkProcessor.extract_links (VStr "Flights to Rome leave daily at 9 am.") = Ok [].
Proof.
  apply (plain_text_has_no_links "Flights to Rome leave daily at 9 am.").
  - intros H. simpl in H. repeat (destruct H as [H | H]; [discriminate|]). exact H.
  - reflexivity.
  - reflexivity.
Defined.

(* ===================================================================== *)
(** ** Formatting a well-formed marker *)
(* ===================================================================== *)

Section WellFormedMarker.
Import Re LinkProcessor.

(** A literal matches itself at the head of the input. *)
Lemma rmatch_literal_head {R : Type} (p : list ascii) :
  forall s c (k : list ascii -> caps -> option R),
    rmatch (Lit_chars p) (p ++ s) c k = k s c.
Proof.
  induction p as [|a p IH]; intros s c k; simpl; [reflexivity|].
  rewrite Ascii.eqb_refl. apply IH.
Qed.

(** A single character is compared with the head of the input. *)
Lemma rmatch_chr_head {R : Type} (a b : ascii) (s : list ascii) (c : caps)
      (k : list ascii -> caps -> option R) :
  rmatch (Chr a) (b :: s) c k = if Ascii.eqb a b then k s c else None.
Proof. reflexivity. Qed.

(** A lazy run of dots hands over at the first place where the rest of
    the pattern matches: over a stretch [w] without line feed, inside
    which the rest of the pattern fails everywhere, it consumes [w]. *)
Lemma lazy_dots_stretch {R : Type} (w : list ascii) :
  forall (rest : list ascii) (c : caps) (k : list ascii -> caps -> option R) (x : R) (n : nat),
    ~ In "010"%char w ->
    (forall w1 a w2, w = w1 ++ a :: w2 -> k (a :: w2 ++ rest) c = None) ->
    k rest c = Some x ->
    List.length w <= n ->
    star_loop (fun s' c' k' => rmatch Dot s' c' k') false k n (w ++ rest) c = Some x.
Proof.
  induction w as [|a w IH]; intros rest c k x n Hline Hinside Hrest Hn.
  - destruct n; simpl; rewrite Hrest; reflexivity.
  - destruct n as [|n]; [simpl in Hn; lia|].
    simpl star_loop. simpl app.
    rewrite (Hinside [] a w eq_refl).
    simpl rmatch.
    destruct (Ascii.eqb_spec a "010"%char) as [-> | _].
    { exfalso. apply Hline. left. reflexivity. }
    simpl negb. cbv iota.
    match goal with
    | |- context [?p <? ?q] =>
        replace (p <? q) with true by (symmetry; apply Nat.ltb_lt; simpl; lia)
    end.
    apply IH.
    + intros H. apply Hline. right. exact H.
    + intros w1 b w2 ->. apply (Hinside (a :: w1) b w2). reflexivity.
    + exact Hrest.
    + simpl in Hn. lia.
Qed.

Lemma firstn_stretch {A : Type} (w rest : list A) :
  firstn (List.length (w ++ rest) - List.length rest) (w ++ rest) = w.
Proof.
  rewrite length_app. replace (List.length w + List.length rest - List.length rest)
    with (List.length w + 0) by lia.
  rewrite firstn_app_2. simpl. apply app_nil_r.
Qed.

(** A marker whose address holds no bar and whose display text holds no
    closing bracket, neither holding a line feed, is matched as a whole,
    with the address in group 1 and the display text in group 2. *)
Lemma marker_match (u d post : list ascii) :
  ~ In "|"%char u -> ~ In "010"%char u ->
  ~ In ">"%char d -> ~ In "010"%char d ->
  match_at specific_link_pattern
    (Str.chars "<link:" ++ u ++ "|"%char :: d ++ ">"%char :: post)
  = Some (post, [(2, d); (1, u)]).
Proof.
  intros Hbar Hline1 Hclose Hline2.
  unfold match_at, specific_link_pattern, Lit.
  rewrite rmatch_seq, rmatch_literal_head.
  rewrite rmatch_seq, rmatch_group.
  rewrite (star_bound_enough false Dot _ _ _ (List.length u + S (List.length (d ++ ">"%char :: post)))).
  2:{ rewrite length_app. simpl. lia. }
  apply lazy_dots_stretch; [exact Hline1| | |lia].
  - intros w1 a w2 ->. rewrite rmatch_seq, rmatch_chr_head.
    destruct (Ascii.eqb_spec "|"%char a) as [<- | _]; [|reflexivity].
    exfalso. apply Hbar. apply in_or_app. right. left. reflexivity.
  - rewrite firstn_stretch.
    rewrite rmatch_seq, rmatch_chr_head, Ascii.eqb_refl.
    rewrite rmatch_seq, rmatch_group.
    rewrite (star_bound_enough false Dot _ _ _ (List.length d + S (List.length post))).
    2:{ rewrite length_app. simpl. lia. }
    apply lazy_dots_stretch; [exact Hline2| | |lia].
    + intros w1 a w2 ->. rewrite rmatch_chr_head.
      destruct (Ascii.eqb_spec ">"%char a) as [<- | _]; [|reflexivity].
      exfalso. apply Hclose. apply in_or_app. right. left. reflexivity.
    + rewrite firstn_stretch, rmatch_chr_head, Ascii.eqb_refl. reflexivity.
Qed.

(** Up to the first opening angle bracket a pass copies the text. *)
Lemma scan_plain_stretch (pre : list ascii) :
  forall (l : list ascii) (fuel : nat),
    ~ In "<"%char pre ->
    List.length pre <= fuel ->
    scan fuel specific_link_pattern (pre ++ l)
    = map Plain pre ++ scan (fuel - List.length pre) specific_link_pattern l.
Proof.
  induction pre as [|a pre IH]; intros l fuel Hangle Hfuel.
  - simpl. rewrite Nat.sub_0_r. reflexivity.
  - destruct fuel as [|fuel]; [simpl in Hfuel; lia|].
    simpl app. simpl scan.
    destruct (match_at specific_link_pattern (a :: pre ++ l)) as [[s' c]|] eqn:E.
    + apply specific_match_opening in E.
      change (Ascii.eqb "<"%char a && Str.starts_with (Str.chars "link:") (pre ++ l) = true)
        in E.
      apply andb_true_iff in E. destruct E as [E _]. apply Ascii.eqb_eq in E.
      exfalso. apply Hangle. left. symmetry. exact E.
    + simpl. f_equal. apply IH.
      * intros H. apply Hangle. right. exact H.
      * simpl in Hfuel. lia.
Qed.

(** A pass at the head of a match that consumes input. *)
Lemma scan_hit (r : regex) (fuel : nat) (s s' : list ascii) (c : caps) :
  match_at r s = Some (s', c) ->
  List.length s' < List.length s ->
  0 < fuel ->
  scan fuel r s
  = Hit (firstn (List.length s - List.length s') s) c :: scan (fuel - 1) r s'.
Proof.
  intros Hmatch Hlen Hfuel. destruct fuel as [|fuel]; [lia|].
  simpl. rewrite Hmatch, Nat.sub_0_r.
  apply Nat.ltb_lt in Hlen. rewrite Hlen. reflexivity.
Qed.

Lemma subst_plain (repl : caps -> string) (pre : list ascii) (l : list token) :
  subst repl (map Plain pre ++ l) = (Str.of_chars pre ++ subst repl l)%string.
Proof.
  induction pre as [|a pre IH]; simpl; [reflexivity|]. rewrite IH. reflexivity.
Qed.

(** A text without opening angle bracket is left as it is. *)
Lemma format_without_angle (s : string) :
  ~ In "<"%char (Str.chars s) -> format_response_with_links s = s.
Proof.
  intros Hangle. unfold format_response_with_links. apply sub_without_match.
  unfold tokens. apply scan_without_opening.
  apply (absent_head_absent_word "<"%char). exact Hangle.
Qed.

(** X28: what formatting does to a well-formed marker.  In a text that
    begins with a stretch without opening angle bracket, followed by a
    marker whose address holds no bar, whose display text holds no
    closing angle bracket, and which holds no line feed, the stretch
    is kept, the marker is replaced by its display text, and the
    formatting goes on with what follows the marker.  When neither the
    display text nor what follows holds an opening angle bracket, the
    formatted text is the stretch, the display text and what follows,
    and formatting it again changes nothing. *)
Theorem format_replaces_marker (pre u d post : string) :
  ~ In "<"%char (Str.chars pre) ->
  ~ In "|"%char (Str.chars u) -> ~ In "010"%char (Str.chars u) ->
  ~ In ">"%char (Str.chars d) -> ~ In "010"%char (Str.chars d) ->
  let text := (pre ++ "<link:" ++ u ++ "|" ++ d ++ ">" ++ post)%string in
  format_response_with_links text
  = (pre ++ d ++ format_response_with_links post)%string
  /\ (~ In "<"%char (Str.chars d) -> ~ In "<"%char (Str.chars post) ->
      format_response_with_links text = (pre ++ d ++ post)%string
      /\ format_response_with_links (format_response_with_links text)
         = format_response_with_links text).
Proof.
  intros Hangle Hbar Hline1 Hclose Hline2 text.
  assert (Hone : format_response_with_links text
                 = (pre ++ d ++ format_response_with_links post)%string).
  2:{ split; [exact Hone|]. intros Hd Hpost.
      rewrite Hone, (format_without_angle post Hpost).
      split; [reflexivity|]. apply format_without_angle.
      rewrite !chars_append. intros H.
      apply in_app_or in H. destruct H as [H | H]; [exact (Hangle H)|].
      apply in_app_or in H. destruct H as [H | H]; [exact (Hd H)|exact (Hpost H)]. }
  unfold text.
  unfold format_response_with_links, sub, tokens.
  rewrite !chars_append.
  change (Str.chars "|") with ["|"%char]. change (Str.chars ">") with [">"%char].
  cbn [app].
  rewrite scan_plain_stretch; [|exact Hangle|rewrite !length_append, length_chars; lia].
  rewrite subst_plain, of_chars_chars. f_equal.
  assert (Hwhole : String.length (pre ++ "<link:" ++ u ++ "|" ++ d ++ ">" ++ post)
                   = String.length pre + 8 + String.length u + String.length d
                     + String.length post).
  { rewrite !length_append.
    change (String.length "<link:") with 6. change (String.length "|") with 1.
    change (String.length ">") with 1. lia. }
  rewrite Hwhole, length_chars.
  rewrite (scan_hit _ _ _ _ _ (marker_match _ _ _ Hbar Hline1 Hclose Hline2)).
  - cbn [subst].
    change (group 2 [(2, Str.chars d); (1, Str.chars u)])
      with (Str.of_chars (Str.chars d)).
    rewrite of_chars_chars. f_equal.
    f_equal. symmetry. apply scan_bound; rewrite length_chars; lia.
  - rewrite !length_app. cbn [List.length]. rewrite !length_app. cbn [List.length]. lia.
  - lia.
Qed.

End WellFormedMarker.

(** The marker [Book now] in a sentence. *)
Lemma format_replaces_marker_witness :
  LinkProcessor.format_response_with_links "See <link:https://x.example/|Book now> today"
  = "See Book now today"
  /\ LinkProcessor.format_response_with_links
       (LinkProcessor.format_response_with_links
          "See <link:https://x.example/|Book now> today")
     = LinkProcessor.format_response_with_links
         "See <link:https://x.example/|Book now> today".
Proof.
  assert (Hnot : forall (a : ascii) (s : string),
             existsb (Ascii.eqb a) (Str.chars s) = false -> ~ In a (Str.chars s)).
  { intros a s Hno Hin.
    assert (Hex : existsb (Ascii.eqb a) (Str.chars s) = true).
    { apply existsb_exists. exists a. split; [exact Hin|apply Ascii.eqb_refl]. }
    congruence. }
  apply (format_replaces_marker "See " "https://x.example/" "Book now" " today");
    apply Hnot; reflexivity.
Defined.
